(** * EasyApt backend: scheduling engine and session issuer

    A shallow embedding of [backend/app/models.py], [backend/app/auth.py]
    and [backend/app/appointments.py], and the properties of the booking,
    rescheduling, cancelling, registration, login and token-authentication
    handlers.

    Conventions of the embedding.
    - A table with an integer primary key is a finite map from the key to
      the remaining columns; an ORM object is the key together with its
      columns ([entity]).  Rows are never deleted by any handler.
    - A naive [datetime] (what [datetime.utcnow()] returns and what a
      [DateTime] column holds) is an integer number of microseconds; a
      [timedelta] is a difference of two such numbers.
    - A handler is a function from the committed database to the database
      after the call and either the returned value or the raised exception.
      Every handler commits right after it mutates, and never mutates before
      a check that can still raise, so no uncommitted change is ever lost. *)

From Stdlib Require Import ZArith NArith Lia Ascii String.
From stdpp Require Import base option list strings gmap fin_maps pretty sorting.

Open Scope Z_scope.

(** ** Python values *)

(** What a call can raise: FastAPI's [HTTPException], or an instance of
    another subclass of [Exception], named by its type.  The
    [except Exception] clauses of the handlers catch both.  What is raised
    outside [Exception] (interpreter exit, keyboard interrupt, task
    cancellation) ends the request and is not part of the model. *)
Inductive Exception :=
| HTTPException (status_code : Z) (detail : string)
| PyException (type_name : string).

Inductive outcome (A : Type) :=
| Return (a : A)
| Raise (e : Exception).
Arguments Return {A} a.
Arguments Raise {A} e.

(** A [str] that the code inspects character by character is the list of
    its code points; a [str] that is only stored and compared is a
    [string]. *)
Definition str := list N.

(** [datetime] as pydantic parses it from a request body: the wall-clock
    fields as microseconds, and the UTC offset when the value carries a
    time zone.  [None] is a naive value.  The microseconds count from
    [datetime.min], 0001-01-01T00:00:00, as do the clock readings. *)
Record datetime := { wall : Z; utcoffset : option Z }.

(** [datetime.min], and [datetime.max], 9999-12-31T23:59:59.999999, the
    last microsecond of the day of ordinal 3652059. *)
Definition datetime_min : Z := 0.
Definition datetime_max : Z := 3652059 * 86400 * 1000000 - 1.

Definition naive (t : Z) : datetime := {| wall := t; utcoffset := None |}.

(** [a >= b] on two [datetime]s: naive values compare by wall clock, aware
    values by instant, and a naive with an aware one raises [TypeError]. *)
Definition datetime_ge (a b : datetime) : outcome bool :=
  match utcoffset a, utcoffset b with
  | None, None => Return (wall b <=? wall a)
  | Some oa, Some ob => Return (wall b - ob <=? wall a - oa)
  | _, _ => Raise (PyException "TypeError")
  end.

(** The normalisation of [reschedule_appointment]: [d] itself when it is
    naive, and [d.astimezone(timezone.utc).replace(tzinfo=None)] when it
    is aware.  [astimezone] computes [d - d.utcoffset()], which raises
    [OverflowError] when the result is outside [datetime.min] to
    [datetime.max]. *)
Definition astimezone_utc (d : datetime) : outcome Z :=
  match utcoffset d with
  | Some off =>
      if bool_decide (datetime_min ≤ wall d - off ≤ datetime_max)
      then Return (wall d - off)
      else Raise (PyException "OverflowError")
  | None => Return (wall d)
  end.

Definition minutes (n : Z) : Z := n * 60 * 1000000.
Definition seconds (n : Z) : Z := n * 1000000.

(** ** models.py *)

Record entity (A : Type) := Entity { id : Z; row : A }.
Arguments Entity {A} id row.
Arguments id {A} e.
Arguments row {A} e.

Module User.
Record t := {
  email : string;
  password_hash : string;
  role : string;
  created_at : Z;
  failed_login_attempts : Z;
  lockout_until : option Z;
  last_active : option Z
}.
End User.

Module PatientProfile.
Record t := {
  user_id : Z;
  full_name : string;
  date_of_birth : Z;
  phone : string;
  insurance : option string;
  created_at : Z
}.
End PatientProfile.

Module Provider.
Record t := {
  name : string;
  specialty : option string;
  location : option string;
  created_at : Z
}.
End Provider.

Module Appointment.
Record t := {
  patient_id : Z;
  provider_id : Z;
  start_time : Z;
  end_time : Z;
  status : string;
  reason : option string;
  created_at : Z
}.

Definition with_times (s e : Z) (a : t) : t :=
  {| patient_id := patient_id a; provider_id := provider_id a;
     start_time := s; end_time := e;
     status := status a; reason := reason a; created_at := created_at a |}.

Definition with_status (st : string) (a : t) : t :=
  {| patient_id := patient_id a; provider_id := provider_id a;
     start_time := start_time a; end_time := end_time a;
     status := st; reason := reason a; created_at := created_at a |}.
End Appointment.

(** The response model of the provider dashboard. *)
Module ProviderAppointment.
Record t := {
  id : Z;
  start_time : Z;
  end_time : Z;
  status : string;
  reason : option string;
  patient_name : option string
}.
End ProviderAppointment.

(** ** database.py: the session *)

Record DB := {
  users : gmap Z User.t;
  patient_profiles : gmap Z PatientProfile.t;
  providers : gmap Z Provider.t;
  appointments : gmap Z Appointment.t
}.

Definition set_users (f : gmap Z User.t → gmap Z User.t) (db : DB) : DB :=
  {| users := f (users db); patient_profiles := patient_profiles db;
     providers := providers db; appointments := appointments db |}.

Definition set_appointments
    (f : gmap Z Appointment.t → gmap Z Appointment.t) (db : DB) : DB :=
  {| users := users db; patient_profiles := patient_profiles db;
     providers := providers db; appointments := f (appointments db) |}.

(** [session.get(Model, pk)]. *)
Definition session_get {A} (tbl : gmap Z A) (pk : Z) : option (entity A) :=
  Entity pk <$> tbl !! pk.

(** [session.exec(select(Model).where(...)).all()], in the order the
    database returns the rows. *)
Definition select_where {A} (P : Z → A → bool) (tbl : gmap Z A) : list (entity A) :=
  filter (λ e, P (id e) (row e) = true) ((λ kr, Entity kr.1 kr.2) <$> map_to_list tbl).

(** [.first()]. *)
Definition first {A} (l : list A) : option A := head l.

(** The key the database gives a row on insert: one no row of the table
    has, here one more than the largest key in use (and at least 1). *)
Definition next_id {A} (tbl : gmap Z A) : Z :=
  1 + map_fold (λ k _ acc, Z.max k acc) 0 tbl.

(** A handler: the committed database goes in, the database after the call
    and the value returned or the exception raised come out. *)
Definition handler (A : Type) : Type := DB → DB * outcome A.

#[global] Instance handler_ret : MRet handler := λ A a db, (db, Return a).
#[global] Instance handler_bind : MBind handler := λ A B k m db,
  match m db with
  | (db', Return a) => k a db'
  | (db', Raise e) => (db', Raise e)
  end.

Definition raise {A} (e : Exception) : handler A := λ db, (db, Raise e).
Definition raise_if (c : bool) (e : Exception) : handler unit :=
  if c then raise e else mret tt.
Definition query {A} (f : DB → A) : handler A := λ db, (db, Return (f db)).
Definition commit (f : DB → DB) : handler unit := λ db, (f db, Return tt).
Definition lift {A} (o : outcome A) : handler A := λ db, (db, o).

(** [try: body  except Exception as e: print(...)]: whatever the body
    raises is caught, and nothing is re-raised. *)
Definition try_except_Exception (body : handler unit) : handler unit :=
  λ db, match body db with
        | (db', Return _) => (db', Return tt)
        | (db', Raise _) => (db', Return tt)
        end.

(** ** External collaborators

    The libraries and services the handlers call, and the settings they
    read.  Their internals are not part of this program. *)
Class External := {
  (** [ph.verify(hash, password)] of argon2: [true] when it returns,
      [false] when it raises [VerifyMismatchError], [VerificationError] or
      [InvalidHash]. *)
  argon2_verify : string → str → bool;
  (** [pwd_context.verify(password, hash)] of passlib with the
      [pbkdf2_sha256] scheme; [None] when it raises. *)
  pbkdf2_verify : str → string → option bool;
  (** [ph.hash(password)]. *)
  argon2_hash : str → string;
  (** [jwt.encode] of the claims [sub], [role] and [exp]. *)
  jwt_encode : string → string → Z → string;
  (** [jwt.decode(token, ...).get("sub")] when the clock of the library
      reads the second argument, against which it checks the [exp] claim;
      the outer [None] is a [JWTError] (bad signature, expired,
      malformed). *)
  jwt_decode : string → Z → option (option string);
  (** [int(sub)]; [None] is a [ValueError]. *)
  int_of_str : string → option Z;
  (** The code points beyond ASCII that the [re] module's [\d] matches
      (Unicode category Nd). *)
  unicode_Nd : N → bool;
  (** [int(td.total_seconds() / 60)] of a [timedelta] of that many
      microseconds, as the f-string prints it. *)
  remaining_minutes : Z → string;
  (** The value a [DateTime] column or comparison receives from the
      driver for an aware [datetime] with these wall-clock fields and
      offset. *)
  timestamp_of_aware : Z → Z → Z;
  (** [settings.ACCESS_TOKEN_EXPIRE_MINUTES]. *)
  ACCESS_TOKEN_EXPIRE_MINUTES : Z;
  (** Modelled from the spec: [captcha_service.verify_login(token, ip)],
      whose module is not among the sources.  Verification is advisory: it
      gives a verdict, which [login] only logs. *)
  captcha_verify_login : string → string → bool
}.

(** ** notification_service.py *)

Inductive Notification :=
| send_booking_confirmation
    (patient_phone patient_email patient_name : string)
    (appointment_date : Z) (provider_name : string)
| send_welcome_email (email name : string)
| send_cancellation_email
    (patient_email patient_name : string) (appointment_date : Z)
    (provider_name : string)
| send_reschedule_email
    (patient_email patient_name : string) (old_date new_date : Z)
    (provider_name : string).

(** The dispatcher as the handlers see it: a call returns or raises. *)
Class NotificationService := { notification_service : Notification → outcome unit }.

(** [s.split('@')[0]]. *)
Fixpoint split_at_0 (s : string) : string :=
  match s with
  | EmptyString => EmptyString
  | String c s' => if Ascii.eqb c "@"%char then EmptyString else String c (split_at_0 s')
  end.

(** ** auth.py *)

(** Request and response schemas. *)
Module UserCreate.
Record t := { email : string; password : str; role : option string }.
End UserCreate.

Record Token := { access_token : string; token_type : string }.

(** The readings of [datetime.utcnow()] during one call of [login]: at the
    lockout test, for the remaining minutes of the message, when the
    lockout is set, when [last_active] is recorded, and in
    [create_access_token]. *)
Record login_clock := {
  at_lock_test : Z;
  at_remaining : Z;
  at_lockout : Z;
  at_success : Z;
  at_token : Z
}.

Section auth.
Context `{External, NotificationService}.

(** *** [PASSWORD_POLICY]

    [^(?=.*[a-z])(?=.*[A-Z])(?=.*\d)(?=.*[^A-Za-z0-9]).{12,}$], compiled
    without flags. *)

Definition in_range (lo hi c : N) : bool := ((lo <=? c) && (c <=? hi))%N.

(** [[a-z]], [[A-Z]], [\d], [[^A-Za-z0-9]]. *)
Definition re_lower (c : N) : bool := in_range 97 122 c.
Definition re_upper (c : N) : bool := in_range 65 90 c.
Definition re_digit (c : N) : bool := in_range 48 57 c || unicode_Nd c.
Definition re_special (c : N) : bool :=
  negb (in_range 65 90 c || in_range 97 122 c || in_range 48 57 c).

(** [.]: any character but the line feed. *)
Definition re_dot (c : N) : bool := negb (c =? 10)%N.

(** [(?=.*C)] at the start of the subject: some character of class [C]
    has only characters that [.] matches before it. *)
Fixpoint re_lookahead (C : N → bool) (s : str) : bool :=
  match s with
  | [] => false
  | c :: s' => C c || (re_dot c && re_lookahead C s')
  end.

(** [.{n,}$] on the subject [s]: [.] takes at least [n] characters, and
    [$] then stands at the end of the subject or before a line feed that
    ends it. *)
Fixpoint re_dots_eol (n : nat) (s : str) : bool :=
  match s with
  | [] => bool_decide (n = 0%nat)
  | c :: s' =>
      if re_dot c then re_dots_eol (pred n) s'
      else bool_decide (n = 0%nat) && bool_decide (s' = [])
  end.

Definition PASSWORD_POLICY_match (s : str) : bool :=
  re_lookahead re_lower s && re_lookahead re_upper s &&
  re_lookahead re_digit s && re_lookahead re_special s &&
  re_dots_eol 12 s.

Definition meets_password_policy (password : str) : bool :=
  PASSWORD_POLICY_match password.

(** *** Helper functions *)

Definition get_password_hash (password : str) : string := argon2_hash password.

Definition verify_password (plain_password : str) (hashed_password : string) : bool :=
  if argon2_verify hashed_password plain_password then true
  else match pbkdf2_verify plain_password hashed_password with
       | Some b => b
       | None => false
       end.

(** [data] is the pair of claims [login] passes; [now] is the
    [datetime.utcnow()] of this call.  In
    [expires_delta or timedelta(minutes=ACCESS_TOKEN_EXPIRE_MINUTES)] an
    absent and a zero [expires_delta] both give way to the default. *)
Definition create_access_token (sub role : string) (expires_delta : option Z) (now : Z)
    : string :=
  let delta := match expires_delta with
               | Some d => if d =? 0 then minutes ACCESS_TOKEN_EXPIRE_MINUTES else d
               | None => minutes ACCESS_TOKEN_EXPIRE_MINUTES
               end in
  jwt_encode sub role (now + delta).

Definition get_user_by_email (email : string) : handler (option (entity User.t)) :=
  query (λ db, first (select_where (λ _ u, String.eqb (User.email u) email) (users db))).

Definition credentials_exception : Exception :=
  HTTPException 401 "Could not validate credentials.".

Definition touch (t : Z) (u : User.t) : User.t :=
  {| User.email := User.email u; User.password_hash := User.password_hash u;
     User.role := User.role u; User.created_at := User.created_at u;
     User.failed_login_attempts := User.failed_login_attempts u;
     User.lockout_until := User.lockout_until u;
     User.last_active := Some t |}.

(** *** Dependencies

    [t_decode] is the clock reading of [jwt.decode], which comes first;
    [t_check] is the clock reading of the inactivity test, [t_update]
    the later one stored in [last_active].  [inactivity_seconds > 30]
    compares a float, the correctly rounded quotient of the elapsed
    microseconds by [10**6], with 30; rounding is monotone and 30 is a
    float, so the test holds exactly when the elapsed microseconds
    exceed 30 000 000. *)
Definition get_current_user (token : string) (t_decode t_check t_update : Z)
    : handler (entity User.t) :=
  user_id ← match jwt_decode token t_decode with
            | None => raise credentials_exception
            | Some None => raise credentials_exception
            | Some (Some sub) =>
                match int_of_str sub with
                | None => raise credentials_exception
                | Some n => mret n
                end
            end;
  found ← query (λ db, session_get (users db) user_id);
  match found with
  | None => raise credentials_exception
  | Some user =>
      raise_if (match User.last_active (row user) with
                | Some last => seconds 30 <? t_check - last
                | None => false
                end)
               (HTTPException 401
                  "Session expired due to inactivity. Please log in again.");;
      let user' := Entity (id user) (touch t_update (row user)) in
      commit (set_users (insert (id user') (row user')));;
      mret user'
  end.

(** *** Routes *)

(** [x or "patient"]. *)
Definition or_patient (r : option string) : string :=
  match r with
  | Some (String c s) => String c s
  | _ => "patient"
  end.

Definition register (user_in : UserCreate.t) (now : Z) : handler (entity User.t) :=
  existing ← get_user_by_email (UserCreate.email user_in);
  raise_if (bool_decide (is_Some existing))
           (HTTPException 400 "A user with this email already exists.");;
  raise_if (negb (meets_password_policy (UserCreate.password user_in)))
           (HTTPException 400
              "Password must be at least 12 characters with uppercase, lowercase, digit, and special character.");;
  let new := {| User.email := UserCreate.email user_in;
                User.password_hash := get_password_hash (UserCreate.password user_in);
                User.role := or_patient (UserCreate.role user_in);
                User.created_at := now;
                User.failed_login_attempts := 0;
                User.lockout_until := None;
                User.last_active := None |} in
  pk ← query (λ db, next_id (users db));
  commit (set_users (insert pk new));;
  let user := Entity pk new in
  try_except_Exception
    (lift (notification_service
             (send_welcome_email (User.email (row user))
                                 (split_at_0 (User.email (row user))))));;
  mret user.

Definition with_login_state
    (attempts : Z) (lockout : option Z) (active : option Z) (u : User.t) : User.t :=
  {| User.email := User.email u; User.password_hash := User.password_hash u;
     User.role := User.role u; User.created_at := User.created_at u;
     User.failed_login_attempts := attempts;
     User.lockout_until := lockout;
     User.last_active := active |}.

(** [if recaptcha_token: ... else: ...]: the verdict, when a token came
    with the form, goes to the log and nowhere else. *)
Definition captcha_step (recaptcha_token : option string) (remote_ip : string)
    : option bool :=
  match recaptcha_token with
  | Some (String c tok) => Some (captcha_verify_login (String c tok) remote_ip)
  | _ => None
  end.

(** The body of [login] up to its first [return]; the statements after
    it are unreachable.  The clock readings are those of the
    [datetime.utcnow()] calls, in the order of the source. *)
Definition login (username : string) (password : str)
    (recaptcha_token : option string) (remote_ip : string) (clock : login_clock)
    : handler Token :=
  let _ := captcha_step recaptcha_token remote_ip in
  found ← get_user_by_email username;
  match found with
  | None => raise (HTTPException 401 "Incorrect email or password")
  | Some user =>
      let u := row user in
      match User.lockout_until u with
      | Some until =>
          raise_if (at_lock_test clock <? until)
            (HTTPException 403
               ("Account locked due to too many failed attempts. Try again in "
                +:+ remaining_minutes (until - at_remaining clock) +:+ " minutes."))
      | None => mret tt
      end;;
      if negb (verify_password password (User.password_hash u)) then
        let attempts := User.failed_login_attempts u + 1 in
        if 5 <=? attempts then
          commit (set_users (insert (id user)
            (with_login_state attempts (Some (at_lockout clock + minutes 15))
                              (User.last_active u) u)));;
          raise (HTTPException 403
            "Account locked due to too many failed attempts. Locked for 15 minutes.")
        else
          commit (set_users (insert (id user)
            (with_login_state attempts (User.lockout_until u)
                              (User.last_active u) u)));;
          raise (HTTPException 401 "Incorrect email or password")
      else
        commit (set_users (insert (id user)
          (with_login_state 0 None (Some (at_success clock)) u)));;
        mret {| access_token :=
                  create_access_token (pretty (id user)) (User.role u)
                    (Some (minutes ACCESS_TOKEN_EXPIRE_MINUTES)) (at_token clock);
                token_type := "bearer" |}
  end.
End auth.

(** ** appointments.py *)

Module AppointmentBook.
Record t := {
  provider_id : Z;
  start_time : datetime;
  end_time : datetime;
  reason : option string
}.
End AppointmentBook.

Module AppointmentReschedule.
Record t := { start_time : datetime; end_time : datetime }.
End AppointmentReschedule.

(** The order of [Appointment.start_time] on the rows of the dashboard. *)
Definition start_time_le (x y : ProviderAppointment.t) : Prop :=
  ProviderAppointment.start_time x ≤ ProviderAppointment.start_time y.

#[global] Instance start_time_le_dec : RelDecision start_time_le.
Proof. intros x y. unfold start_time_le. apply _. Defined.

Section appointments.
Context `{External, NotificationService}.

(** A request [datetime] as a statement parameter or column value. *)
Definition to_column (d : datetime) : Z :=
  match utcoffset d with
  | None => wall d
  | Some off => timestamp_of_aware (wall d) off
  end.

(** The [where] clause of the overlap query of [book_appointment]. *)
Definition overlap_stmt (provider_id start_time end_time : Z) (_ : Z) (a : Appointment.t)
    : bool :=
  (Appointment.provider_id a =? provider_id) &&
  String.eqb (Appointment.status a) "booked" &&
  (Appointment.start_time a <? end_time) &&
  (start_time <? Appointment.end_time a).

(** The same with [Appointment.id != appt.id], of [reschedule_appointment]. *)
Definition overlap_stmt_excluding (own : Z) (provider_id start_time end_time : Z)
    (pk : Z) (a : Appointment.t) : bool :=
  (Appointment.provider_id a =? provider_id) &&
  String.eqb (Appointment.status a) "booked" &&
  negb (pk =? own) &&
  (Appointment.start_time a <? end_time) &&
  (start_time <? Appointment.end_time a).

Definition get_profile (user_id : Z) : handler (option (entity PatientProfile.t)) :=
  query (λ db, first (select_where (λ _ p, PatientProfile.user_id p =? user_id)
                                   (patient_profiles db))).

Definition truthy (s : string) : bool := negb (String.eqb s EmptyString).

(** [profile.full_name if (profile and profile.full_name) else
    current_user.email.split('@')[0]]. *)
Definition patient_name_of (profile : option (entity PatientProfile.t))
    (current_user : entity User.t) : string :=
  match profile with
  | Some p =>
      if truthy (PatientProfile.full_name (row p))
      then PatientProfile.full_name (row p)
      else split_at_0 (User.email (row current_user))
  | None => split_at_0 (User.email (row current_user))
  end.

(** [profile.phone] when there is a profile and its phone is not empty,
    else the empty string. *)
Definition patient_phone_of (profile : option (entity PatientProfile.t)) : string :=
  match profile with
  | Some p =>
      if truthy (PatientProfile.phone (row p))
      then PatientProfile.phone (row p) else EmptyString
  | None => EmptyString
  end.

(** [provider.name if provider else "Your provider"]. *)
Definition provider_name_of (provider : option (entity Provider.t)) : string :=
  match provider with
  | Some p => Provider.name (row p)
  | None => "Your provider"
  end.

(** The [Appointment(...)] that [book_appointment] adds to the session. *)
Definition new_appointment (booking : AppointmentBook.t)
    (current_user : entity User.t) (now : Z) : Appointment.t :=
  {| Appointment.patient_id := id current_user;
     Appointment.provider_id := AppointmentBook.provider_id booking;
     Appointment.start_time := to_column (AppointmentBook.start_time booking);
     Appointment.end_time := to_column (AppointmentBook.end_time booking);
     Appointment.status := "booked";
     Appointment.reason := AppointmentBook.reason booking;
     Appointment.created_at := now |}.

Definition book_appointment (booking : AppointmentBook.t)
    (current_user : entity User.t) (now : Z) : handler (entity Appointment.t) :=
  found ← query (λ db, session_get (providers db) (AppointmentBook.provider_id booking));
  match found with
  | None => raise (HTTPException 404 "Provider not found.")
  | Some provider =>
      not_before ← lift (datetime_ge (AppointmentBook.start_time booking)
                                     (AppointmentBook.end_time booking));
      raise_if not_before (HTTPException 400 "start_time must be before end_time.");;
      let start_time := to_column (AppointmentBook.start_time booking) in
      let end_time := to_column (AppointmentBook.end_time booking) in
      existing ← query (λ db,
        first (select_where
                 (overlap_stmt (AppointmentBook.provider_id booking) start_time end_time)
                 (appointments db)));
      raise_if (bool_decide (is_Some existing))
        (HTTPException 400 "This time slot is already booked for this provider.");;
      let appt := new_appointment booking current_user now in
      pk ← query (λ db, next_id (appointments db));
      commit (set_appointments (insert pk appt));;
      try_except_Exception
        (profile ← get_profile (id current_user);
         lift (notification_service
                 (send_booking_confirmation
                    (patient_phone_of profile)
                    (User.email (row current_user))
                    (patient_name_of profile current_user)
                    (Appointment.start_time appt)
                    (Provider.name (row provider)))));;
      mret (Entity pk appt)
  end.

Definition reschedule_appointment (appointment_id : Z)
    (body : AppointmentReschedule.t) (current_user : entity User.t)
    : handler (entity Appointment.t) :=
  found ← query (λ db, session_get (appointments db) appointment_id);
  match found with
  | None => raise (HTTPException 404 "Appointment not found.")
  | Some appt =>
      raise_if (negb (Appointment.patient_id (row appt) =? id current_user))
        (HTTPException 403 "You can only reschedule your own appointments.");;
      start ← lift (astimezone_utc (AppointmentReschedule.start_time body));
      end_ ← lift (astimezone_utc (AppointmentReschedule.end_time body));
      raise_if (end_ <=? start)
        (HTTPException 400 "start_time must be before end_time");;
      existing ← query (λ db,
        first (select_where
                 (overlap_stmt_excluding (id appt)
                    (Appointment.provider_id (row appt)) start end_)
                 (appointments db)));
      raise_if (bool_decide (is_Some existing))
        (HTTPException 400 "This time slot is already booked for this provider.");;
      let old_start_time := Appointment.start_time (row appt) in
      let appt' := Entity (id appt) (Appointment.with_times start end_ (row appt)) in
      commit (set_appointments (insert (id appt') (row appt')));;
      try_except_Exception
        (profile ← get_profile (id current_user);
         provider ← query (λ db, session_get (providers db)
                                    (Appointment.provider_id (row appt')));
         lift (notification_service
                 (send_reschedule_email
                    (User.email (row current_user))
                    (patient_name_of profile current_user)
                    old_start_time
                    (Appointment.start_time (row appt'))
                    (provider_name_of provider))));;
      mret appt'
  end.

(** The JSON object [cancel_appointment] answers with. *)
Definition cancelled_message : list (string * string) :=
  [("message", "Appointment cancelled")].

Definition cancel_appointment (appointment_id : Z) (current_user : entity User.t)
    : handler (list (string * string)) :=
  found ← query (λ db, session_get (appointments db) appointment_id);
  match found with
  | None => raise (HTTPException 404 "Appointment not found.")
  | Some appt =>
      raise_if (negb (Appointment.patient_id (row appt) =? id current_user))
        (HTTPException 403 "You can only cancel your own appointments.");;
      let appt' := Entity (id appt) (Appointment.with_status "cancelled" (row appt)) in
      commit (set_appointments (insert (id appt') (row appt')));;
      try_except_Exception
        (profile ← get_profile (id current_user);
         provider ← query (λ db, session_get (providers db)
                                    (Appointment.provider_id (row appt')));
         lift (notification_service
                 (send_cancellation_email
                    (User.email (row current_user))
                    (patient_name_of profile current_user)
                    (Appointment.start_time (row appt'))
                    (provider_name_of provider))));;
      mret cancelled_message
  end.

(** One row of the dashboard query for the appointment [a] and the
    [full_name] the outer join found for it. *)
Definition dashboard_row (a : entity Appointment.t) (full_name : option string)
    : ProviderAppointment.t :=
  {| ProviderAppointment.id := id a;
     ProviderAppointment.start_time := Appointment.start_time (row a);
     ProviderAppointment.end_time := Appointment.end_time (row a);
     ProviderAppointment.status := Appointment.status (row a);
     ProviderAppointment.reason := Appointment.reason (row a);
     ProviderAppointment.patient_name := full_name |}.

(** [.join(PatientProfile, PatientProfile.user_id == Appointment.patient_id,
    isouter=True)]: a row per matching profile, and one row with a null
    name when there is none. *)
Definition outer_join_profile (profiles : gmap Z PatientProfile.t)
    (a : entity Appointment.t) : list ProviderAppointment.t :=
  match select_where
          (λ _ p, PatientProfile.user_id p =? Appointment.patient_id (row a))
          profiles with
  | [] => [dashboard_row a None]
  | ps => (λ p, dashboard_row a (Some (PatientProfile.full_name (row p)))) <$> ps
  end.

(** [.order_by(Appointment.start_time)]. *)
Definition order_by_start_time (rows : list ProviderAppointment.t)
    : list ProviderAppointment.t :=
  merge_sort start_time_le rows.

Definition get_provider_dashboard (current_user : entity User.t)
    : handler (list ProviderAppointment.t) :=
  raise_if (negb (String.eqb (User.role (row current_user)) "provider"))
    (HTTPException 403 "Must be logged in as a provider");;
  query (λ db,
    order_by_start_time
      (select_where
         (λ _ a, (Appointment.provider_id a =? id current_user) &&
                 String.eqb (Appointment.status a) "booked")
         (appointments db)
       ≫= outer_join_profile (patient_profiles db))).

(** The scheduling requests, and the state a sequence of them leaves. *)
Inductive request :=
| Book (booking : AppointmentBook.t) (current_user : entity User.t) (now : Z)
| Reschedule (appointment_id : Z) (body : AppointmentReschedule.t)
             (current_user : entity User.t)
| Cancel (appointment_id : Z) (current_user : entity User.t).

Definition serve (r : request) (db : DB) : DB :=
  match r with
  | Book booking u now => (book_appointment booking u now db).1
  | Reschedule k body u => (reschedule_appointment k body u db).1
  | Cancel k u => (cancel_appointment k u db).1
  end.

Definition serve_all (rs : list request) (db : DB) : DB :=
  foldl (λ db r, serve r db) db rs.
End appointments.

(** ** appointments.py: the provider directory and the listings *)

Definition set_providers (f : gmap Z Provider.t → gmap Z Provider.t) (db : DB) : DB :=
  {| users := users db; patient_profiles := patient_profiles db;
     providers := f (providers db); appointments := appointments db |}.

Definition set_patient_profiles
    (f : gmap Z PatientProfile.t → gmap Z PatientProfile.t) (db : DB) : DB :=
  {| users := users db; patient_profiles := f (patient_profiles db);
     providers := providers db; appointments := appointments db |}.

Module ProviderCreate.
Record t := { name : string; specialty : option string; location : option string }.
End ProviderCreate.

(** The order of [Appointment.start_time] on appointments. *)
Definition appointment_start_le (x y : entity Appointment.t) : Prop :=
  Appointment.start_time (row x) ≤ Appointment.start_time (row y).

#[global] Instance appointment_start_le_dec : RelDecision appointment_start_le.
Proof. intros x y. unfold appointment_start_le. apply _. Defined.

(** [now] is the [created_at] default of the new row. *)
Definition create_provider (provider_in : ProviderCreate.t)
    (current_user : entity User.t) (now : Z) : handler (entity Provider.t) :=
  let provider := {| Provider.name := ProviderCreate.name provider_in;
                     Provider.specialty := ProviderCreate.specialty provider_in;
                     Provider.location := ProviderCreate.location provider_in;
                     Provider.created_at := now |} in
  pk ← query (λ db, next_id (providers db));
  commit (set_providers (insert pk provider));;
  mret (Entity pk provider).

Definition list_providers (current_user : entity User.t)
    : handler (list (entity Provider.t)) :=
  query (λ db, select_where (λ _ _, true) (providers db)).

(** [now] is the [datetime.utcnow()] of the call. *)
Definition list_provider_appointments (provider_id : Z)
    (current_user : entity User.t) (now : Z) : handler (list (entity Appointment.t)) :=
  query (λ db,
    merge_sort appointment_start_le
      (select_where
         (λ _ a, (Appointment.provider_id a =? provider_id) &&
                 (now <=? Appointment.start_time a))
         (appointments db))).

Definition list_my_appointments (current_user : entity User.t)
    : handler (list (entity Appointment.t)) :=
  query (λ db,
    select_where (λ _ a, Appointment.patient_id a =? id current_user)
                 (appointments db)).

(** ** auth.py: the remaining functions *)

Section auth_rest.
Context `{External}.

Definition authenticate_user (email : string) (password : str)
    : handler (option (entity User.t)) :=
  user ← get_user_by_email email;
  match user with
  | None => mret None
  | Some u =>
      if negb (verify_password password (User.password_hash (row u)))
      then mret None
      else mret (Some u)
  end.

Definition read_me (current_user : entity User.t) : handler (entity User.t) :=
  mret current_user.

(** A route with [current_user: User = Depends(get_current_user)]: the
    dependency runs first, on the session of the request, and the route
    gets the user it returns. *)
Definition Depends_get_current_user {A} (token : string)
    (t_decode t_check t_update : Z)
    (route : entity User.t → handler A) : handler A :=
  current_user ← get_current_user token t_decode t_check t_update;
  route current_user.
End auth_rest.

(** ** profile.py *)

Module PatientProfileUpdate.
Record t := {
  full_name : string;
  date_of_birth : Z;
  phone : string;
  insurance : option string
}.
End PatientProfileUpdate.

Definition get_my_profile (current_user : entity User.t)
    : handler (option (entity PatientProfile.t)) :=
  query (λ db, first (select_where
                        (λ _ p, PatientProfile.user_id p =? id current_user)
                        (patient_profiles db))).

(** [now] is the [created_at] default of a new row. *)
Definition upsert_my_profile (profile_in : PatientProfileUpdate.t)
    (current_user : entity User.t) (now : Z) : handler (entity PatientProfile.t) :=
  profile ← query (λ db, first (select_where
                                  (λ _ p, PatientProfile.user_id p =? id current_user)
                                  (patient_profiles db)));
  match profile with
  | None =>
      let new := {| PatientProfile.user_id := id current_user;
                    PatientProfile.full_name := PatientProfileUpdate.full_name profile_in;
                    PatientProfile.date_of_birth :=
                      PatientProfileUpdate.date_of_birth profile_in;
                    PatientProfile.phone := PatientProfileUpdate.phone profile_in;
                    PatientProfile.insurance := PatientProfileUpdate.insurance profile_in;
                    PatientProfile.created_at := now |} in
      pk ← query (λ db, next_id (patient_profiles db));
      commit (set_patient_profiles (insert pk new));;
      mret (Entity pk new)
  | Some found =>
      let updated := {| PatientProfile.user_id := PatientProfile.user_id (row found);
                        PatientProfile.full_name :=
                          PatientProfileUpdate.full_name profile_in;
                        PatientProfile.date_of_birth :=
                          PatientProfileUpdate.date_of_birth profile_in;
                        PatientProfile.phone := PatientProfileUpdate.phone profile_in;
                        PatientProfile.insurance :=
                          PatientProfileUpdate.insurance profile_in;
                        PatientProfile.created_at :=
                          PatientProfile.created_at (row found) |} in
      commit (set_patient_profiles (insert (id found) updated));;
      mret (Entity (id found) updated)
  end.

(** ** create_provider.py and fix_provider_password.py

    The two maintenance scripts.  Each opens a session of its own; a run
    is a function on the database.  The hashes are salted: [salt] is what
    the run of [pwd_context.hash] drew. *)

Class Passlib := {
  (** [CryptContext(schemes=["bcrypt"]).hash]. *)
  bcrypt_hash : string → str → string;
  (** [CryptContext(schemes=["pbkdf2_sha256"]).hash]. *)
  pbkdf2_sha256_hash : string → str → string
}.

Definition with_role (r : string) (u : User.t) : User.t :=
  {| User.email := User.email u; User.password_hash := User.password_hash u;
     User.role := r; User.created_at := User.created_at u;
     User.failed_login_attempts := User.failed_login_attempts u;
     User.lockout_until := User.lockout_until u;
     User.last_active := User.last_active u |}.

Definition with_password_hash (h : string) (u : User.t) : User.t :=
  {| User.email := User.email u; User.password_hash := h;
     User.role := User.role u; User.created_at := User.created_at u;
     User.failed_login_attempts := User.failed_login_attempts u;
     User.lockout_until := User.lockout_until u;
     User.last_active := User.last_active u |}.

Module create_provider_py.
Section script.
Context `{Passlib}.

(** [t_user] and [t_provider] are the clock readings that a new user row
    and a new provider row take as [created_at]. *)
Definition create_provider (email : string) (password : str) (name : string)
    (salt : string) (t_user t_provider : Z) : handler unit :=
  let hashed_password := bcrypt_hash salt password in
  existing ← query (λ db,
    first (select_where (λ _ u, String.eqb (User.email u) email) (users db)));
  match existing with
  | Some found =>
      commit (set_users (insert (id found) (with_role "provider" (row found))))
  | None =>
      let new_user := {| User.email := email;
                         User.password_hash := hashed_password;
                         User.role := "provider";
                         User.created_at := t_user;
                         User.failed_login_attempts := 0;
                         User.lockout_until := None;
                         User.last_active := None |} in
      pk ← query (λ db, next_id (users db));
      commit (set_users (insert pk new_user))
  end;;
  provider_profile ← query (λ db,
    first (select_where (λ _ p, String.eqb (Provider.name p) name) (providers db)));
  match provider_profile with
  | None =>
      let new_provider := {| Provider.name := name;
                             Provider.specialty := Some "General Practice";
                             Provider.location := None;
                             Provider.created_at := t_provider |} in
      pk ← query (λ db, next_id (providers db));
      commit (set_providers (insert pk new_provider))
  | Some _ => mret tt
  end.
End script.
End create_provider_py.

Module fix_provider_password_py.
Section script.
Context `{Passlib}.

Definition fix_provider_password (email : string) (new_password : str)
    (salt : string) : handler unit :=
  let hashed_password := pbkdf2_sha256_hash salt new_password in
  user ← query (λ db,
    first (select_where (λ _ u, String.eqb (User.email u) email) (users db)));
  match user with
  | None => mret tt
  | Some found =>
      commit (set_users (insert (id found)
                (with_password_hash hashed_password (row found))))
  end.
End script.
End fix_provider_password_py.

(** ** Sequences of calls to the session issuer *)

Section auth_requests.
Context `{External, NotificationService}.

Inductive auth_request :=
| Register (user_in : UserCreate.t) (now : Z)
| Login (username : string) (password : str) (recaptcha_token : option string)
        (remote_ip : string) (clock : login_clock)
| Authenticate (token : string) (t_decode t_check t_update : Z).

Definition serve_auth (r : auth_request) (db : DB) : DB :=
  match r with
  | Register user_in now => (register user_in now db).1
  | Login username password captcha ip clock =>
      (login username password captcha ip clock db).1
  | Authenticate token t_decode t_check t_update =>
      (get_current_user token t_decode t_check t_update db).1
  end.

Definition serve_auth_all (rs : list auth_request) (db : DB) : DB :=
  foldl (λ db r, serve_auth r db) db rs.
End auth_requests.

(** A sequence of profile saves, each by some user at some time. *)
Definition save_profiles
    (rs : list (PatientProfileUpdate.t * entity User.t * Z)) (db : DB) : DB :=
  foldl (λ db r, (upsert_my_profile r.1.1 r.1.2 r.2 db).1) db rs.

(** ** The vocabulary of the properties *)

(** Two appointments overlap when their half-open ranges
    [[start_time, end_time)] do, by the test the queries use. *)
Definition overlaps (a b : Appointment.t) : Prop :=
  Appointment.start_time a < Appointment.end_time b ∧
  Appointment.start_time b < Appointment.end_time a.

(** The half-open ranges [[s, e)] and [[s', e')] have an instant in common. *)
Definition ranges_intersect (s e s' e' : Z) : Prop :=
  ∃ t, (s ≤ t ∧ t < e) ∧ (s' ≤ t ∧ t < e').

Definition booked (a : Appointment.t) : Prop := Appointment.status a = "booked".
Definition cancelled (a : Appointment.t) : Prop := Appointment.status a = "cancelled".

(** No two distinct booked appointments of one provider overlap. *)
Definition no_overlap (tbl : gmap Z Appointment.t) : Prop :=
  ∀ i j a b,
    i ≠ j → tbl !! i = Some a → tbl !! j = Some b →
    Appointment.provider_id a = Appointment.provider_id b →
    booked a → booked b → ¬ overlaps a b.

(** A range [[s, e)] is free for a provider when it overlaps none of the
    provider's booked appointments, the one under key [own] apart. *)
Definition free_for (tbl : gmap Z Appointment.t) (own : option Z)
    (provider_id s e : Z) : Prop :=
  ∀ k a,
    tbl !! k = Some a → Some k ≠ own →
    Appointment.provider_id a = provider_id → booked a →
    ¬ (Appointment.start_time a < e ∧ s < Appointment.end_time a).

(** The wall clock of [d] in UTC, the canonical time zone of a
    reschedule: the offset is taken off an aware value, and a naive value
    stands as it is. *)
Definition utc_wall (d : datetime) : Z := wall d - default 0 (utcoffset d).

(** An aware [d] whose UTC wall clock is a [datetime], or a naive [d]:
    the values that have a normalised form. *)
Definition utc_representable (d : datetime) : Prop :=
  is_Some (utcoffset d) → datetime_min ≤ utc_wall d ≤ datetime_max.

(** A request is a reschedule of the appointment [k]. *)
Definition reschedules (k : Z) (r : request) : Prop :=
  match r with
  | Reschedule k' _ _ => k' = k
  | _ => False
  end.

(** Two rows differ at most in their times. *)
Definition same_but_times (a a' : Appointment.t) : Prop :=
  Appointment.patient_id a' = Appointment.patient_id a ∧
  Appointment.provider_id a' = Appointment.provider_id a ∧
  Appointment.status a' = Appointment.status a ∧
  Appointment.reason a' = Appointment.reason a ∧
  Appointment.created_at a' = Appointment.created_at a.

(** The policy in the words of the error message of [register]: at least
    12 characters, with a lowercase letter, an uppercase letter, a digit and
    a special character (one that is no ASCII letter or digit). *)
Definition password_policy `{External} (password : str) : bool :=
  bool_decide (12 ≤ length password)%nat &&
  existsb re_lower password && existsb re_upper password &&
  existsb re_digit password && existsb re_special password.

(** The user row a lookup by email finds, if any. *)
Definition user_by_email (db : DB) (email : string) : option (entity User.t) :=
  first (select_where (λ _ u, String.eqb (User.email u) email) (users db)).

(** The lockout test of [login] at the clock reading [t]. *)
Definition locked_at (t : Z) (u : User.t) : Prop :=
  ∃ until, User.lockout_until u = Some until ∧ t < until.

(** The [unique=True] constraint of the [email] column. *)
Definition unique_emails (tbl : gmap Z User.t) : Prop :=
  ∀ i j u v, tbl !! i = Some u → tbl !! j = Some v →
             User.email u = User.email v → i = j.

(** The profile the outer join of the dashboard pairs with an
    appointment: none when the patient has no profile row, else the
    [full_name] of one of the patient's rows. *)
Definition joined_name (profiles : gmap Z PatientProfile.t) (a : Appointment.t)
    (name : option string) : Prop :=
  (name = None ∧
   ∀ k p, profiles !! k = Some p →
          PatientProfile.user_id p ≠ Appointment.patient_id a) ∨
  (∃ k p, profiles !! k = Some p ∧
          PatientProfile.user_id p = Appointment.patient_id a ∧
          name = Some (PatientProfile.full_name p)).

(** A patient has at most one profile row (what [upsert_my_profile]
    maintains). *)
Definition one_profile_per_user (profiles : gmap Z PatientProfile.t) : Prop :=
  ∀ i j p q, profiles !! i = Some p → profiles !! j = Some q →
             PatientProfile.user_id p = PatientProfile.user_id q → i = j.

(** The user a scheduling request is made by. *)
Definition requester (r : request) : Z :=
  match r with
  | Book _ u _ => id u
  | Reschedule _ _ u => id u
  | Cancel _ u => id u
  end.

(** What no request changes in an appointment. *)
Definition same_booking (a a' : Appointment.t) : Prop :=
  Appointment.patient_id a' = Appointment.patient_id a ∧
  Appointment.provider_id a' = Appointment.provider_id a ∧
  Appointment.reason a' = Appointment.reason a ∧
  Appointment.created_at a' = Appointment.created_at a.

(** Every stored appointment starts before it ends. *)
Definition valid_ranges (tbl : gmap Z Appointment.t) : Prop :=
  ∀ k a, tbl !! k = Some a → Appointment.start_time a < Appointment.end_time a.

(** The driver keeps the order of instants when it turns aware values
    into column values. *)
Definition order_preserving_driver `{External} : Prop :=
  ∀ w off w' off', w - off < w' - off' →
                   timestamp_of_aware w off < timestamp_of_aware w' off'.

(** The rows a listing returned; none if it raised. *)
Definition returned {A} (r : DB * outcome (list A)) : list A :=
  match r.2 with
  | Return l => l
  | Raise _ => []
  end.

(** What identifies an account: the columns that no login and no
    authenticated request changes. *)
Definition same_account (u u' : User.t) : Prop :=
  User.email u' = User.email u ∧
  User.password_hash u' = User.password_hash u ∧
  User.role u' = User.role u ∧
  User.created_at u' = User.created_at u.

(** The error of [get_current_user] for a session that was idle too long. *)
Definition session_expired : Exception :=
  HTTPException 401 "Session expired due to inactivity. Please log in again.".

(** The account behind [username] has five or more failed attempts on
    its counter. *)
Definition exhausted (db : DB) (username : string) : Prop :=
  ∃ user, user_by_email db username = Some user ∧
          5 ≤ User.failed_login_attempts (row user).

(** The profile row carries the four fields of the request. *)
Definition saved_as (profile_in : PatientProfileUpdate.t) (p : PatientProfile.t) : Prop :=
  PatientProfile.full_name p = PatientProfileUpdate.full_name profile_in ∧
  PatientProfile.date_of_birth p = PatientProfileUpdate.date_of_birth profile_in ∧
  PatientProfile.phone p = PatientProfileUpdate.phone profile_in ∧
  PatientProfile.insurance p = PatientProfileUpdate.insurance profile_in.

(** The passwords the error message of [register] does not describe but
    the pattern decides on: one line of at least 12 characters with a
    lowercase letter, an uppercase letter and a digit, then nothing or one
    final line feed; the special character is in the line, or is that
    line feed. *)
Definition accepted_password `{External} (password : str) : Prop :=
  ∃ line rest,
    password = line ++ rest ∧
    Forall (λ c, c ≠ 10%N) line ∧ (rest = [] ∨ rest = [10%N]) ∧
    (12 ≤ length line)%nat ∧
    existsb re_lower line = true ∧ existsb re_upper line = true ∧
    existsb re_digit line = true ∧
    (existsb re_special line = true ∨ rest = [10%N]).

(** One of two [datetime]s is naive and the other aware. *)
Definition mixed_awareness (a b : datetime) : Prop :=
  (utcoffset a = None ∧ is_Some (utcoffset b)) ∨
  (is_Some (utcoffset a) ∧ utcoffset b = None).

(** The two steps of a run of [create_provider.py], as functions on the
    database: the user is promoted or created, then the provider row is
    created unless one with the name exists. *)
Definition script_user_step `{Passlib} (email : string) (password : str)
    (salt : string) (t_user : Z) (db : DB) : DB :=
  match user_by_email db email with
  | Some found =>
      set_users (insert (id found) (with_role "provider" (row found))) db
  | None =>
      set_users (insert (next_id (users db))
        {| User.email := email;
           User.password_hash := bcrypt_hash salt password;
           User.role := "provider"; User.created_at := t_user;
           User.failed_login_attempts := 0;
           User.lockout_until := None; User.last_active := None |}) db
  end.

Definition provider_by_name (db : DB) (name : string) : option (entity Provider.t) :=
  first (select_where (λ _ p, String.eqb (Provider.name p) name) (providers db)).

Definition script_provider_step (name : string) (t_provider : Z) (db : DB) : DB :=
  match provider_by_name db name with
  | Some _ => db
  | None =>
      set_providers (insert (next_id (providers db))
        {| Provider.name := name;
           Provider.specialty := Some "General Practice";
           Provider.location := None;
           Provider.created_at := t_provider |}) db
  end.

(** ** A test configuration

    Stand-ins for the libraries, two dispatchers, and a small database:
    the inputs of the examples below. *)
Module Fixture.
Definition fake_hash (password : str) : string :=
  "hash:" +:+ pretty (foldr N.add 0%N password).

(** The JWT decoder of [libraries] takes any text but the empty one as a
    token that names itself as subject and has not expired. *)
Definition libraries : External := {|
  argon2_verify := λ h p, String.eqb h (fake_hash p);
  pbkdf2_verify := λ _ _, None;
  argon2_hash := fake_hash;
  jwt_encode := λ sub role exp, sub +:+ "." +:+ role +:+ "." +:+ pretty exp;
  jwt_decode := λ t _, if String.eqb t EmptyString then None else Some (Some t);
  int_of_str := λ s, if String.eqb s "1" then Some 1
                     else if String.eqb s "2" then Some 2 else None;
  unicode_Nd := λ c, in_range 1632 1641 c;
  remaining_minutes := λ us, pretty (Z.quot us 60000000);
  timestamp_of_aware := λ w off, w - off;
  ACCESS_TOKEN_EXPIRE_MINUTES := 60;
  captcha_verify_login := λ _ _, false
|}.

Definition failing_dispatcher : NotificationService :=
  {| notification_service := λ _, Raise (PyException "ConnectionError") |}.

(** ["Aa1!aaaaaaaa"], and the same with a line feed and a [b] after it. *)
Definition good_password : str :=
  [65; 97; 49; 33; 97; 97; 97; 97; 97; 97; 97; 97]%N.
Definition password_with_line_feed : str := good_password ++ [10; 98]%N.
Definition wrong_password : str := [119; 114; 111; 110; 103]%N.

Definition alice : entity User.t :=
  Entity 1 {| User.email := "alice@example.com";
              User.password_hash := fake_hash good_password;
              User.role := "patient"; User.created_at := 0;
              User.failed_login_attempts := 0;
              User.lockout_until := None; User.last_active := None |}.

(** The account [create_provider.py] makes: a user with the provider
    role, and a provider row that nothing ties to it. *)
Definition dr_smith_user : entity User.t :=
  Entity 2 {| User.email := "dr.smith@example.com";
              User.password_hash := fake_hash good_password;
              User.role := "provider"; User.created_at := 0;
              User.failed_login_attempts := 0;
              User.lockout_until := None; User.last_active := None |}.

Definition provider (name : string) : Provider.t :=
  {| Provider.name := name; Provider.specialty := Some "General Practice";
     Provider.location := None; Provider.created_at := 0 |}.

Definition db0 : DB :=
  {| users := {[ 1 := row alice; 2 := row dr_smith_user ]};
     patient_profiles := ∅;
     providers := {[ 2 := provider "Dr. Other"; 7 := provider "Dr. Sarah Smith" ]};
     appointments := ∅ |}.

(** A booking of the provider [pid] from [s] to [e] minutes after
    midnight, both naive. *)
Definition slot (pid s e : Z) : AppointmentBook.t :=
  {| AppointmentBook.provider_id := pid;
     AppointmentBook.start_time := naive (minutes s);
     AppointmentBook.end_time := naive (minutes e);
     AppointmentBook.reason := Some "checkup" |}.

Definition move (s e : Z) : AppointmentReschedule.t :=
  {| AppointmentReschedule.start_time := naive (minutes s);
     AppointmentReschedule.end_time := naive (minutes e) |}.

(** The same with both times given at the UTC offset of [off] minutes. *)
Definition move_aware (off s e : Z) : AppointmentReschedule.t :=
  {| AppointmentReschedule.start_time :=
       {| wall := minutes s; utcoffset := Some (minutes off) |};
     AppointmentReschedule.end_time :=
       {| wall := minutes e; utcoffset := Some (minutes off) |} |}.

(** 9999-12-31T23:30-01:00 to 23:45-01:00: half an hour into the year
    10000 in UTC.  Day 3652059, the last one, has the minutes up to
    5258964960. *)
Definition move_past_max : AppointmentReschedule.t :=
  move_aware (-60) 5258964930 5258964945.

(** A call of [login] during which the clock reads [t] throughout. *)
Definition at_time (t : Z) : login_clock :=
  {| at_lock_test := t; at_remaining := t; at_lockout := t;
     at_success := t; at_token := t |}.

(** Alice with [n] failed attempts behind her and the lockout [lock]. *)
Definition db_attempts (n : Z) (lock : option Z) : DB :=
  set_users (insert 1 (with_login_state n lock None (row alice))) db0.

(** Alice's login with [password] when the clock reads [t]. *)
Definition attempt (password : str) (t : Z) : handler Token :=
  @login libraries "alice@example.com" password None "10.0.0.1" (at_time t).

(** The database after [n] wrong passwords in a row, all at time 0. *)
Definition db_failures (n : nat) : DB :=
  Nat.iter n (λ db, (attempt wrong_password 0 db).1) db0.

(** Alice books provider 7 from 09:00 to 09:30, then from 09:30 to 10:00;
    the dispatcher is down all along. *)
Definition db1 : DB :=
  (@book_appointment libraries failing_dispatcher (slot 7 540 570) alice 0 db0).1.
Definition db2 : DB :=
  (@book_appointment libraries failing_dispatcher (slot 7 570 600) alice 0 db1).1.

(** Alice cancels her first appointment. *)
Definition db_cancelled : DB :=
  (@cancel_appointment failing_dispatcher 1 alice db1).1.

(** Alice was last active at the clock reading [t]. *)
Definition db_seen (t : Z) : DB :=
  set_users (insert 1 (touch t (row alice))) db0.

(** Alice has an appointment with provider 2, and one with provider 7. *)
Definition db_two_providers : DB :=
  (@book_appointment libraries failing_dispatcher (slot 2 600 630) alice 0 db1).1.

(** ["Aa1aaaaaaaaa"] and a line feed: no special character but the line
    feed. *)
Definition password_ending_in_line_feed : str :=
  [65; 97; 49; 97; 97; 97; 97; 97; 97; 97; 97; 97; 10]%N.

(** A booking of provider 7 whose start is naive and whose end is at
    UTC+01:00. *)
Definition mixed_slot : AppointmentBook.t :=
  {| AppointmentBook.provider_id := 7;
     AppointmentBook.start_time := naive (minutes 600);
     AppointmentBook.end_time :=
       {| wall := minutes 630; utcoffset := Some (minutes 60) |};
     AppointmentBook.reason := None |}.

(** The text of a token before its first dot. *)
Fixpoint before_dot (s : string) : string :=
  match s with
  | EmptyString => EmptyString
  | String c s' => if Ascii.eqb c "."%char then EmptyString else String c (before_dot s')
  end.

(** The text of a token after its first dot. *)
Fixpoint after_dot (s : string) : string :=
  match s with
  | EmptyString => EmptyString
  | String c s' => if Ascii.eqb c "."%char then s' else after_dot s'
  end.

(** The number that a string of decimal digits writes, after [acc]. *)
Fixpoint digits_value (s : string) (acc : Z) : option Z :=
  match s with
  | EmptyString => Some acc
  | String c s' =>
      let n := Z.of_nat (nat_of_ascii c) in
      if (48 <=? n) && (n <=? 57)
      then digits_value s' (10 * acc + (n - 48)) else None
  end.

Definition fake_pbkdf2 (password : str) : string :=
  "$pbkdf2-sha256$" +:+ pretty (foldr N.add 0%N password).

(** Libraries whose JWT decoder reads the subject and the expiry back
    from a token [sub.role.exp] of the encoder and accepts it until the
    clock passes the expiry, and whose pbkdf2_sha256 verifier accepts the
    hashes of [passlib] below. *)
Definition session_libraries : External := {|
  argon2_verify := λ h p, String.eqb h (fake_hash p);
  pbkdf2_verify := λ p h, Some (String.eqb h (fake_pbkdf2 p));
  argon2_hash := fake_hash;
  jwt_encode := λ sub role exp, sub +:+ "." +:+ role +:+ "." +:+ pretty exp;
  jwt_decode := λ t now,
    match before_dot t, digits_value (after_dot (after_dot t)) 0 with
    | String c sub, Some exp =>
        if bool_decide (now ≤ exp) then Some (Some (String c sub)) else None
    | _, _ => None
    end;
  int_of_str := λ s, if String.eqb s "1" then Some 1
                     else if String.eqb s "2" then Some 2
                     else if String.eqb s "3" then Some 3 else None;
  unicode_Nd := λ c, in_range 1632 1641 c;
  remaining_minutes := λ us, pretty (Z.quot us 60000000);
  timestamp_of_aware := λ w off, w - off;
  ACCESS_TOKEN_EXPIRE_MINUTES := 60;
  captcha_verify_login := λ _ _, false
|}.

Definition passlib : Passlib := {|
  bcrypt_hash := λ salt p, "$2b$12$" +:+ salt +:+ pretty (foldr N.add 0%N p);
  pbkdf2_sha256_hash := λ _ p, fake_pbkdf2 p
|}.

(** Alice's login with the right password when the clock reads 0, and the
    token it returns. *)
Definition alice_token : Token :=
  {| access_token := "1.patient.3600000000"; token_type := "bearer" |}.
Definition db_logged_in : DB :=
  (@login session_libraries "alice@example.com" good_password None "10.0.0.1"
     (at_time 0) db0).1.

(** Two registrations: Bob as a patient, Dr. Jones as a provider. *)
Definition bob_in : UserCreate.t :=
  {| UserCreate.email := "bob@example.com";
     UserCreate.password := good_password; UserCreate.role := None |}.
Definition bob : entity User.t :=
  Entity 3 {| User.email := "bob@example.com";
              User.password_hash := fake_hash good_password;
              User.role := "patient"; User.created_at := 0;
              User.failed_login_attempts := 0;
              User.lockout_until := None; User.last_active := None |}.
Definition db_bob : DB :=
  (@register session_libraries failing_dispatcher bob_in 0 db0).1.
Definition dr_jones_in : UserCreate.t :=
  {| UserCreate.email := "dr.jones@example.com";
     UserCreate.password := good_password; UserCreate.role := Some "provider" |}.
Definition dr_jones : entity User.t :=
  Entity 3 {| User.email := "dr.jones@example.com";
              User.password_hash := fake_hash good_password;
              User.role := "provider"; User.created_at := 0;
              User.failed_login_attempts := 0;
              User.lockout_until := None; User.last_active := None |}.
Definition db_dr_jones : DB :=
  (@register session_libraries failing_dispatcher dr_jones_in 0 db0).1.

(** A profile form with the name [name]. *)
Definition profile_of (name : string) : PatientProfileUpdate.t :=
  {| PatientProfileUpdate.full_name := name;
     PatientProfileUpdate.date_of_birth := 0;
     PatientProfileUpdate.phone := "555-0100";
     PatientProfileUpdate.insurance := None |}.

(** Alice, with an appointment with provider 2, saves her profile. *)
Definition db_named : DB :=
  (upsert_my_profile (profile_of "Alice Liddell") alice 0 db_two_providers).1.

(** [create_provider.py] for a new email and a new name, and then a
    booking with the provider row the script made (key 8). *)
Definition db_script : DB :=
  (@create_provider_py.create_provider passlib "dr.jones@example.com"
     good_password "Dr. Jones" "salt" 0 0 db0).1.
Definition db_script_booked : DB :=
  (@book_appointment session_libraries failing_dispatcher (slot 8 540 570) alice 0
     db_script).1.
End Fixture.

(** * Properties *)

(** ** The session *)

Section session_facts.
Context {A : Type}.
Implicit Types (tbl : gmap Z A) (P : Z → A → bool) (e : entity A).

Lemma elem_of_select_where P tbl e :
  e ∈ select_where P tbl ↔ tbl !! id e = Some (row e) ∧ P (id e) (row e) = true.
Proof.
  unfold select_where. rewrite list_elem_of_filter, list_elem_of_fmap. split.
  - intros [HP [[k a] [-> Hin]]]. apply elem_of_map_to_list in Hin. done.
  - intros [Hin HP]. split; [done|]. exists (id e, row e).
    split; [by destruct e|]. by apply elem_of_map_to_list.
Qed.

Lemma first_select_where_None P tbl :
  first (select_where P tbl) = None ↔ ∀ k a, tbl !! k = Some a → P k a = false.
Proof.
  unfold first. rewrite head_None. split.
  - intros Hnil k a Hk. destruct (P k a) eqn:HP; [|done].
    assert (Entity k a ∈ select_where P tbl) as Hin
      by (by apply elem_of_select_where).
    rewrite Hnil in Hin. by apply elem_of_nil in Hin.
  - intros Hall. destruct (select_where P tbl) as [|e l] eqn:Hsel; [done|].
    assert (e ∈ select_where P tbl) as Hin by (rewrite Hsel; left).
    apply elem_of_select_where in Hin as [Hk HP].
    rewrite (Hall _ _ Hk) in HP. done.
Qed.

Lemma first_select_where_Some P tbl e :
  first (select_where P tbl) = Some e →
  tbl !! id e = Some (row e) ∧ P (id e) (row e) = true.
Proof.
  intros Hhd. apply elem_of_select_where. by apply head_Some_elem_of.
Qed.

Lemma first_select_where_found P tbl k a :
  tbl !! k = Some a → P k a = true → is_Some (first (select_where P tbl)).
Proof.
  intros Hk HP. destruct (first (select_where P tbl)) eqn:Hhd; [by eexists|].
  rewrite first_select_where_None in Hhd. rewrite (Hhd _ _ Hk) in HP. done.
Qed.

Lemma entity_eq e e' : id e = id e' → row e = row e' → e = e'.
Proof. destruct e, e'; simpl. by intros -> ->. Qed.

Lemma NoDup_select_where P tbl : NoDup (select_where P tbl).
Proof.
  unfold select_where. apply NoDup_filter, NoDup_fmap_2_strong.
  - intros [k a] [k' a'] _ _ [= -> ->]. done.
  - apply NoDup_map_to_list.
Qed.

Lemma NoDup_select_where_id P tbl : NoDup (id <$> select_where P tbl).
Proof.
  apply NoDup_fmap_2_strong; [|apply NoDup_select_where].
  intros e e' [He _]%elem_of_select_where [He' _]%elem_of_select_where Hid.
  apply entity_eq; [done|]. rewrite Hid in He. congruence.
Qed.

Lemma next_id_bound tbl k : is_Some (tbl !! k) → k < next_id tbl.
Proof.
  unfold next_id. revert k.
  apply (map_fold_weak_ind (λ r m, ∀ k, is_Some (m !! k) → k < 1 + r)).
  - intros k [a Ha]. by rewrite lookup_empty in Ha.
  - intros i x m r _ IH k. rewrite lookup_insert.
    case_decide as Hik; [subst; lia|]. intros Hk. specialize (IH _ Hk). lia.
Qed.

Lemma next_id_fresh tbl : tbl !! next_id tbl = None.
Proof.
  destruct (tbl !! next_id tbl) eqn:Hk; [|done].
  assert (next_id tbl < next_id tbl) by (apply next_id_bound; by eexists). lia.
Qed.

Lemma session_get_Some tbl k e :
  session_get tbl k = Some e ↔ id e = k ∧ tbl !! k = Some (row e).
Proof.
  unfold session_get. destruct (tbl !! k) as [a|]; simpl; split.
  - intros [= <-]. done.
  - intros [<- [= ->]]. by destruct e.
  - done.
  - by intros [_ ?].
Qed.
End session_facts.

(** Running a handler: unfold the plumbing, keep the queries. *)
Ltac run :=
  cbv [mbind handler_bind mret handler_ret query raise raise_if commit lift
       try_except_Exception]; simpl.

Lemma set_appointments_insert_id db k a :
  appointments db !! k = Some a → set_appointments (insert k a) db = db.
Proof.
  intros Hk. destruct db as [us ps prs aps]; unfold set_appointments; simpl in *.
  f_equal. by apply insert_id.
Qed.

(** ** The scheduling engine *)

Section scheduling_facts.
Context `{External, NotificationService}.

Lemma overlap_stmt_true pid s e k a :
  overlap_stmt pid s e k a = true ↔
  Appointment.provider_id a = pid ∧ booked a ∧
  Appointment.start_time a < e ∧ s < Appointment.end_time a.
Proof.
  unfold overlap_stmt, booked.
  rewrite !andb_true_iff, Z.eqb_eq, String.eqb_eq, !Z.ltb_lt. tauto.
Qed.

Lemma overlap_stmt_excluding_true own pid s e k a :
  overlap_stmt_excluding own pid s e k a = true ↔
  Appointment.provider_id a = pid ∧ booked a ∧ k ≠ own ∧
  Appointment.start_time a < e ∧ s < Appointment.end_time a.
Proof.
  unfold overlap_stmt_excluding, booked.
  rewrite !andb_true_iff, negb_true_iff, Z.eqb_eq, String.eqb_eq, Z.eqb_neq, !Z.ltb_lt.
  tauto.
Qed.

Lemma overlap_query_None tbl pid s e :
  first (select_where (overlap_stmt pid s e) tbl) = None ↔ free_for tbl None pid s e.
Proof.
  rewrite first_select_where_None. unfold free_for. split.
  - intros Hq k a Hk _ Hp Hb Hov. specialize (Hq _ _ Hk).
    apply not_true_iff_false in Hq. apply Hq, overlap_stmt_true. tauto.
  - intros Hfree k a Hk. apply not_true_iff_false.
    intros (Hp & Hb & Hov)%overlap_stmt_true. by eapply Hfree.
Qed.

Lemma overlap_query_excluding_None tbl own pid s e :
  first (select_where (overlap_stmt_excluding own pid s e) tbl) = None ↔
  free_for tbl (Some own) pid s e.
Proof.
  rewrite first_select_where_None. unfold free_for. split.
  - intros Hq k a Hk Hne Hp Hb Hov. specialize (Hq _ _ Hk).
    apply not_true_iff_false in Hq. apply Hq, overlap_stmt_excluding_true.
    repeat split; try tauto. congruence.
  - intros Hfree k a Hk. apply not_true_iff_false.
    intros (Hp & Hb & Hne & Hov)%overlap_stmt_excluding_true.
    eapply Hfree; eauto. congruence.
Qed.

(** What a call of [book_appointment] can do: raise and leave the
    database as it was, or add one row under a new key. *)
Lemma book_appointment_cases booking u now db :
  match book_appointment booking u now db with
  | (db', Raise _) => db' = db
  | (db', Return appt) =>
      appt = Entity (next_id (appointments db)) (new_appointment booking u now) ∧
      db' = set_appointments (insert (id appt) (row appt)) db ∧
      is_Some (providers db !! AppointmentBook.provider_id booking) ∧
      datetime_ge (AppointmentBook.start_time booking)
                  (AppointmentBook.end_time booking) = Return false ∧
      free_for (appointments db) None (AppointmentBook.provider_id booking)
        (to_column (AppointmentBook.start_time booking))
        (to_column (AppointmentBook.end_time booking))
  end.
Proof.
  unfold book_appointment. run. unfold session_get.
  destruct (providers db !! _) as [p|] eqn:Hp; simpl; [|done].
  destruct (datetime_ge _ _) as [[|]|] eqn:Hge; simpl; [done| |done].
  destruct (first (select_where _ (appointments db))) as [c|] eqn:Hq; simpl.
  { done. }
  apply overlap_query_None in Hq.
  destruct (notification_service _); simpl; eauto 10.
Qed.

(** The exact outcome of [reschedule_appointment] on each path. *)
Lemma reschedule_appointment_not_found k body u db :
  appointments db !! k = None →
  reschedule_appointment k body u db =
    (db, Raise (HTTPException 404 "Appointment not found.")).
Proof. intros Hk. unfold reschedule_appointment, session_get. run. by rewrite Hk. Qed.

Lemma reschedule_appointment_forbidden k body u db a :
  appointments db !! k = Some a → Appointment.patient_id a ≠ id u →
  reschedule_appointment k body u db =
    (db, Raise (HTTPException 403 "You can only reschedule your own appointments.")).
Proof.
  intros Hk Hne. unfold reschedule_appointment, session_get. run. rewrite Hk; simpl.
  apply Z.eqb_neq in Hne. by rewrite Hne.
Qed.

Lemma astimezone_utc_Raise d ex :
  astimezone_utc d = Raise ex ↔
  ex = PyException "OverflowError" ∧
  ∃ off, utcoffset d = Some off ∧ ¬ (datetime_min ≤ wall d - off ≤ datetime_max).
Proof.
  unfold astimezone_utc. destruct (utcoffset d) as [off|].
  - case_bool_decide as Hr; split.
    + done.
    + intros [_ (off' & [= <-] & Hn)]. done.
    + intros [= <-]. eauto.
    + by intros [-> _].
  - split; [done|]. by intros [_ (off & [=] & _)].
Qed.

Lemma astimezone_utc_Return d s :
  astimezone_utc d = Return s ↔ utc_representable d ∧ s = utc_wall d.
Proof.
  unfold astimezone_utc, utc_representable, utc_wall.
  destruct (utcoffset d) as [off|]; simpl.
  - case_bool_decide as Hr; split.
    + intros [= <-]. by split.
    + by intros [_ ->].
    + done.
    + intros [Hrep _]. destruct Hr. apply Hrep. by eexists.
  - split.
    + intros [= <-]. split; [by intros [? [=]]|lia].
    + intros [_ ->]. f_equal. lia.
Qed.

Lemma astimezone_utc_representable d :
  utc_representable d → astimezone_utc d = Return (utc_wall d).
Proof. intros Hd. by apply astimezone_utc_Return. Qed.

Lemma astimezone_utc_overflow d :
  ¬ utc_representable d → astimezone_utc d = Raise (PyException "OverflowError").
Proof.
  intros Hd. destruct (astimezone_utc d) as [s|ex] eqn:Hs.
  - apply astimezone_utc_Return in Hs as [? _]. done.
  - by apply astimezone_utc_Raise in Hs as [-> _].
Qed.

(** The owner's request with a time that cannot be normalised. *)
Lemma reschedule_appointment_overflow k body u db a ex :
  appointments db !! k = Some a → Appointment.patient_id a = id u →
  astimezone_utc (AppointmentReschedule.start_time body) = Raise ex ∨
  (is_Some (match astimezone_utc (AppointmentReschedule.start_time body) with
            | Return s => Some s
            | Raise _ => None
            end) ∧
   astimezone_utc (AppointmentReschedule.end_time body) = Raise ex) →
  reschedule_appointment k body u db = (db, Raise ex).
Proof.
  intros Hk Hown Hex. unfold reschedule_appointment, session_get. run.
  rewrite Hk; simpl. apply Z.eqb_eq in Hown. rewrite Hown; simpl.
  destruct Hex as [Hs|[Hs He]].
  - by rewrite Hs.
  - destruct (astimezone_utc (AppointmentReschedule.start_time body));
      [|by destruct Hs]. simpl. by rewrite He.
Qed.

Lemma reschedule_appointment_invalid k body u db a s e :
  appointments db !! k = Some a → Appointment.patient_id a = id u →
  astimezone_utc (AppointmentReschedule.start_time body) = Return s →
  astimezone_utc (AppointmentReschedule.end_time body) = Return e →
  e ≤ s →
  reschedule_appointment k body u db =
    (db, Raise (HTTPException 400 "start_time must be before end_time")).
Proof.
  intros Hk Hown Hs He Hle. unfold reschedule_appointment, session_get. run.
  rewrite Hk; simpl. apply Z.eqb_eq in Hown. rewrite Hown; simpl.
  rewrite Hs; simpl. rewrite He; simpl.
  apply Z.leb_le in Hle. by rewrite Hle.
Qed.

Lemma reschedule_appointment_conflict k body u db a j b s e :
  astimezone_utc (AppointmentReschedule.start_time body) = Return s →
  astimezone_utc (AppointmentReschedule.end_time body) = Return e →
  appointments db !! k = Some a → Appointment.patient_id a = id u →
  s < e →
  appointments db !! j = Some b → j ≠ k →
  Appointment.provider_id b = Appointment.provider_id a → booked b →
  Appointment.start_time b < e → s < Appointment.end_time b →
  reschedule_appointment k body u db =
    (db, Raise (HTTPException 400 "This time slot is already booked for this provider.")).
Proof.
  intros Hs He Hk Hown Hlt Hj Hne Hp Hb Hov1 Hov2.
  unfold reschedule_appointment, session_get. run. rewrite Hk; simpl.
  apply Z.eqb_eq in Hown. rewrite Hown; simpl.
  rewrite Hs; simpl. rewrite He; simpl.
  apply Z.leb_gt in Hlt. rewrite Hlt; simpl.
  destruct (first_select_where_found
              (overlap_stmt_excluding k (Appointment.provider_id a) s e)
              (appointments db) j b Hj) as [c Hc].
  { apply overlap_stmt_excluding_true. done. }
  by rewrite Hc.
Qed.

Lemma reschedule_appointment_success k body u db a s e :
  astimezone_utc (AppointmentReschedule.start_time body) = Return s →
  astimezone_utc (AppointmentReschedule.end_time body) = Return e →
  appointments db !! k = Some a → Appointment.patient_id a = id u →
  s < e →
  free_for (appointments db) (Some k) (Appointment.provider_id a) s e →
  reschedule_appointment k body u db =
    (set_appointments (insert k (Appointment.with_times s e a)) db,
     Return (Entity k (Appointment.with_times s e a))).
Proof.
  intros Hs He Hk Hown Hlt Hfree.
  unfold reschedule_appointment, session_get. run. rewrite Hk; simpl.
  apply Z.eqb_eq in Hown. rewrite Hown; simpl.
  rewrite Hs; simpl. rewrite He; simpl.
  apply Z.leb_gt in Hlt. rewrite Hlt; simpl.
  apply overlap_query_excluding_None in Hfree. rewrite Hfree; simpl.
  by destruct (notification_service _).
Qed.

(** What a call of [reschedule_appointment] can do. *)
Lemma reschedule_appointment_cases k body u db :
  match reschedule_appointment k body u db with
  | (db', Raise _) => db' = db
  | (db', Return appt') =>
      ∃ a s e,
        appointments db !! k = Some a ∧ Appointment.patient_id a = id u ∧
        astimezone_utc (AppointmentReschedule.start_time body) = Return s ∧
        astimezone_utc (AppointmentReschedule.end_time body) = Return e ∧
        s < e ∧
        free_for (appointments db) (Some k) (Appointment.provider_id a) s e ∧
        appt' = Entity k (Appointment.with_times s e a) ∧
        db' = set_appointments (insert k (Appointment.with_times s e a)) db
  end.
Proof.
  destruct (appointments db !! k) as [a|] eqn:Hk;
    [|by rewrite reschedule_appointment_not_found].
  destruct (decide (Appointment.patient_id a = id u)) as [Hown|Hown];
    [|by rewrite (reschedule_appointment_forbidden k body u db a)].
  destruct (astimezone_utc (AppointmentReschedule.start_time body))
    as [s|ex] eqn:Hs;
    [|rewrite (reschedule_appointment_overflow k body u db a ex); auto].
  destruct (astimezone_utc (AppointmentReschedule.end_time body))
    as [e|ex] eqn:He;
    [|rewrite (reschedule_appointment_overflow k body u db a ex); try done;
      right; rewrite Hs; by split].
  destruct (decide (s < e)) as [Hlt|Hge];
    [|rewrite (reschedule_appointment_invalid k body u db a s e); [done..|lia]].
  destruct (first (select_where
              (overlap_stmt_excluding k (Appointment.provider_id a) s e)
              (appointments db))) as [c|] eqn:Hq.
  - apply first_select_where_Some in Hq as [Hc Hov].
    apply overlap_stmt_excluding_true in Hov as (? & ? & ? & ? & ?).
    by rewrite (reschedule_appointment_conflict k body u db a (id c) (row c) s e).
  - apply overlap_query_excluding_None in Hq.
    rewrite (reschedule_appointment_success k body u db a s e) by done. eauto 12.
Qed.

(** The exact outcome of [cancel_appointment] on each path. *)
Lemma cancel_appointment_not_found k u db :
  appointments db !! k = None →
  cancel_appointment k u db = (db, Raise (HTTPException 404 "Appointment not found.")).
Proof. intros Hk. unfold cancel_appointment, session_get. run. by rewrite Hk. Qed.

Lemma cancel_appointment_forbidden k u db a :
  appointments db !! k = Some a → Appointment.patient_id a ≠ id u →
  cancel_appointment k u db =
    (db, Raise (HTTPException 403 "You can only cancel your own appointments.")).
Proof.
  intros Hk Hne. unfold cancel_appointment, session_get. run. rewrite Hk; simpl.
  apply Z.eqb_neq in Hne. by rewrite Hne.
Qed.

Lemma cancel_appointment_success k u db a :
  appointments db !! k = Some a → Appointment.patient_id a = id u →
  cancel_appointment k u db =
    (set_appointments (insert k (Appointment.with_status "cancelled" a)) db,
     Return cancelled_message).
Proof.
  intros Hk Hown. unfold cancel_appointment, session_get. run. rewrite Hk; simpl.
  apply Z.eqb_eq in Hown. rewrite Hown; simpl.
  by destruct (notification_service _).
Qed.

Lemma cancel_appointment_cases k u db :
  match cancel_appointment k u db with
  | (db', Raise _) => db' = db
  | (db', Return m) =>
      m = cancelled_message ∧
      ∃ a, appointments db !! k = Some a ∧ Appointment.patient_id a = id u ∧
           db' = set_appointments (insert k (Appointment.with_status "cancelled" a)) db
  end.
Proof.
  destruct (appointments db !! k) as [a|] eqn:Hk;
    [|by rewrite cancel_appointment_not_found].
  destruct (decide (Appointment.patient_id a = id u)) as [Hown|Hown];
    [|by rewrite (cancel_appointment_forbidden k u db a)].
  rewrite (cancel_appointment_success k u db a) by done. eauto.
Qed.

(** *** The three ways the appointment table changes keep [no_overlap] *)

Lemma no_overlap_insert_new tbl k a :
  no_overlap tbl → tbl !! k = None →
  free_for tbl None (Appointment.provider_id a)
           (Appointment.start_time a) (Appointment.end_time a) →
  no_overlap (<[k:=a]> tbl).
Proof.
  intros Hinv Hk Hfree i j x y Hij Hi Hj Hp Hbx Hby [Hov1 Hov2].
  rewrite lookup_insert in Hi, Hj.
  destruct (decide (k = i)) as [<-|Hki], (decide (k = j)) as [<-|Hkj];
    simplify_eq.
  - eapply (Hfree j y); eauto.
  - eapply (Hfree i x); eauto.
  - eapply (Hinv i j x y); eauto. by split.
Qed.

Lemma no_overlap_with_times tbl k a s e :
  no_overlap tbl → tbl !! k = Some a →
  free_for tbl (Some k) (Appointment.provider_id a) s e →
  no_overlap (<[k:=Appointment.with_times s e a]> tbl).
Proof.
  intros Hinv Hk Hfree i j x y Hij Hi Hj Hp Hbx Hby [Hov1 Hov2].
  rewrite lookup_insert in Hi, Hj.
  destruct (decide (k = i)) as [<-|Hki], (decide (k = j)) as [<-|Hkj];
    simplify_eq; simpl in *.
  - eapply (Hfree j y); eauto. congruence.
  - eapply (Hfree i x); eauto. congruence.
  - eapply (Hinv i j x y); eauto. by split.
Qed.

Lemma no_overlap_with_status tbl k a :
  no_overlap tbl → tbl !! k = Some a →
  no_overlap (<[k:=Appointment.with_status "cancelled" a]> tbl).
Proof.
  intros Hinv Hk i j x y Hij Hi Hj Hp Hbx Hby Hov.
  rewrite lookup_insert in Hi, Hj.
  destruct (decide (k = i)) as [<-|Hki], (decide (k = j)) as [<-|Hkj];
    simplify_eq; try (by unfold booked in *; simpl in *).
  by eapply (Hinv i j x y).
Qed.

Lemma serve_no_overlap r db :
  no_overlap (appointments db) → no_overlap (appointments (serve r db)).
Proof.
  intros Hinv. destruct r as [booking u now|k body u|k u]; simpl.
  - pose proof (book_appointment_cases booking u now db) as Hc.
    destruct (book_appointment booking u now db) as [db' [appt|e]]; simpl in *;
      [|by subst].
    destruct Hc as (-> & -> & _ & _ & Hfree); simpl.
    apply no_overlap_insert_new; [done|apply next_id_fresh|done].
  - pose proof (reschedule_appointment_cases k body u db) as Hc.
    destruct (reschedule_appointment k body u db) as [db' [appt|e]]; simpl in *;
      [|by subst].
    destruct Hc as (a & s & e0 & Hk & _ & _ & _ & _ & Hfree & _ & ->); simpl.
    by apply no_overlap_with_times.
  - pose proof (cancel_appointment_cases k u db) as Hc.
    destruct (cancel_appointment k u db) as [db' [m|e]]; simpl in *; [|by subst].
    destruct Hc as (_ & a & Hk & _ & ->); simpl.
    by apply no_overlap_with_status.
Qed.

Lemma serve_all_no_overlap rs db :
  no_overlap (appointments db) → no_overlap (appointments (serve_all rs db)).
Proof.
  unfold serve_all. revert db.
  induction rs as [|r rs IH]; intros db Hinv; simpl; [done|].
  apply IH, serve_no_overlap, Hinv.
Qed.
End scheduling_facts.

Section booking_outcomes.
Context `{External, NotificationService}.

Lemma book_appointment_provider_not_found booking u now db :
  providers db !! AppointmentBook.provider_id booking = None →
  book_appointment booking u now db =
    (db, Raise (HTTPException 404 "Provider not found.")).
Proof. intros Hp. unfold book_appointment, session_get. run. by rewrite Hp. Qed.

Lemma book_appointment_invalid_range booking u now db :
  is_Some (providers db !! AppointmentBook.provider_id booking) →
  datetime_ge (AppointmentBook.start_time booking)
              (AppointmentBook.end_time booking) = Return true →
  book_appointment booking u now db =
    (db, Raise (HTTPException 400 "start_time must be before end_time.")).
Proof.
  intros [p Hp] Hge. unfold book_appointment, session_get. run.
  rewrite Hp; simpl. by rewrite Hge.
Qed.

Lemma book_appointment_conflict booking u now db k a :
  is_Some (providers db !! AppointmentBook.provider_id booking) →
  datetime_ge (AppointmentBook.start_time booking)
              (AppointmentBook.end_time booking) = Return false →
  appointments db !! k = Some a →
  Appointment.provider_id a = AppointmentBook.provider_id booking → booked a →
  Appointment.start_time a < to_column (AppointmentBook.end_time booking) →
  to_column (AppointmentBook.start_time booking) < Appointment.end_time a →
  book_appointment booking u now db =
    (db, Raise (HTTPException 400 "This time slot is already booked for this provider.")).
Proof.
  intros [p Hp] Hge Hk Hpa Hb Hov1 Hov2. unfold book_appointment, session_get. run.
  rewrite Hp; simpl. rewrite Hge; simpl.
  destruct (first_select_where_found
              (overlap_stmt (AppointmentBook.provider_id booking)
                 (to_column (AppointmentBook.start_time booking))
                 (to_column (AppointmentBook.end_time booking)))
              (appointments db) k a Hk) as [c Hc].
  { by apply overlap_stmt_true. }
  by rewrite Hc.
Qed.

Lemma book_appointment_success booking u now db :
  is_Some (providers db !! AppointmentBook.provider_id booking) →
  datetime_ge (AppointmentBook.start_time booking)
              (AppointmentBook.end_time booking) = Return false →
  free_for (appointments db) None (AppointmentBook.provider_id booking)
    (to_column (AppointmentBook.start_time booking))
    (to_column (AppointmentBook.end_time booking)) →
  book_appointment booking u now db =
    (set_appointments
       (insert (next_id (appointments db)) (new_appointment booking u now)) db,
     Return (Entity (next_id (appointments db)) (new_appointment booking u now))).
Proof.
  intros [p Hp] Hge Hfree. unfold book_appointment, session_get. run.
  rewrite Hp; simpl. rewrite Hge; simpl.
  apply overlap_query_None in Hfree. rewrite Hfree; simpl.
  by destruct (notification_service _).
Qed.

(** For two valid ranges the test of the queries is the intersection of
    the ranges; a range with [e ≤ s] intersects nothing. *)
Lemma ranges_intersect_test s e s' e' :
  ranges_intersect s e s' e' ↔ s < e ∧ s' < e' ∧ s' < e ∧ s < e'.
Proof.
  unfold ranges_intersect. split.
  - intros (t & ? & ?). lia.
  - intros (? & ? & ? & ?). exists (Z.max s s'). lia.
Qed.

Lemma no_overlap_empty : no_overlap ∅.
Proof. intros i j a b _ Hi. by rewrite lookup_empty in Hi. Qed.
End booking_outcomes.

(** ** Claims on the scheduling engine *)

Section scheduling_claims.
Context `{External, NotificationService}.

(** C1. No-overlap invariant.  From a database in which no two booked
    appointments of one provider overlap (the empty table, for one), every
    sequence of book, reschedule and cancel requests, whatever their
    arguments and outcomes, leads to a database with the same property.
    A booking whose range only touches the booked appointments of the
    provider (each ends no later than it starts, or starts no earlier than
    it ends) is accepted and stored under a new key; a booking that
    overlaps a booked appointment of the provider always raises and leaves
    the database as it was, and what it raises is the slot-conflict error
    once the provider exists and the start is before the end. *)
Theorem no_overlap_invariant :
  (∀ db rs,
     no_overlap (appointments db) →
     no_overlap (appointments (serve_all rs db))) ∧
  (∀ db booking u now,
     let s := to_column (AppointmentBook.start_time booking) in
     let e := to_column (AppointmentBook.end_time booking) in
     is_Some (providers db !! AppointmentBook.provider_id booking) →
     datetime_ge (AppointmentBook.start_time booking)
                 (AppointmentBook.end_time booking) = Return false →
     (∀ k a, appointments db !! k = Some a →
             Appointment.provider_id a = AppointmentBook.provider_id booking →
             booked a →
             Appointment.end_time a ≤ s ∨ e ≤ Appointment.start_time a) →
     ∃ pk, appointments db !! pk = None ∧
           book_appointment booking u now db =
             (set_appointments (insert pk (new_appointment booking u now)) db,
              Return (Entity pk (new_appointment booking u now)))) ∧
  (∀ db booking u now k a,
     let s := to_column (AppointmentBook.start_time booking) in
     let e := to_column (AppointmentBook.end_time booking) in
     appointments db !! k = Some a →
     Appointment.provider_id a = AppointmentBook.provider_id booking →
     booked a →
     Appointment.start_time a < e → s < Appointment.end_time a →
     (∃ exn, book_appointment booking u now db = (db, Raise exn)) ∧
     (is_Some (providers db !! AppointmentBook.provider_id booking) →
      datetime_ge (AppointmentBook.start_time booking)
                  (AppointmentBook.end_time booking) = Return false →
      book_appointment booking u now db =
        (db, Raise (HTTPException 400
                      "This time slot is already booked for this provider.")))).
Proof.
  split; [|split].
  - intros db rs. apply serve_all_no_overlap.
  - intros db booking u now s e Hp Hge Htouch.
    exists (next_id (appointments db)). split; [apply next_id_fresh|].
    apply book_appointment_success; [done..|].
    intros k a Hk _ Hpa Hb [Hov1 Hov2].
    destruct (Htouch k a Hk Hpa Hb); fold s e in Hov1, Hov2; lia.
  - intros db booking u now k a s e Hk Hpa Hb Hov1 Hov2. split.
    + pose proof (book_appointment_cases booking u now db) as Hc.
      destruct (book_appointment booking u now db) as [db' [appt|exn]].
      * destruct Hc as (_ & _ & _ & _ & Hfree).
        destruct (Hfree k a); done.
      * subst. by exists exn.
    + intros Hp Hge. by apply (book_appointment_conflict booking u now db k a).
Qed.
Lemma appointments_set_insert db k a j :
  appointments (set_appointments (insert k a) db) !! j =
    if decide (k = j) then Some a else appointments db !! j.
Proof. unfold set_appointments; simpl. apply lookup_insert. Qed.


(** C4, as the code has it.  A booking whose [start_time >= end_time]
    holds (the comparison of the two [datetime]s returns true) raises the
    invalid-range error (400) when its provider id is that of a stored
    provider, and the provider-not-found error (404) when it is not; in
    both cases the database is unchanged, so no appointment is created. *)
Theorem book_invalid_range :
  ∀ db booking u now,
    datetime_ge (AppointmentBook.start_time booking)
                (AppointmentBook.end_time booking) = Return true →
    (is_Some (providers db !! AppointmentBook.provider_id booking) →
     book_appointment booking u now db =
       (db, Raise (HTTPException 400 "start_time must be before end_time."))) ∧
    (providers db !! AppointmentBook.provider_id booking = None →
     book_appointment booking u now db =
       (db, Raise (HTTPException 404 "Provider not found."))).
Proof.
  intros db booking u now Hge. split.
  - intros Hp. by apply book_appointment_invalid_range.
  - apply book_appointment_provider_not_found.
Qed.

(** *** Cancelled appointments *)

Lemma with_status_cancelled a :
  cancelled a → Appointment.with_status "cancelled" a = a.
Proof. unfold cancelled. destruct a; simpl. by intros ->. Qed.

Lemma serve_cancelled r db k a :
  appointments db !! k = Some a → cancelled a →
  ∃ a', appointments (serve r db) !! k = Some a' ∧ same_but_times a a' ∧
        (¬ reschedules k r → a' = a).
Proof.
  intros Hk Hc. destruct r as [booking u now|k' body u|k' u]; simpl.
  - pose proof (book_appointment_cases booking u now db) as Hb.
    destruct (book_appointment booking u now db) as [db' [appt|e]]; simpl in *.
    + destruct Hb as (-> & -> & _); simpl. exists a.
      rewrite lookup_insert. case_decide as Heq.
      * pose proof (next_id_fresh (appointments db)) as Hf. congruence.
      * by repeat split.
    + subst. exists a. by repeat split.
  - pose proof (reschedule_appointment_cases k' body u db) as Hr.
    destruct (reschedule_appointment k' body u db) as [db' [appt|e]]; simpl in *.
    + destruct Hr as (b & s0 & e0 & Hk' & _ & _ & _ & _ & _ & _ & ->); simpl.
      rewrite lookup_insert. case_decide as Heq.
      * subst k'. simplify_eq. eexists. split; [done|]. by repeat split.
      * exists a. by repeat split.
    + subst. exists a. by repeat split.
  - pose proof (cancel_appointment_cases k' u db) as Hx.
    destruct (cancel_appointment k' u db) as [db' [m|e]]; simpl in *.
    + destruct Hx as (_ & b & Hk' & _ & ->); simpl.
      rewrite lookup_insert. case_decide as Heq.
      * subst k'. simplify_eq. rewrite with_status_cancelled by done.
        exists a. by repeat split.
      * exists a. by repeat split.
    + subst. exists a. by repeat split.
Qed.

(** C8, as the code has it.  Once an appointment is cancelled, no
    sequence of book, reschedule and cancel requests changes its status,
    nor its patient, provider, reason or creation time; and unless one of
    the requests is a reschedule of that very appointment, its whole
    record, times included, stays as it was. *)
Theorem cancelled_is_terminal :
  ∀ rs db k a,
    appointments db !! k = Some a → cancelled a →
    ∃ a', appointments (serve_all rs db) !! k = Some a' ∧
          cancelled a' ∧ same_but_times a a' ∧
          (Forall (λ r, ¬ reschedules k r) rs → a' = a).
Proof.
  unfold serve_all.
  induction rs as [|r rs IH]; intros db k a Hk Hc; simpl.
  - exists a. by repeat split.
  - destruct (serve_cancelled r db k a Hk Hc) as (a1 & Hk1 & Hsame1 & Heq1).
    assert (cancelled a1) as Hc1.
    { unfold cancelled in *. destruct Hsame1 as (_ & _ & -> & _). done. }
    destruct (IH _ _ _ Hk1 Hc1) as (a2 & Hk2 & Hc2 & Hsame2 & Heq2).
    exists a2. split; [done|]. split; [done|]. split.
    + unfold same_but_times in *. intuition congruence.
    + intros Hall. apply Forall_cons in Hall as [Hr Hrs].
      rewrite Heq2 by done. by apply Heq1.
Qed.

(** C9. Double cancel.  When the owning patient cancels an appointment
    and then cancels it again, both calls return the same message and
    raise nothing, and the second leaves the database exactly as the first
    left it: the status is still ["cancelled"] and every other column is
    as it was.  More generally, cancelling an appointment that is already
    cancelled returns the message and changes nothing. *)
Theorem double_cancel_idempotent :
  ∀ db k a u,
    appointments db !! k = Some a → Appointment.patient_id a = id u →
    let first_call := cancel_appointment k u db in
    let second_call := cancel_appointment k u first_call.1 in
    first_call.2 = Return cancelled_message ∧
    appointments first_call.1 !! k = Some (Appointment.with_status "cancelled" a) ∧
    second_call = (first_call.1, Return cancelled_message) ∧
    (cancelled a → first_call = (db, Return cancelled_message)).
Proof.
  intros db k a u Hk Hown first_call second_call.
  assert (first_call =
          (set_appointments (insert k (Appointment.with_status "cancelled" a)) db,
           Return cancelled_message)) as Hfirst
    by (by apply cancel_appointment_success).
  assert (appointments first_call.1 !! k
          = Some (Appointment.with_status "cancelled" a)) as Hk1.
  { rewrite Hfirst; simpl. apply lookup_insert_eq. }
  split; [by rewrite Hfirst|]. split; [done|]. split.
  - unfold second_call.
    rewrite (cancel_appointment_success k u _ _ Hk1) by done.
    rewrite with_status_cancelled by done.
    by rewrite set_appointments_insert_id.
  - intros Hc. rewrite Hfirst, with_status_cancelled by done.
    by rewrite set_appointments_insert_id.
Qed.
End scheduling_claims.

(** ** The session issuer *)

Section auth_facts.
Context `{External, NotificationService}.

(** *** The password pattern against the policy *)

Lemma re_lookahead_existsb C s : re_lookahead C s = true → existsb C s = true.
Proof.
  induction s as [|c s IH]; simpl; [done|].
  rewrite !orb_true_iff, andb_true_iff. intros [?|[_ ?]]; auto.
Qed.

Lemma existsb_re_lookahead C s :
  Forall (λ c, re_dot c = true) s → existsb C s = true → re_lookahead C s = true.
Proof.
  induction 1 as [|c s Hc _ IH]; simpl; [done|].
  rewrite !orb_true_iff, andb_true_iff. intros [?|?]; auto.
Qed.

Lemma re_dots_eol_length n s : re_dots_eol n s = true → (n ≤ length s)%nat.
Proof.
  revert n. induction s as [|c s IH]; intros n; simpl.
  - intros Hn%bool_decide_eq_true. lia.
  - destruct (re_dot c).
    + intros Hs%IH. lia.
    + rewrite andb_true_iff. intros [Hn%bool_decide_eq_true _]. lia.
Qed.

Lemma length_re_dots_eol n s :
  Forall (λ c, re_dot c = true) s → (n ≤ length s)%nat → re_dots_eol n s = true.
Proof.
  intros Hs. revert n. induction Hs as [|c s Hc _ IH]; intros n; simpl.
  - intros Hn. apply bool_decide_eq_true. lia.
  - rewrite Hc. intros Hn. apply IH. lia.
Qed.

(** Whatever the pattern accepts meets the policy: a password that fails
    one of the five requirements is rejected. *)
Lemma meets_password_policy_sound password :
  meets_password_policy password = true → password_policy password = true.
Proof.
  unfold meets_password_policy, PASSWORD_POLICY_match, password_policy.
  rewrite !andb_true_iff. intros [[[[Hl Hu] Hd] Hs] Hn].
  repeat split; try by apply re_lookahead_existsb.
  apply bool_decide_eq_true. by apply re_dots_eol_length.
Qed.

(** On passwords without a line feed the pattern is the policy. *)
Lemma meets_password_policy_no_line_feed password :
  Forall (λ c, c ≠ 10%N) password →
  meets_password_policy password = password_policy password.
Proof.
  intros Hlf.
  assert (Forall (λ c, re_dot c = true) password) as Hdot.
  { eapply Forall_impl; [done|]. intros c Hc; simpl. unfold re_dot.
    by apply negb_true_iff, N.eqb_neq. }
  apply eq_true_iff_eq. split; [apply meets_password_policy_sound|].
  unfold meets_password_policy, PASSWORD_POLICY_match, password_policy.
  rewrite !andb_true_iff. intros [[[[Hn Hl] Hu] Hd] Hs].
  repeat split; try by apply existsb_re_lookahead.
  apply length_re_dots_eol; [done|]. by apply bool_decide_eq_true in Hn.
Qed.

(** *** [get_current_user] *)

Lemma get_current_user_expired db token sub uid u last t_decode t_check t_update :
  jwt_decode token t_decode = Some (Some sub) → int_of_str sub = Some uid →
  users db !! uid = Some u →
  User.last_active u = Some last → seconds 30 < t_check - last →
  get_current_user token t_decode t_check t_update db =
    (db, Raise (HTTPException 401
                  "Session expired due to inactivity. Please log in again.")).
Proof.
  intros Htok Hint Hu Hlast Hlt. unfold get_current_user, session_get. run.
  rewrite Htok, Hint; simpl. rewrite Hu; simpl. rewrite Hlast.
  apply Z.ltb_lt in Hlt. by rewrite Hlt.
Qed.

Lemma get_current_user_active db token sub uid u t_decode t_check t_update :
  jwt_decode token t_decode = Some (Some sub) → int_of_str sub = Some uid →
  users db !! uid = Some u →
  (∀ last, User.last_active u = Some last → t_check - last ≤ seconds 30) →
  get_current_user token t_decode t_check t_update db =
    (set_users (insert uid (touch t_update u)) db,
     Return (Entity uid (touch t_update u))).
Proof.
  intros Htok Hint Hu Hlast. unfold get_current_user, session_get. run.
  rewrite Htok, Hint; simpl. rewrite Hu; simpl.
  destruct (User.last_active u) as [last|]; [|done].
  specialize (Hlast _ eq_refl). apply Z.ltb_ge in Hlast. by rewrite Hlast.
Qed.

Lemma get_current_user_cases db token t_decode t_check t_update :
  match get_current_user token t_decode t_check t_update db with
  | (db', Raise _) => db' = db
  | (db', Return user) =>
      ∃ u, users db !! id user = Some u ∧
           row user = touch t_update u ∧
           db' = set_users (insert (id user) (row user)) db
  end.
Proof.
  unfold get_current_user, session_get. run.
  destruct (jwt_decode token t_decode) as [[sub|]|]; simpl; [|done..].
  destruct (int_of_str sub) as [uid|]; simpl; [|done].
  destruct (users db !! uid) as [u|] eqn:Hu; simpl; [|done].
  destruct (User.last_active u) as [last|]; [destruct (_ <? _)|]; simpl; eauto.
Qed.
(** *** [login] *)

Lemma not_locked_at t u :
  ¬ locked_at t u →
  match User.lockout_until u with
  | Some until => (t <? until) = false
  | None => True
  end.
Proof.
  intros Hn. destruct (User.lockout_until u) as [until|] eqn:Hl; [|done].
  apply Z.ltb_ge. destruct (decide (t < until)); [|lia].
  destruct Hn. by exists until.
Qed.

Lemma login_unknown_email db username password captcha ip clock :
  user_by_email db username = None →
  login username password captcha ip clock db =
    (db, Raise (HTTPException 401 "Incorrect email or password")).
Proof.
  unfold user_by_email. intros Hu. unfold login, get_user_by_email. run.
  by rewrite Hu.
Qed.

Lemma login_locked db username password captcha ip clock user until :
  user_by_email db username = Some user →
  User.lockout_until (row user) = Some until → at_lock_test clock < until →
  login username password captcha ip clock db =
    (db, Raise (HTTPException 403
           ("Account locked due to too many failed attempts. Try again in "
            +:+ remaining_minutes (until - at_remaining clock) +:+ " minutes."))).
Proof.
  unfold user_by_email. intros Hu Hl Hlt. unfold login, get_user_by_email. run.
  rewrite Hu; simpl. rewrite Hl; simpl. apply Z.ltb_lt in Hlt. by rewrite Hlt.
Qed.

Lemma login_wrong_password db username password captcha ip clock user :
  let u := row user in
  user_by_email db username = Some user →
  ¬ locked_at (at_lock_test clock) u →
  verify_password password (User.password_hash u) = false →
  User.failed_login_attempts u + 1 < 5 →
  login username password captcha ip clock db =
    (set_users (insert (id user)
       (with_login_state (User.failed_login_attempts u + 1)
          (User.lockout_until u) (User.last_active u) u)) db,
     Raise (HTTPException 401 "Incorrect email or password")).
Proof.
  intros u; unfold user_by_email. intros Hu Hn%not_locked_at Hpw Hlt.
  unfold login, get_user_by_email. run. rewrite Hu; simpl. fold u.
  apply Z.leb_gt in Hlt.
  destruct (User.lockout_until u) as [until|]; simpl;
    [rewrite Hn; simpl|]; by rewrite Hpw, Hlt.
Qed.

Lemma login_lockout db username password captcha ip clock user :
  let u := row user in
  user_by_email db username = Some user →
  ¬ locked_at (at_lock_test clock) u →
  verify_password password (User.password_hash u) = false →
  5 ≤ User.failed_login_attempts u + 1 →
  login username password captcha ip clock db =
    (set_users (insert (id user)
       (with_login_state (User.failed_login_attempts u + 1)
          (Some (at_lockout clock + minutes 15)) (User.last_active u) u)) db,
     Raise (HTTPException 403
       "Account locked due to too many failed attempts. Locked for 15 minutes.")).
Proof.
  intros u; unfold user_by_email. intros Hu Hn%not_locked_at Hpw Hle.
  unfold login, get_user_by_email. run. rewrite Hu; simpl. fold u.
  apply Z.leb_le in Hle.
  destruct (User.lockout_until u) as [until|]; simpl;
    [rewrite Hn; simpl|]; by rewrite Hpw, Hle.
Qed.

Lemma login_success db username password captcha ip clock user :
  let u := row user in
  user_by_email db username = Some user →
  ¬ locked_at (at_lock_test clock) u →
  verify_password password (User.password_hash u) = true →
  login username password captcha ip clock db =
    (set_users (insert (id user)
       (with_login_state 0 None (Some (at_success clock)) u)) db,
     Return {| access_token :=
                 create_access_token (pretty (id user)) (User.role u)
                   (Some (minutes ACCESS_TOKEN_EXPIRE_MINUTES)) (at_token clock);
               token_type := "bearer" |}).
Proof.
  intros u; unfold user_by_email. intros Hu Hn%not_locked_at Hpw.
  unfold login, get_user_by_email. run. rewrite Hu; simpl. fold u.
  destruct (User.lockout_until u) as [until|]; simpl;
    [rewrite Hn; simpl|]; by rewrite Hpw.
Qed.

(** *** [register] *)

Lemma register_weak_password db user_in now :
  user_by_email db (UserCreate.email user_in) = None →
  meets_password_policy (UserCreate.password user_in) = false →
  register user_in now db =
    (db, Raise (HTTPException 400
       "Password must be at least 12 characters with uppercase, lowercase, digit, and special character.")).
Proof.
  unfold user_by_email. intros Hu Hpw. unfold register, get_user_by_email. run.
  rewrite Hu; simpl. by rewrite Hpw.
Qed.

Lemma register_cases db user_in now :
  match register user_in now db with
  | (db', Raise _) => db' = db
  | (db', Return user) =>
      users db !! id user = None ∧
      user_by_email db (UserCreate.email user_in) = None ∧
      meets_password_policy (UserCreate.password user_in) = true ∧
      User.email (row user) = UserCreate.email user_in ∧
      db' = set_users (insert (id user) (row user)) db
  end.
Proof.
  unfold register, get_user_by_email. run. fold (user_by_email db (UserCreate.email user_in)).
  destruct (user_by_email db _) as [existing|] eqn:Hu; simpl; [done|].
  destruct (meets_password_policy _) eqn:Hpw; simpl; [|done].
  destruct (notification_service _); simpl;
    (split; [apply next_id_fresh|done]).
Qed.
End auth_facts.

(** ** Claims on the session issuer *)

Section auth_claims.
Context `{External, NotificationService}.

Lemma user_by_email_Some db email user :
  user_by_email db email = Some user →
  users db !! id user = Some (row user) ∧ User.email (row user) = email.
Proof.
  intros [Hk HP]%first_select_where_Some. split; [done|].
  by apply String.eqb_eq.
Qed.

(** Under the uniqueness of emails, the lookup by email follows an update
    of the row it found. *)
Lemma user_by_email_update db email user u' :
  unique_emails (users db) →
  user_by_email db email = Some user →
  User.email u' = User.email (row user) →
  user_by_email (set_users (insert (id user) u') db) email
    = Some (Entity (id user) u').
Proof.
  intros Huniq [Hk He]%user_by_email_Some Hsame.
  unfold user_by_email, set_users; simpl.
  destruct (first_select_where_found
              (λ _ u, String.eqb (User.email u) email)
              (<[id user:=u']> (users db)) (id user) u') as [x Hx].
  { apply lookup_insert_eq. }
  { apply String.eqb_eq. congruence. }
  rewrite Hx. f_equal.
  apply first_select_where_Some in Hx as [Hxk Hxe]. apply String.eqb_eq in Hxe.
  rewrite lookup_insert in Hxk. case_decide as Heq.
  - destruct x as [xi xr]; simpl in *. congruence.
  - destruct Heq. symmetry. eapply Huniq; eauto. congruence.
Qed.

(** C2. Account lockout lifecycle.  For a known email and a user who is
    not locked out at the time of the call: a wrong password adds one to
    the failed-attempt counter and is answered 401 while the counter
    stays below 5; when the counter reaches 5 the lockout is set to 15
    minutes after the clock reading and the answer is 403.  While the
    lockout is in the future every call for that user is answered 403,
    whatever the password, and the database is unchanged.  A correct
    password from a user who is not locked out returns a bearer token,
    puts the counter at 0 and clears the lockout.  And with unique emails
    the steps chain: after the locking call, a call whose clock is before
    the 15 minutes are over is answered 403, and one at or after that
    moment with the correct password succeeds with counter 0 and no
    lockout. *)
Theorem account_lockout_lifecycle :
  ∀ db username captcha ip clock user,
    let u := row user in
    user_by_email db username = Some user →
    (∀ password,
       ¬ locked_at (at_lock_test clock) u →
       verify_password password (User.password_hash u) = false →
       User.failed_login_attempts u + 1 < 5 →
       login username password captcha ip clock db =
         (set_users (insert (id user)
            (with_login_state (User.failed_login_attempts u + 1)
               (User.lockout_until u) (User.last_active u) u)) db,
          Raise (HTTPException 401 "Incorrect email or password"))) ∧
    (∀ password,
       ¬ locked_at (at_lock_test clock) u →
       verify_password password (User.password_hash u) = false →
       5 ≤ User.failed_login_attempts u + 1 →
       login username password captcha ip clock db =
         (set_users (insert (id user)
            (with_login_state (User.failed_login_attempts u + 1)
               (Some (at_lockout clock + minutes 15)) (User.last_active u) u)) db,
          Raise (HTTPException 403
            "Account locked due to too many failed attempts. Locked for 15 minutes."))) ∧
    (∀ password,
       locked_at (at_lock_test clock) u →
       ∃ detail,
         login username password captcha ip clock db =
           (db, Raise (HTTPException 403 detail))) ∧
    (∀ password,
       ¬ locked_at (at_lock_test clock) u →
       verify_password password (User.password_hash u) = true →
       ∃ token db',
         login username password captcha ip clock db = (db', Return token) ∧
         token_type token = "bearer" ∧
         (∃ u', users db' !! id user = Some u' ∧
                User.failed_login_attempts u' = 0 ∧
                User.lockout_until u' = None ∧
                User.last_active u' = Some (at_success clock))) ∧
    (∀ password,
       unique_emails (users db) →
       ¬ locked_at (at_lock_test clock) u →
       verify_password password (User.password_hash u) = false →
       5 ≤ User.failed_login_attempts u + 1 →
       let locked_db := (login username password captcha ip clock db).1 in
       ∀ password' captcha' ip' clock',
         (at_lock_test clock' < at_lockout clock + minutes 15 →
          ∃ detail,
            login username password' captcha' ip' clock' locked_db =
              (locked_db, Raise (HTTPException 403 detail))) ∧
         (at_lockout clock + minutes 15 ≤ at_lock_test clock' →
          verify_password password' (User.password_hash u) = true →
          ∃ token db' u',
            login username password' captcha' ip' clock' locked_db =
              (db', Return token) ∧
            users db' !! id user = Some u' ∧
            User.failed_login_attempts u' = 0 ∧
            User.lockout_until u' = None)).
Proof.
  intros db username captcha ip clock user u Hu.
  split; [|split; [|split; [|split]]].
  - intros password. by apply login_wrong_password.
  - intros password. by apply login_lockout.
  - intros password (until & Hl & Hlt). eexists.
    by apply (login_locked db username password captcha ip clock user until).
  - intros password Hn Hpw. eexists _, _.
    split; [by apply login_success|]. split; [done|].
    eexists. split; [apply lookup_insert_eq|done].
  - intros password Huniq Hn Hpw Hle locked_db password' captcha' ip' clock'.
    set (u1 := with_login_state (User.failed_login_attempts u + 1)
                 (Some (at_lockout clock + minutes 15)) (User.last_active u) u).
    assert (locked_db = set_users (insert (id user) u1) db) as ->.
    { unfold locked_db.
      by rewrite (login_lockout db username password captcha ip clock user). }
    assert (user_by_email (set_users (insert (id user) u1) db) username
            = Some (Entity (id user) u1)) as Hu1
      by (by apply user_by_email_update).
    split.
    + intros Hlt. eexists.
      eapply (login_locked _ username password' captcha' ip' clock' _ _ Hu1);
        [done|done].
    + intros Hge Hpw'. eexists _, _, _.
      split.
      { apply (login_success _ username password' captcha' ip' clock' _ Hu1);
          [|done].
        intros (until & Hl & Hlt). simpl in Hl. simplify_eq. lia. }
      split; [apply lookup_insert_eq|done].
Qed.

(** C7. Inactivity timeout.  With a token that decodes to the id of a
    stored user: when more than 30 seconds lie between the user's
    [last_active] and the clock reading of the check, the call raises the
    session-expired error (401) and the database, [last_active]
    included, is unchanged; when [last_active] is unset or no more than
    30 seconds old, the call returns the user and stores the later clock
    reading in [last_active].  And whenever the call returns a user, that
    user's stored [last_active] is the clock reading of the update. *)
Theorem inactivity_timeout :
  ∀ db token sub uid u t_decode t_check t_update,
    jwt_decode token t_decode = Some (Some sub) → int_of_str sub = Some uid →
    users db !! uid = Some u →
    (∀ last,
       User.last_active u = Some last → seconds 30 < t_check - last →
       get_current_user token t_decode t_check t_update db =
         (db, Raise (HTTPException 401
                       "Session expired due to inactivity. Please log in again."))) ∧
    ((∀ last, User.last_active u = Some last → t_check - last ≤ seconds 30) →
     get_current_user token t_decode t_check t_update db =
       (set_users (insert uid (touch t_update u)) db,
        Return (Entity uid (touch t_update u)))) ∧
    (∀ db' user,
       get_current_user token t_decode t_check t_update db = (db', Return user) →
       users db' !! id user = Some (row user) ∧
       User.last_active (row user) = Some t_update).
Proof.
  intros db token sub uid u t_decode t_check t_update Htok Hint Hu.
  split; [|split].
  - intros last. by apply (get_current_user_expired db token sub uid).
  - by apply (get_current_user_active db token sub uid).
  - intros db' user Hret.
    pose proof (get_current_user_cases db token t_decode t_check t_update) as Hc.
    rewrite Hret in Hc. destruct Hc as (u0 & _ & Hrow & ->).
    split; [apply lookup_insert_eq|by rewrite Hrow].
Qed.
End auth_claims.

Section register_claims.
Context `{External, NotificationService}.

(** C5, at the input where the code departs from it.  The password
    ["Aa1!aaaaaaaa\nb"] has 14 characters, among them a lowercase
    letter, an uppercase letter, a digit and a special character, so it
    meets the policy; registering it with an unused email raises the
    policy error (400) and stores nothing, because [.] in the pattern
    stops at the line feed. *)
Theorem register_rejects_password_with_line_feed :
  ∀ db email role now,
    user_by_email db email = None →
    password_policy Fixture.password_with_line_feed = true ∧
    register {| UserCreate.email := email;
                UserCreate.password := Fixture.password_with_line_feed;
                UserCreate.role := role |} now db =
      (db, Raise (HTTPException 400
         "Password must be at least 12 characters with uppercase, lowercase, digit, and special character.")).
Proof.
  intros db email role now Hu. split.
  - unfold password_policy. rewrite !andb_true_iff.
    repeat split; try done.
    apply existsb_exists. exists 49%N. split; [simpl; tauto|done].
  - apply register_weak_password; [done|]; simpl.
    unfold meets_password_policy, PASSWORD_POLICY_match.
    apply andb_false_iff. by right.
Qed.
End register_claims.

(** ** Claims on the notification dispatcher *)

Section dispatch_claims.
Context `{External}.





End dispatch_claims.

(** ** Claims on the provider dashboard *)

Section dashboard_claims.

#[local] Instance start_time_le_total : Total start_time_le.
Proof. intros x y. unfold start_time_le. lia. Qed.

Lemma select_where_nil {A} (P : Z → A → bool) (tbl : gmap Z A) :
  select_where P tbl = [] ↔ ∀ k a, tbl !! k = Some a → P k a = false.
Proof. rewrite <-first_select_where_None. unfold first. by rewrite head_None. Qed.

Lemma elem_of_outer_join_profile profiles a r :
  r ∈ outer_join_profile profiles a ↔
  ∃ name, joined_name profiles (row a) name ∧ r = dashboard_row a name.
Proof.
  unfold outer_join_profile.
  set (P := λ (_ : Z) p,
         PatientProfile.user_id p =? Appointment.patient_id (row a)).
  destruct (select_where P profiles) as [|p0 ps] eqn:Hsel.
  - pose proof (proj1 (select_where_nil P profiles) Hsel) as Hnil; clear Hsel.
    rename Hnil into Hsel. rewrite list_elem_of_singleton. split.
    + intros ->. exists None. split; [|done]. left. split; [done|].
      intros k p Hk. apply Z.eqb_neq, (Hsel k p Hk).
    + intros (name & [[-> _]|(k & p & Hk & Hp & _)] & ->); [done|].
      apply Z.eqb_eq in Hp. unfold P in Hsel. by rewrite (Hsel k p Hk) in Hp.
  - rewrite list_elem_of_fmap. rewrite <-Hsel. split.
    + intros (p & -> & [Hk Hp]%elem_of_select_where).
      eexists. split; [|done]. right. exists (id p), (row p).
      split; [done|]. split; [by apply Z.eqb_eq|done].
    + intros (name & [[_ Hnone]|(k & p & Hk & Hp & ->)] & ->).
      * assert (p0 ∈ select_where P profiles) as [Hk Hp]%elem_of_select_where
          by (rewrite Hsel; left).
        apply Z.eqb_eq in Hp. by destruct (Hnone _ _ Hk).
      * exists (Entity k p). split; [done|].
        apply elem_of_select_where. split; [done|]. by apply Z.eqb_eq.
Qed.

Lemma joined_name_exists profiles a : ∃ name, joined_name profiles a name.
Proof.
  set (P := λ (_ : Z) p, PatientProfile.user_id p =? Appointment.patient_id a).
  destruct (first (select_where P profiles)) as [p|] eqn:Hq.
  - apply first_select_where_Some in Hq as [Hk Hp]. apply Z.eqb_eq in Hp.
    eexists. right. by exists (id p), (row p).
  - exists None. left. split; [done|]. intros k p Hk.
    apply Z.eqb_neq. by apply (proj1 (first_select_where_None P profiles) Hq k p).
Qed.

Lemma outer_join_profile_one profiles a :
  one_profile_per_user profiles →
  ∃ name, outer_join_profile profiles a = [dashboard_row a name].
Proof.
  intros Hone. unfold outer_join_profile.
  set (P := λ (_ : Z) p,
         PatientProfile.user_id p =? Appointment.patient_id (row a)).
  pose proof (NoDup_select_where P profiles) as Hnd.
  destruct (select_where P profiles) as [|p0 [|p1 ps]] eqn:Hsel; simpl; eauto.
  assert (p0 ∈ select_where P profiles) as [Hk0 Hp0%Z.eqb_eq]%elem_of_select_where
    by (rewrite Hsel; set_solver).
  assert (p1 ∈ select_where P profiles) as [Hk1 Hp1%Z.eqb_eq]%elem_of_select_where
    by (rewrite Hsel; set_solver).
  assert (id p0 = id p1) as Hid by (eapply Hone; eauto; congruence).
  assert (p0 = p1) as -> by (apply entity_eq; [done|]; rewrite Hid in Hk0; congruence).
  apply NoDup_cons in Hnd as [Hnotin _]. destruct Hnotin. left.
Qed.

Lemma dashboard_ids profiles (sel : list (entity Appointment.t)) :
  one_profile_per_user profiles →
  ProviderAppointment.id <$> (sel ≫= outer_join_profile profiles) = id <$> sel.
Proof.
  intros Hone. induction sel as [|a sel IH]; [done|].
  rewrite bind_cons, fmap_app, IH.
  destruct (outer_join_profile_one profiles a Hone) as [name ->]. done.
Qed.

(** C10. Provider dashboard.  For a user whose role is ["provider"] the
    listing returns, ordered by start time, rows for exactly the booked
    appointments whose [provider_id] equals the id of that user row: each
    returned row copies such an appointment and carries the profile name
    the outer join gave it, each such appointment has a row, and it has
    only one when no patient has two profile rows.  The
    provider table plays no part: two databases with the same
    appointments and profiles give the same listing, whatever their
    providers.  Any other role is refused (403). *)
Theorem provider_dashboard_by_user_id :
  ∀ db u,
    (User.role (row u) ≠ "provider" →
     get_provider_dashboard u db =
       (db, Raise (HTTPException 403 "Must be logged in as a provider"))) ∧
    (User.role (row u) = "provider" →
     ∃ rows,
       get_provider_dashboard u db = (db, Return rows) ∧
       Sorted start_time_le rows ∧
       (∀ r, r ∈ rows ↔
             ∃ k a name,
               appointments db !! k = Some a ∧
               Appointment.provider_id a = id u ∧ booked a ∧
               joined_name (patient_profiles db) a name ∧
               r = dashboard_row (Entity k a) name) ∧
       (∀ k, (∃ r, r ∈ rows ∧ ProviderAppointment.id r = k) ↔
             (∃ a, appointments db !! k = Some a ∧
                   Appointment.provider_id a = id u ∧ booked a)) ∧
       (one_profile_per_user (patient_profiles db) →
        NoDup (ProviderAppointment.id <$> rows))) ∧
    (∀ db',
       appointments db' = appointments db →
       patient_profiles db' = patient_profiles db →
       (get_provider_dashboard u db').2 = (get_provider_dashboard u db).2).
Proof.
  intros db u. split; [|split].
  - intros Hrole. unfold get_provider_dashboard. run.
    apply String.eqb_neq in Hrole. by rewrite Hrole.
  - intros Hrole. unfold get_provider_dashboard. run.
    apply String.eqb_eq in Hrole. rewrite Hrole; simpl.
    eexists. split; [done|]. split; [apply Sorted_merge_sort, _|].
    assert (∀ r, r ∈ order_by_start_time
                   (select_where
                      (λ _ a, (Appointment.provider_id a =? id u) &&
                              String.eqb (Appointment.status a) "booked")
                      (appointments db)
                    ≫= outer_join_profile (patient_profiles db)) ↔
                 ∃ k a name,
                   appointments db !! k = Some a ∧
                   Appointment.provider_id a = id u ∧ booked a ∧
                   joined_name (patient_profiles db) a name ∧
                   r = dashboard_row (Entity k a) name) as Hrows.
    { intros r. unfold order_by_start_time.
      rewrite merge_sort_Permutation, list_elem_of_bind. split.
      - intros (a & (name & Hj & ->)%elem_of_outer_join_profile
                  & [Hk HP]%elem_of_select_where).
        apply andb_true_iff in HP as [Hp%Z.eqb_eq Hb%String.eqb_eq].
        exists (id a), (row a), name. by destruct a.
      - intros (k & a & name & Hk & Hp & Hb & Hj & ->).
        exists (Entity k a). split.
        + apply elem_of_outer_join_profile. by exists name.
        + apply elem_of_select_where. split; [done|]; simpl.
          apply andb_true_iff. split; [by apply Z.eqb_eq|by apply String.eqb_eq]. }
    split; [done|]. split.
    + intros k. split.
      * intros (r & (k' & a & name & Hk & Hp & Hb & _ & ->)%Hrows & <-).
        by exists a.
      * intros (a & Hk & Hp & Hb).
        destruct (joined_name_exists (patient_profiles db) a) as [name Hj].
        exists (dashboard_row (Entity k a) name). split; [|done].
        apply Hrows. by exists k, a, name.
    + intros Hone. unfold order_by_start_time.
      rewrite merge_sort_Permutation, dashboard_ids by done.
      apply NoDup_select_where_id.
  - intros db' Ha Hp. unfold get_provider_dashboard. run.
    destruct (negb _); simpl; [done|]. by rewrite Ha, Hp.
Qed.
End dashboard_claims.


(** * Examples

    The statements above at the inputs of [Fixture]. *)

Section examples.
#[local] Existing Instance Fixture.libraries.
#[local] Existing Instance Fixture.failing_dispatcher.
Import Fixture.

(** Deciding a property of all rows of a table. *)
Lemma all_rows {A} (P : Z → A → Prop) `{∀ k a, Decision (P k a)} (tbl : gmap Z A) :
  bool_decide (map_Forall P tbl) = true → ∀ k a, tbl !! k = Some a → P k a.
Proof. intros Hd%bool_decide_eq_true. by apply map_Forall_lookup. Qed.

(** The scenario of the specification: 09:00 to 09:30 is booked, 09:15 to
    09:45 then conflicts, and 09:30 to 10:00 is accepted. *)
Example booking_scenario :
  (book_appointment (slot 7 540 570) alice 0 db0).2
    = Return (Entity 1 (new_appointment (slot 7 540 570) alice 0)) ∧
  book_appointment (slot 7 555 585) alice 0 db1
    = (db1, Raise (HTTPException 400
                     "This time slot is already booked for this provider.")) ∧
  (book_appointment (slot 7 570 600) alice 0 db1).2
    = Return (Entity 2 (new_appointment (slot 7 570 600) alice 0)).
Proof. repeat split; by vm_compute. Qed.

(** Six requests from the empty table, two of them refused, keep the
    invariant; the booking from 09:30 touches the one that ends at 09:30 and
    is stored; the booking from 09:15 overlaps it and is refused. *)
Lemma no_overlap_invariant_witness :
  no_overlap (appointments
    (serve_all [Book (slot 7 540 570) alice 0; Book (slot 7 555 585) alice 0;
                Book (slot 7 570 600) alice 0; Reschedule 1 (move 560 590) alice;
                Cancel 2 alice; Reschedule 1 (move 560 590) alice] db0)) ∧
  (∃ pk, appointments db1 !! pk = None ∧
         book_appointment (slot 7 570 600) alice 0 db1 =
           (set_appointments
              (insert pk (new_appointment (slot 7 570 600) alice 0)) db1,
            Return (Entity pk (new_appointment (slot 7 570 600) alice 0)))) ∧
  book_appointment (slot 7 555 585) alice 0 db1 =
    (db1, Raise (HTTPException 400
                   "This time slot is already booked for this provider.")).
Proof.
  destruct no_overlap_invariant as (Hinv & Htouch & Hconflict).
  split; [|split].
  - apply Hinv. intros i j a b _ Hi. vm_compute in Hi. discriminate.
  - apply Htouch.
    + eexists. by vm_compute.
    + reflexivity.
    + apply (all_rows (λ _ a,
        Appointment.provider_id a = 7 → Appointment.status a = "booked" →
        Appointment.end_time a ≤ minutes 570 ∨ minutes 600 ≤ Appointment.start_time a)).
      by vm_compute.
  - apply (Hconflict db1 (slot 7 555 585) alice 0 1
             (new_appointment (slot 7 540 570) alice 0)).
    + by vm_compute.
    + reflexivity.
    + reflexivity.
    + by vm_compute.
    + by vm_compute.
    + eexists. by vm_compute.
    + reflexivity.
Defined.


(** A booking with a naive start and an aware end cannot be compared: the
    [TypeError] leaves the handler and nothing is stored.  A reschedule
    normalises first: 11:00 at UTC+01:00 is stored as 10:00. *)
Example aware_datetimes :
  book_appointment
    {| AppointmentBook.provider_id := 7;
       AppointmentBook.start_time := naive (minutes 600);
       AppointmentBook.end_time :=
         {| wall := minutes 630; utcoffset := Some (minutes 60) |};
       AppointmentBook.reason := None |} alice 0 db1
    = (db1, Raise (PyException "TypeError")) ∧
  (reschedule_appointment 1
     {| AppointmentReschedule.start_time :=
          {| wall := minutes 660; utcoffset := Some (minutes 60) |};
        AppointmentReschedule.end_time := naive (minutes 630) |} alice db1).2
    = Return (Entity 1 (Appointment.with_times (minutes 600) (minutes 630)
                          (new_appointment (slot 7 540 570) alice 0))).
Proof. split; by vm_compute. Qed.

(** An inverted range with a stored provider, and an empty range with an
    unknown one. *)
Lemma book_invalid_range_witness :
  book_appointment (slot 7 570 540) alice 0 db1 =
    (db1, Raise (HTTPException 400 "start_time must be before end_time.")) ∧
  book_appointment (slot 99 570 570) alice 0 db1 =
    (db1, Raise (HTTPException 404 "Provider not found.")).
Proof.
  split.
  - apply (book_invalid_range db1 (slot 7 570 540) alice 0).
    + by vm_compute.
    + eexists. by vm_compute.
  - apply (book_invalid_range db1 (slot 99 570 570) alice 0).
    + by vm_compute.
    + by vm_compute.
Defined.

(** Provider 99 is not in the provider table: the booking from 09:30 to
    09:00 with that provider has [start_time >= end_time], and the answer
    is not the invalid-range error (it is the provider-not-found one). *)
Lemma book_invalid_range_unknown_provider :
  datetime_ge (AppointmentBook.start_time (slot 99 570 540))
              (AppointmentBook.end_time (slot 99 570 540)) = Return true ∧
  book_appointment (slot 99 570 540) alice 0 db0 =
    (db0, Raise (HTTPException 404 "Provider not found.")) ∧
  book_appointment (slot 99 570 540) alice 0 db0 ≠
    (db0, Raise (HTTPException 400 "start_time must be before end_time.")).
Proof. split; [by vm_compute|]. split; [by vm_compute|]. vm_compute. intros [=]. Qed.

(** The registration of [bob@example.com], an unused email. *)
Lemma register_rejects_password_with_line_feed_witness :
  password_policy password_with_line_feed = true ∧
  register {| UserCreate.email := "bob@example.com";
              UserCreate.password := password_with_line_feed;
              UserCreate.role := None |} 0 db0 =
    (db0, Raise (HTTPException 400
       "Password must be at least 12 characters with uppercase, lowercase, digit, and special character.")).
Proof.
  apply (register_rejects_password_with_line_feed db0 "bob@example.com" None 0).
  by vm_compute.
Defined.

(** The same password without the line feed and what follows it is
    accepted. *)
Example register_accepts_good_password :
  (register {| UserCreate.email := "bob@example.com";
               UserCreate.password := good_password;
               UserCreate.role := None |} 0 db0).2
  = Return (Entity 3 {| User.email := "bob@example.com";
                        User.password_hash := fake_hash good_password;
                        User.role := "patient"; User.created_at := 0;
                        User.failed_login_attempts := 0;
                        User.lockout_until := None;
                        User.last_active := None |}).
Proof. by vm_compute. Qed.


(** Last active at 0: a request at 31 s is refused, one at 30 s is served
    and moves [last_active]. *)
Lemma inactivity_timeout_witness :
  get_current_user "1" (seconds 31) (seconds 31) (seconds 32) (db_seen 0) =
    (db_seen 0, Raise (HTTPException 401
       "Session expired due to inactivity. Please log in again.")) ∧
  get_current_user "1" (seconds 30) (seconds 30) (seconds 32) (db_seen 0) =
    (set_users (insert 1 (touch (seconds 32) (touch 0 (row alice)))) (db_seen 0),
     Return (Entity 1 (touch (seconds 32) (touch 0 (row alice))))).
Proof.
  destruct (inactivity_timeout (db_seen 0) "1" "1" 1 (touch 0 (row alice))
              (seconds 31) (seconds 31) (seconds 32)) as (Hexpired & _ & _);
    [reflexivity|reflexivity|by vm_compute|].
  destruct (inactivity_timeout (db_seen 0) "1" "1" 1 (touch 0 (row alice))
              (seconds 30) (seconds 30) (seconds 32)) as (_ & Hactive & _);
    [reflexivity|reflexivity|by vm_compute|].
  split.
  - apply (Hexpired 0); [reflexivity|by vm_compute].
  - apply Hactive. intros last [= <-]. by vm_compute.
Defined.

(** The cancelled appointment 1 stays cancelled through a reschedule, a
    cancel and a booking, and keeps its whole record when the reschedule
    is of another appointment. *)
Lemma cancelled_is_terminal_witness :
  (∃ a', appointments
           (serve_all [Reschedule 1 (move 600 630) alice; Cancel 1 alice;
                       Book (slot 7 540 570) alice 0] db_cancelled) !! 1 = Some a' ∧
         cancelled a') ∧
  appointments
    (serve_all [Cancel 1 alice; Book (slot 7 540 570) alice 0;
                Reschedule 2 (move 600 630) alice] db_cancelled) !! 1
  = appointments db_cancelled !! 1.
Proof.
  split.
  - destruct (cancelled_is_terminal
                [Reschedule 1 (move 600 630) alice; Cancel 1 alice;
                 Book (slot 7 540 570) alice 0] db_cancelled 1
                (Appointment.with_status "cancelled"
                   (new_appointment (slot 7 540 570) alice 0)))
      as (a' & Hrow & Hc & _); [by vm_compute|reflexivity|].
    by exists a'.
  - destruct (cancelled_is_terminal
                [Cancel 1 alice; Book (slot 7 540 570) alice 0;
                 Reschedule 2 (move 600 630) alice] db_cancelled 1
                (Appointment.with_status "cancelled"
                   (new_appointment (slot 7 540 570) alice 0)))
      as (a' & Hrow & _ & _ & Hsame); [by vm_compute|reflexivity|].
    rewrite Hrow, Hsame; [by vm_compute|].
    repeat constructor; simpl; lia.
Defined.

(** The owner's reschedule of a cancelled appointment is carried out:
    the status stays ["cancelled"], and the start moves from 09:00 to
    10:00. *)
Lemma reschedule_moves_cancelled_appointment :
  Appointment.status <$> appointments db_cancelled !! 1 = Some "cancelled" ∧
  Appointment.start_time <$> appointments db_cancelled !! 1 = Some (minutes 540) ∧
  Appointment.start_time <$>
    appointments (serve (Reschedule 1 (move 600 630) alice) db_cancelled) !! 1
  = Some (minutes 600) ∧
  minutes 540 ≠ minutes 600.
Proof. repeat split; by vm_compute. Qed.

(** Alice cancels appointment 1 twice. *)
Lemma double_cancel_idempotent_witness :
  (cancel_appointment 1 alice db1).2 = Return cancelled_message ∧
  cancel_appointment 1 alice db_cancelled = (db_cancelled, Return cancelled_message).
Proof.
  destruct (double_cancel_idempotent db1 1
              (new_appointment (slot 7 540 570) alice 0) alice)
    as (Hfirst & _ & Hsecond & _); [by vm_compute|reflexivity|].
  split; [apply Hfirst|apply Hsecond].
Defined.

(** A patient is refused; the user 2 with the provider role sees the
    appointment of provider 2 and not that of provider 7. *)
Lemma provider_dashboard_by_user_id_witness :
  get_provider_dashboard alice db_two_providers =
    (db_two_providers, Raise (HTTPException 403 "Must be logged in as a provider")) ∧
  ∃ rows,
    get_provider_dashboard dr_smith_user db_two_providers
      = (db_two_providers, Return rows) ∧
    (∃ r, r ∈ rows ∧ ProviderAppointment.id r = 2) ∧
    ¬ (∃ r, r ∈ rows ∧ ProviderAppointment.id r = 1).
Proof.
  split.
  - apply provider_dashboard_by_user_id. by vm_compute.
  - destruct (provider_dashboard_by_user_id db_two_providers dr_smith_user)
      as (_ & Hrows & _).
    destruct (Hrows eq_refl) as (rows & Hcall & _ & _ & Hids & _).
    exists rows. split; [done|]. split.
    + apply Hids. eexists. split; [by vm_compute|]. by vm_compute.
    + intros (a & Hk & Hp & _)%Hids. vm_compute in Hk. by simplify_eq.
Defined.

(** The user [dr.smith@example.com] has the user id 2; the provider row
    made for her has the key 7.  Her dashboard lists the appointment booked
    with provider 2 and not the one booked with provider 7. *)
Example dashboard_id_conflation :
  Provider.name <$> providers db_two_providers !! 7 = Some "Dr. Sarah Smith" ∧
  Appointment.provider_id <$> appointments db_two_providers !! 1 = Some 7 ∧
  Appointment.provider_id <$> appointments db_two_providers !! 2 = Some 2 ∧
  ProviderAppointment.id <$>
    match (get_provider_dashboard dr_smith_user db_two_providers).2 with
    | Return rows => rows
    | Raise _ => []
    end = [2].
Proof. repeat split; by vm_compute. Qed.
(** Five wrong passwords in a row: the first four are answered 401, the
    fifth 403.  A minute before the quarter of an hour is over the right
    password is answered 403 as well; once it is over, the right password
    gets a token and the counter is back at 0. *)
Example lockout_scenario :
  (attempt wrong_password 0 (db_failures 3)).2
    = Raise (HTTPException 401 "Incorrect email or password") ∧
  (attempt wrong_password 0 (db_failures 4)).2
    = Raise (HTTPException 403
        "Account locked due to too many failed attempts. Locked for 15 minutes.") ∧
  attempt good_password (minutes 14) (db_failures 5)
    = (db_failures 5,
       Raise (HTTPException 403
         "Account locked due to too many failed attempts. Try again in 1 minutes.")) ∧
  (attempt good_password (minutes 15) (db_failures 5)).2
    = Return {| access_token := "1.patient.4500000000"; token_type := "bearer" |} ∧
  User.failed_login_attempts <$>
    users (attempt good_password (minutes 15) (db_failures 5)).1 !! 1 = Some 0 ∧
  User.failed_login_attempts <$> users (db_failures 5) !! 1 = Some 5.
Proof. repeat split; by vm_compute. Qed.

(** Deciding the uniqueness of emails in a table. *)
Lemma unique_emails_decide (tbl : gmap Z User.t) :
  bool_decide
    (map_Forall (λ i u,
       map_Forall (λ j v, User.email u = User.email v → i = j) tbl) tbl) = true →
  unique_emails tbl.
Proof.
  intros Hd%bool_decide_eq_true i j u v Hi Hj.
  exact (map_Forall_lookup_1 _ _ _ _ (map_Forall_lookup_1 _ _ _ _ Hd Hi) Hj).
Qed.

(** The fourth and the fifth wrong password, and the right one just
    before and right at the end of the lockout. *)
Lemma account_lockout_lifecycle_witness :
  login "alice@example.com" wrong_password None "10.0.0.1" (at_time 0)
        (db_attempts 3 None)
    = (db_attempts 4 None, Raise (HTTPException 401 "Incorrect email or password")) ∧
  login "alice@example.com" wrong_password None "10.0.0.1" (at_time 0)
        (db_attempts 4 None)
    = (db_attempts 5 (Some (minutes 15)),
       Raise (HTTPException 403
         "Account locked due to too many failed attempts. Locked for 15 minutes.")) ∧
  (∃ detail,
     login "alice@example.com" good_password None "10.0.0.1"
           (at_time (minutes 15 - 1)) (db_attempts 5 (Some (minutes 15)))
       = (db_attempts 5 (Some (minutes 15)), Raise (HTTPException 403 detail))) ∧
  (∃ token db' u',
     login "alice@example.com" good_password None "10.0.0.1"
           (at_time (minutes 15)) (db_attempts 5 (Some (minutes 15)))
       = (db', Return token) ∧
     users db' !! 1 = Some u' ∧
     User.failed_login_attempts u' = 0 ∧ User.lockout_until u' = None).
Proof.
  pose proof (account_lockout_lifecycle (db_attempts 3 None) "alice@example.com"
                None "10.0.0.1" (at_time 0)
                (Entity 1 (with_login_state 3 None None (row alice))) eq_refl)
    as (Hwrong & _).
  pose proof (account_lockout_lifecycle (db_attempts 4 None) "alice@example.com"
                None "10.0.0.1" (at_time 0)
                (Entity 1 (with_login_state 4 None None (row alice))) eq_refl)
    as (_ & Hlock & _ & _ & Hchain).
  assert (¬ locked_at 0 (with_login_state 4 None None (row alice))) as Hfree
    by (by intros (until & [=] & _)).
  split; [|split].
  - rewrite (Hwrong wrong_password); [by vm_compute| |by vm_compute|by vm_compute].
    by intros (until & [=] & _).
  - rewrite (Hlock wrong_password Hfree); by vm_compute.
  - specialize (Hchain wrong_password).
    assert (unique_emails (users (db_attempts 4 None))) as Huniq
      by (apply unique_emails_decide; by vm_compute).
    specialize (Hchain Huniq Hfree eq_refl).
    assert (5 ≤ 4 + 1) as Hfive by lia. specialize (Hchain Hfive).
    split.
    + destruct (Hchain good_password None "10.0.0.1" (at_time (minutes 15 - 1)))
        as [Hlocked _].
      destruct Hlocked as [detail Hcall]; [by vm_compute|].
      exists detail. exact Hcall.
    + destruct (Hchain good_password None "10.0.0.1" (at_time (minutes 15)))
        as [_ Hopen].
      destruct Hopen as (token & db' & u' & Hcall & Hrow & Hzero & Hnone);
        [by vm_compute|by vm_compute|].
      exists token, db', u'. split; [exact Hcall|]. by split.
Defined.
End examples.

(** * Further properties *)

(** ** The scheduling engine: ownership, history, slots *)

Section scheduling_more.
Context `{External, NotificationService}.

(** One request and one row: the row stays, keeps what identifies the
    booking, changes its status to ["cancelled"] at most, and is untouched
    when somebody else asks. *)
Lemma serve_row r db k a :
  appointments db !! k = Some a →
  ∃ a', appointments (serve r db) !! k = Some a' ∧ same_booking a a' ∧
        (Appointment.status a' = Appointment.status a ∨ cancelled a') ∧
        (requester r ≠ Appointment.patient_id a → a' = a).
Proof.
  intros Hk. destruct r as [booking u now|k' body u|k' u]; simpl.
  - pose proof (book_appointment_cases booking u now db) as Hb.
    destruct (book_appointment booking u now db) as [db' [appt|e]]; simpl in *.
    + destruct Hb as (-> & -> & _); simpl. exists a.
      rewrite lookup_insert. case_decide as Heq.
      * pose proof (next_id_fresh (appointments db)) as Hf. congruence.
      * unfold same_booking. auto 10.
    + subst. exists a. unfold same_booking. auto 10.
  - pose proof (reschedule_appointment_cases k' body u db) as Hr.
    destruct (reschedule_appointment k' body u db) as [db' [appt|e]]; simpl in *.
    + destruct Hr as (b & s0 & e0 & Hk' & Hown & _ & _ & _ & _ & _ & ->); simpl.
      rewrite lookup_insert. case_decide as Heq.
      * subst k'. simplify_eq. eexists. split; [done|].
        split; [by unfold same_booking|]. split; [by left|]. by intros [].
      * exists a. unfold same_booking. auto 10.
    + subst. exists a. unfold same_booking. auto 10.
  - pose proof (cancel_appointment_cases k' u db) as Hx.
    destruct (cancel_appointment k' u db) as [db' [m|e]]; simpl in *.
    + destruct Hx as (_ & b & Hk' & Hown & ->); simpl.
      rewrite lookup_insert. case_decide as Heq.
      * subst k'. simplify_eq. eexists. split; [done|].
        split; [by unfold same_booking|]. split; [by right|]. by intros [].
      * exists a. unfold same_booking. auto 10.
    + subst. exists a. unfold same_booking. auto 10.
Qed.

(** X1. Ownership.  Whatever book, reschedule and cancel requests the
    other users make, with whatever arguments, an appointment's row stays
    exactly as it is: only requests of the patient who owns it can change
    it. *)
Theorem only_the_owner_changes_an_appointment :
  ∀ rs db k a,
    appointments db !! k = Some a →
    Forall (λ r, requester r ≠ Appointment.patient_id a) rs →
    appointments (serve_all rs db) !! k = Some a.
Proof.
  unfold serve_all. induction rs as [|r rs IH]; intros db k a Hk Hrs; simpl; [done|].
  apply Forall_cons in Hrs as [Hr Hrs].
  destruct (serve_row r db k a Hk) as (a' & Hk' & _ & _ & Heq).
  rewrite (Heq Hr) in Hk'. by apply IH.
Qed.

(** X2. History.  No sequence of requests removes an appointment or
    changes its patient, provider, reason or creation time; its status is
    either what it was or ["cancelled"]. *)
Theorem appointments_are_never_removed :
  ∀ rs db k a,
    appointments db !! k = Some a →
    ∃ a', appointments (serve_all rs db) !! k = Some a' ∧ same_booking a a' ∧
          (Appointment.status a' = Appointment.status a ∨ cancelled a').
Proof.
  unfold serve_all. induction rs as [|r rs IH]; intros db k a Hk; simpl.
  - exists a. unfold same_booking. auto 10.
  - destruct (serve_row r db k a Hk) as (a1 & Hk1 & Hsame1 & Hst1 & _).
    destruct (IH _ _ _ Hk1) as (a2 & Hk2 & Hsame2 & Hst2).
    exists a2. split; [done|]. split.
    + unfold same_booking in *. intuition congruence.
    + unfold cancelled in *.
      destruct Hst1 as [H1|H1], Hst2 as [H2|H2]; [left|right|right|right]; congruence.
Qed.

(** X3. Order of the refusals.  An id that is not in the table is
    answered 404 by reschedule and by cancel; a requester who is not the
    owner is answered 403 by both, whatever times a reschedule carries.
    The owner's reschedule with an aware time whose wall clock in UTC is
    outside the range of [datetime] raises [OverflowError], which no
    handler catches; with times that have a normalised form and a range
    that, in UTC, does not start before it ends, it is answered 400,
    overlapping or not.  Each time the database is as before. *)
Theorem reschedule_and_cancel_refusals :
  ∀ db k body u,
    (appointments db !! k = None →
     reschedule_appointment k body u db =
       (db, Raise (HTTPException 404 "Appointment not found.")) ∧
     cancel_appointment k u db =
       (db, Raise (HTTPException 404 "Appointment not found."))) ∧
    (∀ a, appointments db !! k = Some a → Appointment.patient_id a ≠ id u →
      reschedule_appointment k body u db =
        (db, Raise (HTTPException 403
                      "You can only reschedule your own appointments.")) ∧
      cancel_appointment k u db =
        (db, Raise (HTTPException 403
                      "You can only cancel your own appointments."))) ∧
    (∀ a, appointments db !! k = Some a → Appointment.patient_id a = id u →
      ¬ (utc_representable (AppointmentReschedule.start_time body) ∧
         utc_representable (AppointmentReschedule.end_time body)) →
      reschedule_appointment k body u db =
        (db, Raise (PyException "OverflowError"))) ∧
    (∀ a, appointments db !! k = Some a → Appointment.patient_id a = id u →
      utc_representable (AppointmentReschedule.start_time body) →
      utc_representable (AppointmentReschedule.end_time body) →
      utc_wall (AppointmentReschedule.end_time body)
        ≤ utc_wall (AppointmentReschedule.start_time body) →
      reschedule_appointment k body u db =
        (db, Raise (HTTPException 400 "start_time must be before end_time"))).
Proof.
  intros db k body u. split; [|split; [|split]].
  - intros Hk. split.
    + by apply reschedule_appointment_not_found.
    + by apply cancel_appointment_not_found.
  - intros a Hk Hne. split.
    + by apply (reschedule_appointment_forbidden k body u db a).
    + by apply (cancel_appointment_forbidden k u db a).
  - intros a Hk Hown Hnot.
    apply (reschedule_appointment_overflow k body u db a); [done..|].
    destruct (astimezone_utc (AppointmentReschedule.start_time body))
      as [s|ex] eqn:Hs.
    + right. split; [by eexists|].
      apply astimezone_utc_overflow. intros He. apply Hnot. split; [|done].
      by apply astimezone_utc_Return in Hs as [? _].
    + left. by apply astimezone_utc_Raise in Hs as [-> _].
  - intros a Hk Hown Hs%astimezone_utc_representable
      He%astimezone_utc_representable Hle.
    by apply (reschedule_appointment_invalid k body u db a _ _ Hk Hown Hs He).
Qed.

(** X4. A cancellation frees the slot.  Take a booked appointment and a
    booking for the same provider that would be accepted were it not for
    that appointment.  While the appointment is booked and overlaps the
    range, the booking is refused; once its owner has cancelled it, the
    same booking is accepted, for any patient. *)
Theorem cancel_frees_the_slot :
  ∀ db k a u booking v now,
    let s := to_column (AppointmentBook.start_time booking) in
    let e := to_column (AppointmentBook.end_time booking) in
    appointments db !! k = Some a → Appointment.patient_id a = id u →
    booked a →
    Appointment.provider_id a = AppointmentBook.provider_id booking →
    is_Some (providers db !! AppointmentBook.provider_id booking) →
    datetime_ge (AppointmentBook.start_time booking)
                (AppointmentBook.end_time booking) = Return false →
    free_for (appointments db) (Some k) (AppointmentBook.provider_id booking) s e →
    (Appointment.start_time a < e → s < Appointment.end_time a →
     book_appointment booking v now db =
       (db, Raise (HTTPException 400
                     "This time slot is already booked for this provider."))) ∧
    ∃ db' appt,
      book_appointment booking v now (cancel_appointment k u db).1
        = (db', Return appt) ∧
      row appt = new_appointment booking v now ∧
      appointments db' !! id appt = Some (row appt) ∧
      (∃ a', appointments db' !! k = Some a' ∧ cancelled a').
Proof.
  intros db k a u booking v now s e Hk Hown Hb Hp Hprov Hge Hfree. split.
  - intros Hov1 Hov2. by apply (book_appointment_conflict booking v now db k a).
  - rewrite (cancel_appointment_success k u db a) by done; simpl.
    remember (set_appointments
                (insert k (Appointment.with_status "cancelled" a)) db)
      as db1 eqn:Hdb1.
    assert (∀ j, appointments db1 !! j =
                 if decide (k = j)
                 then Some (Appointment.with_status "cancelled" a)
                 else appointments db !! j) as Hrows
      by (intros j; rewrite Hdb1; apply appointments_set_insert).
    assert (providers db1 = providers db) as Hprov1 by (by rewrite Hdb1).
    assert (free_for (appointments db1) None
              (AppointmentBook.provider_id booking) s e) as Hfree1.
    { intros k' a' Hk' _ Hp' Hb'. rewrite Hrows in Hk'. case_decide as Heq.
      - simplify_eq. by unfold booked in Hb'.
      - eapply Hfree; eauto. congruence. }
    assert (appointments db1 !! k
            = Some (Appointment.with_status "cancelled" a)) as Hk1.
    { rewrite Hrows. by case_decide. }
    pose proof (next_id_fresh (appointments db1)) as Hf.
    eexists _, _. split.
    + apply book_appointment_success; [by rewrite Hprov1|done|exact Hfree1].
    + split; [done|]. split.
      * rewrite appointments_set_insert. by case_decide.
      * exists (Appointment.with_status "cancelled" a). split; [|done].
        rewrite appointments_set_insert. case_decide as Heq; [|done].
        simpl in Heq. rewrite Heq in Hf. congruence.
Qed.

(** A booking that was accepted has a column range that starts before it
    ends, when the driver keeps the order of instants. *)
Lemma accepted_range_valid booking :
  order_preserving_driver →
  datetime_ge (AppointmentBook.start_time booking)
              (AppointmentBook.end_time booking) = Return false →
  to_column (AppointmentBook.start_time booking)
    < to_column (AppointmentBook.end_time booking).
Proof.
  intros Hdrv. unfold datetime_ge, to_column.
  destruct (utcoffset (AppointmentBook.start_time booking)) as [o|],
           (utcoffset (AppointmentBook.end_time booking)) as [o'|];
    intros [= Hle]; try done.
  - apply Hdrv. by apply Z.leb_gt in Hle.
  - by apply Z.leb_gt in Hle.
Qed.

Lemma serve_valid_ranges r db :
  order_preserving_driver →
  valid_ranges (appointments db) → valid_ranges (appointments (serve r db)).
Proof.
  intros Hdrv Hinv. destruct r as [booking u now|k body u|k u]; simpl.
  - pose proof (book_appointment_cases booking u now db) as Hc.
    destruct (book_appointment booking u now db) as [db' [appt|e]]; simpl in *;
      [|by subst].
    destruct Hc as (-> & -> & _ & Hge & _); simpl.
    intros k a. rewrite lookup_insert. case_decide.
    + intros [= <-]; simpl. by apply accepted_range_valid.
    + apply Hinv.
  - pose proof (reschedule_appointment_cases k body u db) as Hc.
    destruct (reschedule_appointment k body u db) as [db' [appt|e]]; simpl in *;
      [|by subst].
    destruct Hc as (a & s & e0 & Hk & _ & _ & _ & Hlt & _ & _ & ->); simpl.
    intros k' a'. rewrite lookup_insert. case_decide.
    + by intros [= <-].
    + apply Hinv.
  - pose proof (cancel_appointment_cases k u db) as Hc.
    destruct (cancel_appointment k u db) as [db' [m|e]]; simpl in *; [|by subst].
    destruct Hc as (_ & a & Hk & _ & ->); simpl.
    intros k' a'. rewrite lookup_insert. case_decide.
    + intros [= <-]; simpl. by apply (Hinv k).
    + apply Hinv.
Qed.

(** X5. Valid ranges.  When the database driver keeps the order of
    instants, every sequence of requests keeps all stored appointments
    starting before they end; and a booking that was accepted cannot be
    accepted a second time: sent again, by anyone, it runs into the row it
    created. *)
Theorem stored_ranges_stay_valid :
  order_preserving_driver →
  (∀ rs db,
     valid_ranges (appointments db) →
     valid_ranges (appointments (serve_all rs db))) ∧
  (∀ db booking u now db' appt v now',
     book_appointment booking u now db = (db', Return appt) →
     book_appointment booking v now' db' =
       (db', Raise (HTTPException 400
                      "This time slot is already booked for this provider."))).
Proof.
  intros Hdrv. split.
  - unfold serve_all. induction rs as [|r rs IH]; intros db Hinv; simpl; [done|].
    by apply IH, serve_valid_ranges.
  - intros db booking u now db' appt v now' Hret.
    pose proof (book_appointment_cases booking u now db) as Hc.
    rewrite Hret in Hc. destruct Hc as (-> & -> & Hprov & Hge & _); simpl.
    pose proof (accepted_range_valid booking Hdrv Hge) as Hlt.
    apply (book_appointment_conflict booking v now' _
             (next_id (appointments db)) (new_appointment booking u now));
      try done.
    simpl. apply lookup_insert_eq.
Qed.
End scheduling_more.

(** ** The listings and the provider directory *)

Section listings.
Context `{External, NotificationService}.

#[local] Instance appointment_start_le_total : Total appointment_start_le.
Proof. intros x y. unfold appointment_start_le. lia. Qed.

Lemma elem_of_my_appointments db u e :
  e ∈ returned (list_my_appointments u db) ↔
  appointments db !! id e = Some (row e) ∧ Appointment.patient_id (row e) = id u.
Proof.
  unfold returned, list_my_appointments, query; simpl.
  rewrite elem_of_select_where, Z.eqb_eq. done.
Qed.

(** X6. The patient's own list.  [list_my_appointments] changes nothing
    and returns, once each, exactly the appointments whose patient is the
    caller, whatever their status.  An appointment the caller has just
    booked is in it, and is in nobody else's list, which is as before; an
    appointment the caller has just cancelled is still in it, as
    cancelled. *)
Theorem my_appointments_listing :
  ∀ db u,
    (∃ l, list_my_appointments u db = (db, Return l) ∧ NoDup (id <$> l) ∧
          ∀ e, e ∈ l ↔ appointments db !! id e = Some (row e) ∧
                       Appointment.patient_id (row e) = id u) ∧
    (∀ booking now db' appt,
       book_appointment booking u now db = (db', Return appt) →
       appt ∈ returned (list_my_appointments u db') ∧
       ∀ v, id v ≠ id u →
            ∀ e, e ∈ returned (list_my_appointments v db') ↔
                 e ∈ returned (list_my_appointments v db)) ∧
    (∀ k db' m,
       cancel_appointment k u db = (db', Return m) →
       ∃ a', Entity k a' ∈ returned (list_my_appointments u db') ∧ cancelled a').
Proof.
  intros db u. split; [|split].
  - eexists. split; [done|]. split; [apply NoDup_select_where_id|].
    intros e. apply (elem_of_my_appointments db u e).
  - intros booking now db' appt Hret.
    pose proof (book_appointment_cases booking u now db) as Hc.
    rewrite Hret in Hc. destruct Hc as (-> & -> & _); simpl.
    pose proof (next_id_fresh (appointments db)) as Hf. split.
    + apply elem_of_my_appointments; simpl. split; [apply lookup_insert_eq|done].
    + intros v Hv e. rewrite !elem_of_my_appointments; simpl.
      rewrite lookup_insert. case_decide as Heq; [|done]. split.
      * intros [Hrow Hp]. injection Hrow as Hrow. rewrite <-Hrow in Hp.
        simpl in Hp. congruence.
      * intros [He _]. rewrite <-Heq in He. congruence.
  - intros k db' m Hret.
    pose proof (cancel_appointment_cases k u db) as Hc.
    rewrite Hret in Hc. destruct Hc as (_ & a & Hk & Hown & ->).
    exists (Appointment.with_status "cancelled" a). split; [|done].
    apply elem_of_my_appointments; simpl. split; [apply lookup_insert_eq|done].
Qed.

Lemma elem_of_provider_appointments db pid u now e :
  e ∈ returned (list_provider_appointments pid u now db) ↔
  appointments db !! id e = Some (row e) ∧
  Appointment.provider_id (row e) = pid ∧ now ≤ Appointment.start_time (row e).
Proof.
  unfold returned, list_provider_appointments, query; simpl.
  rewrite merge_sort_Permutation, elem_of_select_where, andb_true_iff,
    Z.eqb_eq, Z.leb_le. done.
Qed.

(** X7. The slots of a provider.  For any caller,
    [list_provider_appointments] changes nothing and returns, ordered by
    start time and once each, exactly the provider's appointments that
    start at the clock reading or later, whatever their status and
    whoever their patient.  So an upcoming appointment that its owner
    cancels stays in the list, as cancelled. *)
Theorem provider_appointments_listing :
  ∀ db pid u now,
    (∃ l, list_provider_appointments pid u now db = (db, Return l) ∧
          Sorted appointment_start_le l ∧ NoDup (id <$> l) ∧
          ∀ e, e ∈ l ↔ appointments db !! id e = Some (row e) ∧
                       Appointment.provider_id (row e) = pid ∧
                       now ≤ Appointment.start_time (row e)) ∧
    (∀ k a owner db' m,
       Entity k a ∈ returned (list_provider_appointments pid u now db) →
       cancel_appointment k owner db = (db', Return m) →
       Entity k (Appointment.with_status "cancelled" a)
         ∈ returned (list_provider_appointments pid u now db')).
Proof.
  intros db pid u now. split.
  - eexists. split; [done|]. split; [apply Sorted_merge_sort, _|]. split.
    + rewrite merge_sort_Permutation. apply NoDup_select_where_id.
    + intros e. apply (elem_of_provider_appointments db pid u now e).
  - intros k a owner db' m [Hk [Hp Hnow]]%elem_of_provider_appointments Hret.
    simpl in *.
    pose proof (cancel_appointment_cases k owner db) as Hc.
    rewrite Hret in Hc. destruct Hc as (_ & a0 & Hk0 & _ & ->). simplify_eq.
    apply elem_of_provider_appointments; simpl.
    split; [apply lookup_insert_eq|done].
Qed.

Lemma elem_of_list_providers db u e :
  e ∈ returned (list_providers u db) ↔ providers db !! id e = Some (row e).
Proof.
  unfold returned, list_providers, query; simpl.
  rewrite elem_of_select_where. tauto.
Qed.

Lemma book_appointment_known_provider booking v now db :
  is_Some (providers db !! AppointmentBook.provider_id booking) →
  (book_appointment booking v now db).2
    ≠ Raise (HTTPException 404 "Provider not found.").
Proof.
  intros [p Hp]. unfold book_appointment, session_get. run. rewrite Hp; simpl.
  unfold datetime_ge.
  destruct (utcoffset (AppointmentBook.start_time booking)),
           (utcoffset (AppointmentBook.end_time booking)); simpl; try done;
    (destruct (_ <=? _); simpl; [done|];
     destruct (first _); simpl; [done|];
     by destruct (notification_service _)).
Qed.

(** X8. Creating a provider.  For any caller, patients included,
    [create_provider] returns a provider with the name, specialty and
    location of the request under a key that was not in use, stores it
    there, and leaves every other provider and every other table as they
    were.  From then on [list_providers] returns it along with all it
    returned before, and a booking that names it is no longer answered
    with the provider-not-found error. *)
Theorem create_provider_adds_to_the_directory :
  ∀ db provider_in u now,
    ∃ db' e,
      create_provider provider_in u now db = (db', Return e) ∧
      providers db !! id e = None ∧ providers db' !! id e = Some (row e) ∧
      Provider.name (row e) = ProviderCreate.name provider_in ∧
      Provider.specialty (row e) = ProviderCreate.specialty provider_in ∧
      Provider.location (row e) = ProviderCreate.location provider_in ∧
      (∀ j, j ≠ id e → providers db' !! j = providers db !! j) ∧
      users db' = users db ∧ appointments db' = appointments db ∧
      patient_profiles db' = patient_profiles db ∧
      (∀ v, e ∈ returned (list_providers v db') ∧
            ∀ x, x ∈ returned (list_providers v db) →
                 x ∈ returned (list_providers v db')) ∧
      (∀ booking v now',
         AppointmentBook.provider_id booking = id e →
         (book_appointment booking v now' db').2
           ≠ Raise (HTTPException 404 "Provider not found.")).
Proof.
  intros db provider_in u now.
  pose proof (next_id_fresh (providers db)) as Hf.
  eexists _, _. split; [done|]. simpl.
  split; [done|]. split; [apply lookup_insert_eq|]. do 3 (split; [done|]).
  split; [intros j Hj; by apply lookup_insert_ne|]. do 3 (split; [done|]).
  split.
  - intros v. split.
    + apply elem_of_list_providers; simpl. apply lookup_insert_eq.
    + intros x Hx%elem_of_list_providers. apply elem_of_list_providers; simpl.
      rewrite lookup_insert_ne; [done|]. intros Heq. rewrite Heq in Hf. congruence.
  - intros booking v now' Hpid. apply book_appointment_known_provider.
    rewrite Hpid; simpl. rewrite lookup_insert_eq. by eexists.
Qed.
End listings.

(** ** The session issuer: refusals, sessions, accounts *)

Section auth_more.
Context `{External, NotificationService}.

(** What a call of [login] can do. *)
Lemma login_cases db username password captcha ip clock :
  match login username password captcha ip clock db with
  | (db', Return token) =>
      ∃ user,
        user_by_email db username = Some user ∧
        ¬ locked_at (at_lock_test clock) (row user) ∧
        verify_password password (User.password_hash (row user)) = true ∧
        db' = set_users (insert (id user)
                (with_login_state 0 None (Some (at_success clock)) (row user))) db ∧
        token = {| access_token :=
                     create_access_token (pretty (id user)) (User.role (row user))
                       (Some (minutes ACCESS_TOKEN_EXPIRE_MINUTES)) (at_token clock);
                   token_type := "bearer" |}
  | (db', Raise e) =>
      (db' = db ∧
       ((user_by_email db username = None ∧
         e = HTTPException 401 "Incorrect email or password") ∨
        (∃ user detail, user_by_email db username = Some user ∧
                        locked_at (at_lock_test clock) (row user) ∧
                        e = HTTPException 403 detail))) ∨
      ∃ user lock,
        user_by_email db username = Some user ∧
        ¬ locked_at (at_lock_test clock) (row user) ∧
        verify_password password (User.password_hash (row user)) = false ∧
        db' = set_users (insert (id user)
                (with_login_state (User.failed_login_attempts (row user) + 1) lock
                   (User.last_active (row user)) (row user))) db ∧
        ((User.failed_login_attempts (row user) + 1 < 5 ∧
          e = HTTPException 401 "Incorrect email or password") ∨
         (5 ≤ User.failed_login_attempts (row user) + 1 ∧
          e = HTTPException 403
                "Account locked due to too many failed attempts. Locked for 15 minutes."))
  end.
Proof.
  destruct (user_by_email db username) as [user|] eqn:Hu;
    [|rewrite login_unknown_email by done; left; auto].
  assert (locked_at (at_lock_test clock) (row user) ∨
          ¬ locked_at (at_lock_test clock) (row user)) as [(until & Hl & Hlt)|Hn].
  { unfold locked_at. destruct (User.lockout_until (row user)) as [until|];
      [|right; by intros (? & [=] & _)].
    destruct (decide (at_lock_test clock < until)); [left; eauto|].
    right. intros (? & [= <-] & ?). lia. }
  { rewrite (login_locked db username password captcha ip clock user until) by done.
    left. split; [done|]. right. eexists user, _.
    split; [done|]. split; [by exists until|done]. }
  destruct (verify_password password (User.password_hash (row user))) eqn:Hpw.
  - rewrite (login_success db username password captcha ip clock user) by done.
    exists user. auto.
  - destruct (decide (User.failed_login_attempts (row user) + 1 < 5)) as [Hlt|Hge].
    + rewrite (login_wrong_password db username password captcha ip clock user)
        by done.
      right. eexists user, _. auto 10.
    + rewrite (login_lockout db username password captcha ip clock user)
        by (done || lia).
      right. eexists user, _. repeat (split; [done|]). right. split; [lia|done].
Qed.

Lemma user_by_email_None db email :
  user_by_email db email = None ↔
  ∀ k u, users db !! k = Some u → User.email u ≠ email.
Proof.
  unfold user_by_email. rewrite first_select_where_None.
  split; intros Hall k u Hk; specialize (Hall k u Hk).
  - by apply String.eqb_neq.
  - by apply String.eqb_neq.
Qed.

Lemma user_by_email_new db email k u :
  user_by_email db email = None → User.email u = email →
  user_by_email (set_users (insert k u) db) email = Some (Entity k u).
Proof.
  intros Hnone He. rewrite user_by_email_None in Hnone.
  unfold user_by_email, set_users; simpl.
  destruct (first_select_where_found
              (λ _ u, String.eqb (User.email u) email)
              (<[k:=u]> (users db)) k u) as [x Hx].
  { apply lookup_insert_eq. }
  { by apply String.eqb_eq. }
  rewrite Hx. f_equal.
  apply first_select_where_Some in Hx as [Hxk Hxe]. apply String.eqb_eq in Hxe.
  rewrite lookup_insert in Hxk. case_decide as Heq.
  - destruct x as [xi xr]; simpl in *. congruence.
  - by destruct (Hnone _ _ Hxk).
Qed.

Lemma unique_emails_update tbl k u u' :
  unique_emails tbl → tbl !! k = Some u → User.email u' = User.email u →
  unique_emails (<[k:=u']> tbl).
Proof.
  intros Huniq Hk He i j x y. rewrite !lookup_insert.
  repeat case_decide; intros; simplify_eq; try done.
  - eapply Huniq; eauto. congruence.
  - eapply Huniq; eauto. congruence.
  - by eapply Huniq.
Qed.

Lemma unique_emails_new tbl k u :
  unique_emails tbl →
  (∀ j v, tbl !! j = Some v → User.email v ≠ User.email u) →
  unique_emails (<[k:=u]> tbl).
Proof.
  intros Huniq Hnew i j x y. rewrite !lookup_insert.
  repeat case_decide; intros Hx Hy He; simplify_eq; try done.
  - by destruct (Hnew _ _ Hy).
  - by destruct (Hnew _ _ Hx).
  - by eapply Huniq.
Qed.

(** X9. Refusals of [get_current_user].  Whenever the call raises, the
    database is as before and the error is one of two: the credentials
    error or the session-expired error, both 401.  A token that the
    library rejects, a token without a subject, a subject that is no
    integer and a subject that is no stored user id all get the same
    credentials error. *)
Theorem authentication_refusals :
  ∀ db token t_decode t_check t_update,
    (∀ db' e,
       get_current_user token t_decode t_check t_update db = (db', Raise e) →
       db' = db ∧ (e = credentials_exception ∨ e = session_expired)) ∧
    (jwt_decode token t_decode = None ∨ jwt_decode token t_decode = Some None ∨
     (∃ sub, jwt_decode token t_decode = Some (Some sub) ∧
             (int_of_str sub = None ∨
              ∃ uid, int_of_str sub = Some uid ∧ users db !! uid = None)) →
     get_current_user token t_decode t_check t_update db = (db, Raise credentials_exception)).
Proof.
  intros db token t_decode t_check t_update. split.
  - unfold get_current_user, session_get. run.
    destruct (jwt_decode token t_decode) as [[sub|]|]; simpl;
      [|intros ?? [= <- <-]; auto..].
    destruct (int_of_str sub) as [uid|]; simpl; [|intros ?? [= <- <-]; auto].
    destruct (users db !! uid) as [u|]; simpl; [|intros ?? [= <- <-]; auto].
    destruct (User.last_active u) as [last|]; [destruct (_ <? _)|]; simpl;
      intros ?? [=]; subst; auto.
  - unfold get_current_user, session_get. run.
    intros [->|[->|(sub & -> & [->|(uid & -> & Hu)])]]; simpl; try done.
    by rewrite Hu.
Qed.


(** A token the library rejects gets the credentials error. *)
Lemma get_current_user_rejected db token t_decode t_check t_update :
  jwt_decode token t_decode = None →
  get_current_user token t_decode t_check t_update db
    = (db, Raise credentials_exception).
Proof. intros Htok. unfold get_current_user. run. by rewrite Htok. Qed.

(** The token of [login] is encoded with the expiry of the setting. *)
Lemma create_access_token_login sub role now :
  create_access_token sub role (Some (minutes ACCESS_TOKEN_EXPIRE_MINUTES)) now
  = jwt_encode sub role (now + minutes ACCESS_TOKEN_EXPIRE_MINUTES).
Proof. unfold create_access_token. by destruct (_ =? _). Qed.


(** X11. From login to the requests that follow.  The token that [login]
    returns is the encoding of the user's id, the user's role and the
    expiry [exp], the clock reading of [create_access_token] plus the
    token lifetime of the setting.  Suppose the JWT library decodes that
    token to its subject while its clock is at most [exp] and rejects it
    from one second after [exp] on, and [int] reads the decimal form of
    the user's id.  Then, on the database [login] left: while the
    library's clock is at most [exp], a request with the token
    authenticates that very user exactly when its check comes no more
    than 30 seconds after the clock reading that [login] stored in
    [last_active], and is answered session-expired when it comes later;
    from one second after [exp] on, the request is answered with the
    credentials error, whatever the activity. *)
Theorem login_token_opens_a_session :
  ∀ db username password captcha ip clock db' token user,
    let exp := at_token clock + minutes ACCESS_TOKEN_EXPIRE_MINUTES in
    let issued := jwt_encode (pretty (id user)) (User.role (row user)) exp in
    user_by_email db username = Some user →
    (∀ now, now ≤ exp →
            jwt_decode issued now = Some (Some (pretty (id user)))) →
    (∀ now, exp + seconds 1 ≤ now → jwt_decode issued now = None) →
    int_of_str (pretty (id user)) = Some (id user) →
    login username password captcha ip clock db = (db', Return token) →
    access_token token = issued ∧
    ∀ t_decode t_check t_update,
      (t_decode ≤ exp → t_check - at_success clock ≤ seconds 30 →
       ∃ db'' user',
         get_current_user (access_token token) t_decode t_check t_update db'
           = (db'', Return user') ∧
         id user' = id user ∧ same_account (row user) (row user')) ∧
      (t_decode ≤ exp → seconds 30 < t_check - at_success clock →
       get_current_user (access_token token) t_decode t_check t_update db'
         = (db', Raise session_expired)) ∧
      (exp + seconds 1 ≤ t_decode →
       get_current_user (access_token token) t_decode t_check t_update db'
         = (db', Raise credentials_exception)).
Proof.
  intros db username password captcha ip clock db' token user exp issued
    Hu Hvalid Hover Hint Hret.
  pose proof (login_cases db username password captcha ip clock) as Hc.
  rewrite Hret in Hc. destruct Hc as (user0 & Hu0 & _ & _ & -> & ->).
  rewrite Hu in Hu0. injection Hu0 as <-. simpl.
  rewrite create_access_token_login. fold exp issued.
  split; [done|]. intros t_decode t_check t_update.
  set (u1 := with_login_state 0 None (Some (at_success clock)) (row user)).
  assert (users (set_users (insert (id user) u1) db) !! id user = Some u1) as Hu1
    by (simpl; apply lookup_insert_eq).
  split; [|split].
  - intros Hexp Hle. eexists _, _. split.
    + apply (get_current_user_active _ _ (pretty (id user)) (id user) u1);
        [by apply Hvalid|done|done|].
      intros last [= <-]. done.
    + simpl. split; [done|]. by unfold same_account.
  - intros Hexp Hlt.
    by apply (get_current_user_expired _ _ (pretty (id user)) (id user) u1
                (at_success clock)); [apply Hvalid|..].
  - intros Hexp. apply get_current_user_rejected. by apply Hover.
Qed.

(** X12. From registration to login.  After [register] returned a user,
    the lookup by email finds that user; a second registration with the
    same email, whatever its password and role, is refused (400) and
    changes nothing; and, if the hasher verifies the hashes it makes, a
    login with the registered password succeeds at any time. *)
Theorem registered_user_can_log_in :
  ∀ db user_in now db' user,
    register user_in now db = (db', Return user) →
    user_by_email db' (UserCreate.email user_in) = Some user ∧
    (∀ password role now',
       register {| UserCreate.email := UserCreate.email user_in;
                   UserCreate.password := password;
                   UserCreate.role := role |} now' db' =
         (db', Raise (HTTPException 400 "A user with this email already exists."))) ∧
    (argon2_verify (argon2_hash (UserCreate.password user_in))
                   (UserCreate.password user_in) = true →
     ∀ captcha ip clock,
       ∃ db'' token,
         login (UserCreate.email user_in) (UserCreate.password user_in)
               captcha ip clock db' = (db'', Return token)).
Proof.
  intros db user_in now db' user Hret.
  pose proof (register_cases db user_in now) as Hc.
  rewrite Hret in Hc. destruct Hc as (Hfresh & Hnone & Hpol & Hemail & ->).
  assert (user_by_email (set_users (insert (id user) (row user)) db)
            (UserCreate.email user_in) = Some user) as Hfound.
  { rewrite (user_by_email_new db _ (id user) (row user)) by done.
    by destruct user. }
  split; [done|]. split.
  - intros password role now'. unfold register, get_user_by_email. run.
    unfold user_by_email in Hfound. simpl in Hfound. by rewrite Hfound.
  - intros Hhash captcha ip clock. eexists _, _.
    apply (login_success _ _ _ captcha ip clock user Hfound).
    + revert Hret. unfold register, get_user_by_email. run.
      destruct (first _); simpl; [done|].
      destruct (negb _); simpl; [done|].
      destruct (notification_service _); intros [= _ <-]; simpl;
        by intros (? & [=] & _).
    + revert Hret. unfold register, get_user_by_email. run.
      destruct (first _); simpl; [done|].
      destruct (negb _); simpl; [done|].
      destruct (notification_service _); intros [= _ <-]; simpl;
        unfold verify_password, get_password_hash; by rewrite Hhash.
Qed.

Lemma serve_auth_unique_emails r db :
  unique_emails (users db) → unique_emails (users (serve_auth r db)).
Proof.
  intros Huniq. destruct r as [user_in now|username password captcha ip clock
                               |token t_decode t_check t_update]; simpl.
  - pose proof (register_cases db user_in now) as Hc.
    destruct (register user_in now db) as [db' [user|e]]; simpl in *; [|by subst].
    destruct Hc as (_ & Hnone & _ & Hemail & ->); simpl.
    apply unique_emails_new; [done|].
    rewrite user_by_email_None in Hnone. intros j v Hj. rewrite Hemail.
    by apply (Hnone j v).
  - pose proof (login_cases db username password captcha ip clock) as Hc.
    destruct (login username password captcha ip clock db) as [db' [token|e]];
      simpl in *.
    + destruct Hc as (user & [Hk _]%user_by_email_Some & _ & _ & -> & _); simpl.
      by apply (unique_emails_update _ _ (row user)).
    + destruct Hc as [[-> _]|(user & lock & [Hk _]%user_by_email_Some & _ & _ & -> & _)];
        [done|]; simpl.
      by apply (unique_emails_update _ _ (row user)).
  - pose proof (get_current_user_cases db token t_decode t_check t_update) as Hc.
    destruct (get_current_user token t_decode t_check t_update db) as [db' [user|e]];
      simpl in *; [|by subst].
    destruct Hc as (u & Hk & Hrow & ->); simpl.
    apply (unique_emails_update _ _ u); [done..|]. by rewrite Hrow.
Qed.

(** X13. Emails stay unique.  No sequence of registrations, logins and
    authenticated requests, whatever their arguments and outcomes, puts
    two user rows with the same email into the table. *)
Theorem emails_stay_unique :
  ∀ rs db,
    unique_emails (users db) → unique_emails (users (serve_auth_all rs db)).
Proof.
  unfold serve_auth_all. induction rs as [|r rs IH]; intros db Huniq; simpl; [done|].
  by apply IH, serve_auth_unique_emails.
Qed.

(** X14. The role is the caller's choice.  [register] stores the role
    the request names, and ["patient"] when it names none or an empty one.
    So whoever registers with the role ["provider"] passes the role check
    of the provider dashboard with the user that [register] returned. *)
Theorem register_stores_the_requested_role :
  ∀ db user_in now db' user,
    register user_in now db = (db', Return user) →
    User.role (row user) = or_patient (UserCreate.role user_in) ∧
    User.failed_login_attempts (row user) = 0 ∧
    User.lockout_until (row user) = None ∧
    (UserCreate.role user_in = Some "provider" →
     ∃ rows, get_provider_dashboard user db' = (db', Return rows)).
Proof.
  intros db user_in now db' user. unfold register, get_user_by_email. run.
  destruct (first _); simpl; [done|].
  destruct (negb _); simpl; [done|].
  destruct (notification_service _); intros [= <- <-]; simpl;
    (repeat (split; [done|]); intros ->;
     unfold get_provider_dashboard; run; by eexists).
Qed.

(** One login or authenticated request and one user row. *)
Lemma serve_auth_account r db k :
  (∀ user_in now, r ≠ Register user_in now) →
  patient_profiles (serve_auth r db) = patient_profiles db ∧
  providers (serve_auth r db) = providers db ∧
  appointments (serve_auth r db) = appointments db ∧
  match users db !! k, users (serve_auth r db) !! k with
  | Some u, Some u' => same_account u u'
  | None, None => True
  | _, _ => False
  end.
Proof.
  intros Hr.
  assert (∀ j u', users db !! j = Some u' →
            ∀ u'', same_account u' u'' →
            match users db !! k, <[j:=u'']> (users db) !! k with
            | Some u, Some u' => same_account u u'
            | None, None => True
            | _, _ => False
            end) as Hupd.
  { intros j u' Hj u'' Hsame. rewrite lookup_insert. case_decide as Heq.
    - subst. by rewrite Hj.
    - destruct (users db !! k); [by unfold same_account|done]. }
  assert (match users db !! k, users db !! k with
          | Some u, Some u' => same_account u u'
          | None, None => True
          | _, _ => False
          end) as Hsame
    by (destruct (users db !! k); [by unfold same_account|done]).
  destruct r as [user_in now|username password captcha ip clock
                 |token t_decode t_check t_update]; simpl.
  - by destruct (Hr user_in now).
  - pose proof (login_cases db username password captcha ip clock) as Hc.
    destruct (login username password captcha ip clock db) as [db' [token|e]];
      simpl in *.
    + destruct Hc as (user & [Hk _]%user_by_email_Some & _ & _ & -> & _); simpl.
      repeat (split; [done|]). apply (Hupd _ _ Hk). by unfold same_account.
    + destruct Hc as [[-> _]|(user & lock & [Hk _]%user_by_email_Some & _ & _ & -> & _)];
        [done|]; simpl.
      repeat (split; [done|]). apply (Hupd _ _ Hk). by unfold same_account.
  - pose proof (get_current_user_cases db token t_decode t_check t_update) as Hc.
    destruct (get_current_user token t_decode t_check t_update db) as [db' [user|e]];
      simpl in *; [|by subst].
    destruct Hc as (u & Hk & Hrow & ->); simpl.
    repeat (split; [done|]). apply (Hupd _ _ Hk). rewrite Hrow.
    by unfold same_account.
Qed.

(** X15. Sessions do not touch accounts.  No sequence of logins and
    authenticated requests, failed or not, adds or removes a user or
    changes the email, password hash, role or creation time of one; nor
    does it touch the profiles, the providers or the appointments.  What
    it can change is the failed-attempt counter, the lockout and
    [last_active]. *)
Theorem sessions_never_change_accounts :
  ∀ rs db,
    Forall (λ r, ∀ user_in now, r ≠ Register user_in now) rs →
    patient_profiles (serve_auth_all rs db) = patient_profiles db ∧
    providers (serve_auth_all rs db) = providers db ∧
    appointments (serve_auth_all rs db) = appointments db ∧
    ∀ k, match users db !! k, users (serve_auth_all rs db) !! k with
         | Some u, Some u' => same_account u u'
         | None, None => True
         | _, _ => False
         end.
Proof.
  unfold serve_auth_all. induction rs as [|r rs IH]; intros db Hrs; simpl.
  - repeat (split; [done|]). intros k.
    destruct (users db !! k); [by unfold same_account|done].
  - apply Forall_cons in Hrs as [Hr Hrs].
    destruct (IH (serve_auth r db) Hrs) as (Hp & Hpr & Ha & Hu).
    pose proof (serve_auth_account r db) as Hstep.
    destruct (Hstep 0 Hr) as (Hp1 & Hpr1 & Ha1 & _).
    split; [congruence|]. split; [congruence|]. split; [congruence|].
    intros k. specialize (Hu k). destruct (Hstep k Hr) as (_ & _ & _ & Hk).
    destruct (users db !! k), (users (serve_auth r db) !! k),
      (users (foldl _ _ rs) !! k); try done.
    unfold same_account in *. intuition congruence.
Qed.

(** X16. [authenticate_user] and [login].  [authenticate_user] never
    changes the database, and returns a user exactly when the lookup by
    email finds that user and the password verifies against the stored
    hash.  [login] returns a token exactly when [authenticate_user]
    returns a user and that user is not locked out at the clock reading
    of the test. *)
Theorem login_agrees_with_authenticate_user :
  ∀ db email password,
    (authenticate_user email password db).1 = db ∧
    (∀ user,
       (authenticate_user email password db).2 = Return (Some user) ↔
       user_by_email db email = Some user ∧
       verify_password password (User.password_hash (row user)) = true) ∧
    (∀ captcha ip clock,
       (∃ db' token, login email password captcha ip clock db = (db', Return token)) ↔
       (∃ user, (authenticate_user email password db).2 = Return (Some user) ∧
                ¬ locked_at (at_lock_test clock) (row user))).
Proof.
  intros db email password.
  assert (∀ user,
            (authenticate_user email password db).2 = Return (Some user) ↔
            user_by_email db email = Some user ∧
            verify_password password (User.password_hash (row user)) = true) as Hauth.
  { intros user. unfold authenticate_user, get_user_by_email. run.
    fold (user_by_email db email).
    destruct (user_by_email db email) as [u|]; simpl;
      [|split; [done|by intros [[=] _]]].
    destruct (verify_password password (User.password_hash (row u))) eqn:Hpw; simpl.
    - split; [by intros [= ->]|by intros [[= ->] _]].
    - split; [done|]. intros [[= ->] Hv]. congruence. }
  split; [|split; [done|]].
  - unfold authenticate_user, get_user_by_email. run.
    destruct (first _) as [u|]; simpl; [|done].
    by destruct (negb _).
  - intros captcha ip clock. split.
    + intros (db' & token & Hret).
      pose proof (login_cases db email password captcha ip clock) as Hc.
      rewrite Hret in Hc. destruct Hc as (user & Hu & Hn & Hpw & _).
      exists user. split; [by apply Hauth|done].
    + intros (user & [Hu Hpw]%Hauth & Hn). eexists _, _.
      by apply (login_success db email password captcha ip clock user).
Qed.

(** X17. Only a successful login clears the counter.  Once an account
    has five or more failed attempts on its counter, no failed login for
    it is answered 401 any more: whatever the password and the clock, the
    call either succeeds or is answered 403, and after a refusal the
    counter still stands at five or more. *)
Theorem exhausted_account_stays_exhausted :
  ∀ db username password captcha ip clock,
    unique_emails (users db) → exhausted db username →
    match login username password captcha ip clock db with
    | (db', Return _) => True
    | (db', Raise e) =>
        (∃ detail, e = HTTPException 403 detail) ∧
        exhausted db' username ∧ unique_emails (users db')
    end.
Proof.
  intros db username password captcha ip clock Huniq (user & Hu & Hfive).
  pose proof (login_cases db username password captcha ip clock) as Hc.
  destruct (login username password captcha ip clock db) as [db' [token|e]];
    [done|].
  destruct Hc as [[-> He]|(user0 & lock & Hu0 & Hn & Hpw & -> & He)].
  - split; [|split; [by exists user|done]].
    destruct He as [[Hnone _]|(? & detail & _ & _ & ->)]; [congruence|by eexists].
  - rewrite Hu in Hu0. injection Hu0 as <-.
    split.
    + destruct He as [[Hlt _]|[_ ->]]; [lia|by eexists].
    + split.
      * eexists. split; [by apply user_by_email_update|]. simpl. lia.
      * simpl. apply (unique_emails_update _ _ (row user)); [done| |done].
        by apply user_by_email_Some in Hu as [? _].
Qed.
End auth_more.

(** ** The profile store *)

Section profile_facts.

Lemma get_my_profile_Some db u e :
  get_my_profile u db = (db, Return (Some e)) →
  patient_profiles db !! id e = Some (row e) ∧ PatientProfile.user_id (row e) = id u.
Proof.
  unfold get_my_profile, query. intros [= Hq].
  apply first_select_where_Some in Hq as [Hk Hp]. by apply Z.eqb_eq in Hp.
Qed.

(** With one profile per user, the lookup finds the user's row. *)
Lemma get_my_profile_unique db u k p :
  one_profile_per_user (patient_profiles db) →
  patient_profiles db !! k = Some p → PatientProfile.user_id p = id u →
  get_my_profile u db = (db, Return (Some (Entity k p))).
Proof.
  intros Hone Hk Hp. unfold get_my_profile, query.
  destruct (first_select_where_found
              (λ _ p, PatientProfile.user_id p =? id u)
              (patient_profiles db) k p Hk) as [x Hx]; [by apply Z.eqb_eq|].
  rewrite Hx. do 3 f_equal.
  apply first_select_where_Some in Hx as [Hxk Hxp]. apply Z.eqb_eq in Hxp.
  assert (id x = k) as Hid by (eapply Hone; eauto; congruence).
  apply entity_eq; simpl; [done|]. rewrite Hid in Hxk. congruence.
Qed.

Lemma get_my_profile_None db u :
  get_my_profile u db = (db, Return None) ↔
  ∀ k p, patient_profiles db !! k = Some p → PatientProfile.user_id p ≠ id u.
Proof.
  unfold get_my_profile, query. split.
  - intros [= Hq] k p Hk.
    apply Z.eqb_neq, (proj1 (first_select_where_None _ _) Hq k p Hk).
  - intros Hall. do 2 f_equal. apply first_select_where_None.
    intros k p Hk. by apply Z.eqb_neq, (Hall k p).
Qed.

(** What a call of [upsert_my_profile] does: it always returns, having
    added a row for a user without one or rewritten the user's row. *)
Lemma upsert_my_profile_cases profile_in u now db :
  ∃ e,
    upsert_my_profile profile_in u now db
      = (set_patient_profiles (insert (id e) (row e)) db, Return e) ∧
    PatientProfile.user_id (row e) = id u ∧ saved_as profile_in (row e) ∧
    ((get_my_profile u db = (db, Return None) ∧
      patient_profiles db !! id e = None ∧
      PatientProfile.created_at (row e) = now) ∨
     (∃ found, get_my_profile u db = (db, Return (Some found)) ∧
               id e = id found ∧
               PatientProfile.created_at (row e)
                 = PatientProfile.created_at (row found))).
Proof.
  unfold upsert_my_profile, get_my_profile. run.
  destruct (first _) as [found|] eqn:Hq; simpl.
  - eexists (Entity _ _). split; [done|]; simpl.
    apply first_select_where_Some in Hq as [_ Hp%Z.eqb_eq].
    split; [done|]. split; [by unfold saved_as|]. right. by exists found.
  - eexists (Entity _ _). split; [done|]; simpl.
    split; [done|]. split; [by unfold saved_as|]. left.
    split; [done|]. split; [apply next_id_fresh|done].
Qed.

Lemma upsert_one_profile_per_user profile_in u now db :
  one_profile_per_user (patient_profiles db) →
  one_profile_per_user (patient_profiles (upsert_my_profile profile_in u now db).1).
Proof.
  intros Hone.
  destruct (upsert_my_profile_cases profile_in u now db)
    as (e & -> & Hu & _ & [(Hnone & _ & _)|(found & Hfound & Hid & _)]); simpl.
  - rewrite get_my_profile_None in Hnone.
    intros i j p q. rewrite !lookup_insert.
    repeat case_decide; intros Hp Hq Heq; simplify_eq; try done.
    + destruct (Hnone _ _ Hq). congruence.
    + destruct (Hnone _ _ Hp). congruence.
    + by eapply Hone.
  - apply get_my_profile_Some in Hfound as [Hk Hfu].
    intros i j p q. rewrite !lookup_insert.
    repeat case_decide; intros Hp Hq Heq; simplify_eq; try done.
    + rewrite Hid. eapply Hone; eauto. congruence.
    + rewrite Hid. eapply Hone; eauto. congruence.
    + by eapply Hone.
Qed.

(** X18. Saving and reading a profile.  With at most one profile row per
    user, [upsert_my_profile] always returns a row of the caller that
    carries the four fields of the request; [get_my_profile] then returns
    that row to the caller, and returns to every other user what it
    returned before.  Users, providers and appointments are untouched. *)
Theorem profile_round_trip :
  ∀ db profile_in u now,
    one_profile_per_user (patient_profiles db) →
    ∃ db' e,
      upsert_my_profile profile_in u now db = (db', Return e) ∧
      PatientProfile.user_id (row e) = id u ∧ saved_as profile_in (row e) ∧
      get_my_profile u db' = (db', Return (Some e)) ∧
      (∀ v, id v ≠ id u →
            (get_my_profile v db').2 = (get_my_profile v db).2) ∧
      users db' = users db ∧ providers db' = providers db ∧
      appointments db' = appointments db.
Proof.
  intros db profile_in u now Hone.
  pose proof (upsert_one_profile_per_user profile_in u now db Hone) as Hone'.
  destruct (upsert_my_profile_cases profile_in u now db)
    as (e & Hcall & Hu & Hsaved & Hcase).
  rewrite Hcall in Hone'. cbn [fst] in Hone'.
  eexists _, e. split; [exact Hcall|]. split; [done|]. split; [done|].
  split; [|split; [|done]].
  - rewrite (get_my_profile_unique _ u (id e) (row e));
      [by destruct e|done|simpl; apply lookup_insert_eq|done].
  - intros v Hv.
    assert (∀ k, patient_profiles
                   (set_patient_profiles (insert (id e) (row e)) db) !! k
                 = if decide (id e = k) then Some (row e)
                   else patient_profiles db !! k) as Hrows'
      by (intros k; simpl; apply lookup_insert).
    remember (set_patient_profiles (insert (id e) (row e)) db) as db' eqn:Hdb'.
    destruct (first (select_where (λ _ p, PatientProfile.user_id p =? id v)
                                  (patient_profiles db))) as [x|] eqn:Hq.
    + assert (get_my_profile v db = (db, Return (Some x))) as Hx
        by (unfold get_my_profile, query; by rewrite Hq).
      rewrite Hx.
      apply get_my_profile_Some in Hx as [Hxk Hxv].
      assert (id x ≠ id e) as Hne.
      { intros Heq. destruct Hcase as [(_ & Hfresh & _)|(found & Hfound & Hid & _)].
        - rewrite <-Heq in Hfresh. congruence.
        - apply get_my_profile_Some in Hfound as [Hfk Hfu].
          rewrite Heq, Hid, Hfk in Hxk. injection Hxk as Hrows.
          rewrite Hrows in Hfu. congruence. }
      rewrite (get_my_profile_unique db' v (id x) (row x));
        [by destruct x|done| |done].
      rewrite Hrows'. by case_decide.
    + assert (get_my_profile v db = (db, Return None)) as Hx
        by (unfold get_my_profile, query; by rewrite Hq).
      rewrite Hx. rewrite get_my_profile_None in Hx.
      assert (get_my_profile v db' = (db', Return None)) as ->; [|done].
      apply get_my_profile_None. intros k p.
      rewrite Hrows'. case_decide.
      * intros [= <-]. congruence.
      * apply Hx.
Qed.

(** X19. One profile per user.  Whatever the users save and in whatever
    order, the table never holds two profile rows of one user; in
    particular not when it starts empty. *)
Theorem profiles_stay_one_per_user :
  ∀ rs db,
    one_profile_per_user (patient_profiles db) →
    one_profile_per_user (patient_profiles (save_profiles rs db)).
Proof.
  unfold save_profiles. induction rs as [|r rs IH]; intros db Hone; simpl; [done|].
  by apply IH, upsert_one_profile_per_user.
Qed.

(** X20. Saving again rewrites in place.  With at most one profile row
    per user, a second save by the same user returns the row under the
    same id and with the creation time of the first, carrying the new
    fields; and a save that repeats the data of the one before it changes
    nothing at all, whatever the clock. *)
Theorem profile_is_updated_in_place :
  ∀ db first_in second_in u now now',
    one_profile_per_user (patient_profiles db) →
    let first_call := upsert_my_profile first_in u now db in
    let second_call := upsert_my_profile second_in u now' first_call.1 in
    ∃ e e',
      first_call.2 = Return e ∧ second_call.2 = Return e' ∧
      id e' = id e ∧
      PatientProfile.created_at (row e') = PatientProfile.created_at (row e) ∧
      saved_as second_in (row e') ∧
      (second_in = first_in → second_call = first_call).
Proof.
  intros db first_in second_in u now now' Hone first_call second_call.
  pose proof (upsert_one_profile_per_user first_in u now db Hone) as Hone1.
  destruct (upsert_my_profile_cases first_in u now db)
    as (e & Hcall & Hu & Hsaved & _).
  fold first_call in Hcall, Hone1.
  assert (get_my_profile u first_call.1 = (first_call.1, Return (Some e))) as Hget.
  { rewrite (get_my_profile_unique _ u (id e) (row e)); [by destruct e|done| |done].
    rewrite Hcall; simpl. apply lookup_insert_eq. }
  destruct (upsert_my_profile_cases second_in u now' first_call.1)
    as (e' & Hcall' & Hu' & Hsaved' & [(Hnone & _)|(found & Hfound & Hid & Hcr)]).
  { rewrite Hget in Hnone. done. }
  fold second_call in Hcall'.
  rewrite Hget in Hfound. injection Hfound as <-.
  exists e, e'. split; [by rewrite Hcall|]. split; [by rewrite Hcall'|].
  split; [done|]. split; [done|]. split; [done|].
  intros ->. rewrite Hcall'.
  assert (e' = e) as ->.
  { apply entity_eq; [done|].
    destruct e as [k [? ? ? ? ? ?]], e' as [k' [? ? ? ? ? ?]];
      unfold saved_as in *; simpl in *.
    destruct Hsaved as (? & ? & ? & ?), Hsaved' as (? & ? & ? & ?). congruence. }
  rewrite Hcall at 2. f_equal.
  rewrite Hcall; simpl. unfold set_patient_profiles; simpl.
  f_equal. apply insert_insert_eq.
Qed.
End profile_facts.

(** ** The dashboard and the profile, the routes and the session *)

Section compositions.
Context `{External, NotificationService}.

(** The rows of the dashboard of a user with the provider role. *)
Lemma elem_of_dashboard db u r :
  User.role (row u) = "provider" →
  r ∈ returned (get_provider_dashboard u db) ↔
  ∃ k a name,
    appointments db !! k = Some a ∧
    Appointment.provider_id a = id u ∧ booked a ∧
    joined_name (patient_profiles db) a name ∧
    r = dashboard_row (Entity k a) name.
Proof.
  intros Hrole. unfold returned, get_provider_dashboard. run.
  apply String.eqb_eq in Hrole. rewrite Hrole; simpl.
  unfold order_by_start_time.
  rewrite merge_sort_Permutation, list_elem_of_bind. split.
  - intros (a & (name & Hj & ->)%elem_of_outer_join_profile
              & [Hk HP]%elem_of_select_where).
    apply andb_true_iff in HP as [Hp%Z.eqb_eq Hb%String.eqb_eq].
    exists (id a), (row a), name. by destruct a.
  - intros (k & a & name & Hk & Hp & Hb & Hj & ->).
    exists (Entity k a). split.
    + apply elem_of_outer_join_profile. by exists name.
    + apply elem_of_select_where. split; [done|]; simpl.
      apply andb_true_iff. split; [by apply Z.eqb_eq|by apply String.eqb_eq].
Qed.

(** X21. The dashboard shows the saved name.  With at most one profile
    row per user: once a patient has saved a profile, every row that the
    provider dashboard returns for an appointment of that patient carries
    the [full_name] of that save as patient name. *)
Theorem dashboard_shows_the_saved_name :
  ∀ db profile_in patient now db' e provider_user,
    one_profile_per_user (patient_profiles db) →
    upsert_my_profile profile_in patient now db = (db', Return e) →
    User.role (row provider_user) = "provider" →
    ∀ r a,
      r ∈ returned (get_provider_dashboard provider_user db') →
      appointments db' !! ProviderAppointment.id r = Some a →
      Appointment.patient_id a = id patient →
      ProviderAppointment.patient_name r
        = Some (PatientProfileUpdate.full_name profile_in).
Proof.
  intros db profile_in patient now db' e provider_user Hone Hret Hrole r a Hr Ha Hp.
  pose proof (upsert_one_profile_per_user profile_in patient now db Hone) as Hone'.
  destruct (upsert_my_profile_cases profile_in patient now db)
    as (e0 & Hcall & Hu & (Hname & _) & _).
  rewrite Hret in Hcall. injection Hcall as -> <-.
  rewrite Hret in Hone'. cbn [fst] in Hone'.
  assert (patient_profiles (set_patient_profiles (insert (id e) (row e)) db) !! id e
          = Some (row e)) as Hrow by (simpl; apply lookup_insert_eq).
  remember (set_patient_profiles (insert (id e) (row e)) db) as db1 eqn:Hdb1.
  apply (elem_of_dashboard db1 provider_user r Hrole) in Hr
    as (k & a' & name & Hk & _ & _ & Hj & ->).
  simpl in *. rewrite Hk in Ha. injection Ha as ->.
  destruct Hj as [[_ Hnone]|(kp & p & Hkp & Hpu & ->)].
  - destruct (Hnone _ _ Hrow). congruence.
  - assert (kp = id e) as -> by (eapply Hone'; eauto; congruence).
    rewrite Hrow in Hkp. injection Hkp as <-. by rewrite Hname.
Qed.

(** X22. A booking is made in the name of the token's user.  When the
    dependency [get_current_user] raises, the route [book_appointment]
    does not run: the error is passed on and the database is as before.
    When it returns a user, an accepted booking has that user as its
    patient, whatever the request says; and a refused booking leaves the
    database as the dependency left it, with the user's [last_active]
    moved to the clock reading of the request. *)
Theorem booking_route_uses_the_session_user :
  ∀ db token t_decode t_check t_update booking now,
    let route := Depends_get_current_user token t_decode t_check t_update
                   (λ current_user, book_appointment booking current_user now) in
    (∀ e, get_current_user token t_decode t_check t_update db = (db, Raise e) →
          route db = (db, Raise e)) ∧
    (∀ db1 user,
       get_current_user token t_decode t_check t_update db = (db1, Return user) →
       (∀ db2 appt,
          route db = (db2, Return appt) →
          Appointment.patient_id (row appt) = id user ∧
          appointments db2 !! id appt = Some (row appt)) ∧
       (∀ db2 e, route db = (db2, Raise e) → db2 = db1) ∧
       (∃ u, users (route db).1 !! id user = Some u ∧
             User.last_active u = Some t_update)).
Proof.
  intros db token t_decode t_check t_update booking now route. split.
  - intros e Hraise. unfold route, Depends_get_current_user.
    unfold mbind, handler_bind. by rewrite Hraise.
  - intros db1 user Hret.
    assert (route db = book_appointment booking user now db1) as Hroute.
    { unfold route, Depends_get_current_user, mbind, handler_bind.
      by rewrite Hret. }
    pose proof (book_appointment_cases booking user now db1) as Hc.
    pose proof (get_current_user_cases db token t_decode t_check t_update) as Hg.
    rewrite Hret in Hg. destruct Hg as (u0 & _ & Hrow & Hdb1).
    assert (users db1 !! id user = Some (row user)) as Hu
      by (rewrite Hdb1; simpl; apply lookup_insert_eq).
    rewrite Hroute.
    destruct (book_appointment booking user now db1) as [db2 [appt|e]].
    + destruct Hc as (-> & -> & _). split; [|split].
      * intros ?? [= <- <-]. split; [done|]. simpl. apply lookup_insert_eq.
      * intros ?? [=].
      * exists (row user). split; [done|]. by rewrite Hrow.
    + subst db2. split; [|split].
      * intros ?? [=].
      * by intros ?? [= <- _].
      * exists (row user). split; [done|]. by rewrite Hrow.
Qed.
End compositions.

(** ** The maintenance scripts *)

Section scripts.
Context `{External, NotificationService, Passlib}.

Lemma with_role_same r u : User.role u = r → with_role r u = u.
Proof. destruct u; simpl. by intros ->. Qed.

Lemma set_users_insert_id db k u :
  users db !! k = Some u → set_users (insert k u) db = db.
Proof.
  intros Hk. destruct db as [us ps prs aps]; unfold set_users; simpl in *.
  f_equal. by apply insert_id.
Qed.

(** A run of [create_provider.py] is its two steps. *)
Lemma create_provider_script_steps email password name salt t_user t_provider db :
  create_provider_py.create_provider email password name salt t_user t_provider db
  = (script_provider_step name t_provider
       (script_user_step email password salt t_user db), Return tt).
Proof.
  unfold create_provider_py.create_provider, script_user_step,
    script_provider_step, provider_by_name, user_by_email. run.
  destruct (first (select_where _ (users db))) as [found|]; simpl;
    by destruct (first (select_where _ (providers db))).
Qed.

Lemma script_user_step_found email password salt t_user db :
  unique_emails (users db) →
  ∃ user,
    user_by_email (script_user_step email password salt t_user db) email
      = Some user ∧
    User.role (row user) = "provider" ∧
    unique_emails (users (script_user_step email password salt t_user db)).
Proof.
  intros Huniq. unfold script_user_step.
  destruct (user_by_email db email) as [found|] eqn:Hu.
  - eexists. split; [by apply user_by_email_update|]. split; [done|]; simpl.
    apply user_by_email_Some in Hu as [Hk _].
    by apply (unique_emails_update _ _ (row found)).
  - eexists. split; [by apply user_by_email_new|]. split; [done|]; simpl.
    apply unique_emails_new; [done|].
    rewrite user_by_email_None in Hu. intros j v Hj. by apply (Hu j v).
Qed.

Lemma script_provider_step_found name t_provider db :
  is_Some (provider_by_name (script_provider_step name t_provider db) name).
Proof.
  unfold script_provider_step.
  destruct (provider_by_name db name) as [p|] eqn:Hp; [by rewrite Hp|].
  unfold provider_by_name; simpl.
  eapply first_select_where_found; [apply lookup_insert_eq|].
  simpl. by apply String.eqb_eq.
Qed.

(** X23. Running [create_provider.py] twice.  With unique emails, a
    second run for the same email and name, with whatever password, salt
    and clock, leaves the database exactly as the first run left it: no
    second user, no second provider row, and no new password. *)
Theorem create_provider_script_is_idempotent :
  ∀ db email name password salt t_user t_provider
       password' salt' t_user' t_provider',
    unique_emails (users db) →
    let first_run := create_provider_py.create_provider
                       email password name salt t_user t_provider db in
    create_provider_py.create_provider
      email password' name salt' t_user' t_provider' first_run.1
    = (first_run.1, Return tt).
Proof.
  intros db email name password salt t_user t_provider
    password' salt' t_user' t_provider' Huniq first_run.
  unfold first_run. rewrite !create_provider_script_steps. cbn [fst]. f_equal.
  set (db1 := script_user_step email password salt t_user db).
  destruct (script_user_step_found email password salt t_user db Huniq)
    as (user & Hu & Hrole & _). fold db1 in Hu.
  destruct (script_provider_step_found name t_provider db1) as [p Hp].
  remember (script_provider_step name t_provider db1) as db2 eqn:Hdb2.
  assert (users db2 = users db1) as Husers.
  { rewrite Hdb2. unfold script_provider_step.
    by destruct (provider_by_name db1 name). }
  assert (user_by_email db2 email = Some user) as Hu2
    by (unfold user_by_email in *; by rewrite Husers).
  assert (script_user_step email password' salt' t_user' db2 = db2) as ->.
  { unfold script_user_step. rewrite Hu2.
    rewrite with_role_same by done. apply set_users_insert_id.
    by apply user_by_email_Some in Hu2 as [? _]. }
  unfold script_provider_step. by rewrite Hp.
Qed.

(** X24. [create_provider.py] on an existing account.  When a user with
    the email exists (emails being unique), the script gives that row the
    role ["provider"] and changes nothing else in it: the password passed
    to the script is not stored, and the failed-attempt counter, lockout
    and [last_active] stay.  When no user has the email, the new row has
    the bcrypt hash of the password and the next free key.  Either way the
    provider row is made under the next free key of the provider table,
    unless a provider of that name exists; then the provider table is as
    before.  Appointments and profiles are untouched. *)
Theorem create_provider_script_promotes_existing_user :
  ∀ db email name password salt t_user t_provider,
    unique_emails (users db) →
    let db' := (create_provider_py.create_provider
                  email password name salt t_user t_provider db).1 in
    (∀ found, user_by_email db email = Some found →
       user_by_email db' email
         = Some (Entity (id found) (with_role "provider" (row found)))) ∧
    (user_by_email db email = None →
       user_by_email db' email
         = Some (Entity (next_id (users db))
                   {| User.email := email;
                      User.password_hash := bcrypt_hash salt password;
                      User.role := "provider"; User.created_at := t_user;
                      User.failed_login_attempts := 0;
                      User.lockout_until := None; User.last_active := None |})) ∧
    (provider_by_name db name = None →
       providers db' !! next_id (providers db)
         = Some {| Provider.name := name;
                   Provider.specialty := Some "General Practice";
                   Provider.location := None;
                   Provider.created_at := t_provider |}) ∧
    (is_Some (provider_by_name db name) → providers db' = providers db) ∧
    appointments db' = appointments db ∧
    patient_profiles db' = patient_profiles db.
Proof.
  intros db email name password salt t_user t_provider Huniq db'.
  unfold db'. rewrite create_provider_script_steps. cbn [fst].
  set (db1 := script_user_step email password salt t_user db).
  assert (users (script_provider_step name t_provider db1) = users db1) as Husers.
  { unfold script_provider_step. by destruct (provider_by_name db1 name). }
  assert (providers db1 = providers db) as Hprov.
  { unfold db1, script_user_step. by destruct (user_by_email db email). }
  assert (∀ e, user_by_email (script_provider_step name t_provider db1) e
               = user_by_email db1 e) as Hsame
    by (intros e; unfold user_by_email; by rewrite Husers).
  assert (provider_by_name db1 name = provider_by_name db name) as Hpn
    by (unfold provider_by_name; by rewrite Hprov).
  split; [|split; [|split; [|split; [|split]]]].
  - intros found Hu. rewrite Hsame. unfold db1, script_user_step. rewrite Hu.
    by apply user_by_email_update.
  - intros Hu. rewrite Hsame. unfold db1, script_user_step. rewrite Hu.
    by apply user_by_email_new.
  - intros Hp. unfold script_provider_step. rewrite Hpn, Hp; simpl.
    rewrite Hprov. apply lookup_insert_eq.
  - intros [p Hp]. unfold script_provider_step. by rewrite Hpn, Hp.
  - unfold script_provider_step, db1, script_user_step.
    by destruct (provider_by_name _ name), (user_by_email db email).
  - unfold script_provider_step, db1, script_user_step.
    by destruct (provider_by_name _ name), (user_by_email db email).
Qed.

Lemma fix_provider_password_cases email new_password salt db :
  fix_provider_password_py.fix_provider_password email new_password salt db
  = (match user_by_email db email with
     | None => db
     | Some found =>
         set_users (insert (id found)
           (with_password_hash (pbkdf2_sha256_hash salt new_password) (row found))) db
     end, Return tt).
Proof.
  unfold fix_provider_password_py.fix_provider_password, user_by_email. run.
  by destruct (first (select_where _ (users db))).
Qed.

(** X25. [fix_provider_password.py], then [login].  For an email that no
    user has, the script changes nothing.  For a stored user (emails being
    unique) it replaces the password hash by the pbkdf2_sha256 hash of the
    new password and touches no other column: an account that is locked
    out stays locked out, and a login with the new password is refused 403
    during the lockout.  When the account is not locked out and the
    verifiers of [auth.py] accept the new hash, the login with the new
    password returns a token, on the database the script left. *)
Theorem fix_provider_password_then_login :
  ∀ db email new_password salt,
    unique_emails (users db) →
    let db' := (fix_provider_password_py.fix_provider_password
                  email new_password salt db).1 in
    let new_hash := pbkdf2_sha256_hash salt new_password in
    (user_by_email db email = None → db' = db) ∧
    (∀ user, user_by_email db email = Some user →
       user_by_email db' email
         = Some (Entity (id user) (with_password_hash new_hash (row user))) ∧
       (∀ captcha ip clock,
          locked_at (at_lock_test clock) (row user) →
          ∃ detail,
            login email new_password captcha ip clock db'
              = (db', Raise (HTTPException 403 detail))) ∧
       (∀ captcha ip clock,
          ¬ locked_at (at_lock_test clock) (row user) →
          verify_password new_password new_hash = true →
          ∃ db'' token,
            login email new_password captcha ip clock db' = (db'', Return token) ∧
            ∃ u, users db'' !! id user = Some u ∧
                 User.failed_login_attempts u = 0 ∧
                 User.lockout_until u = None)).
Proof.
  intros db email new_password salt Huniq db' new_hash.
  unfold db'. rewrite fix_provider_password_cases. cbn [fst]. split.
  - by intros ->.
  - intros user Hu. rewrite Hu.
    assert (user_by_email
              (set_users (insert (id user)
                 (with_password_hash new_hash (row user))) db) email
            = Some (Entity (id user) (with_password_hash new_hash (row user))))
      as Hu' by (by apply user_by_email_update).
    split; [done|]. split.
    + intros captcha ip clock (until & Hl & Hlt). eexists.
      by apply (login_locked _ _ _ captcha ip clock _ until Hu').
    + intros captcha ip clock Hn Hpw. eexists _, _. split.
      * by apply (login_success _ _ _ captcha ip clock _ Hu').
      * eexists. split; [simpl; apply lookup_insert_eq|done].
Qed.

(** X26. The account [create_provider.py] makes, at [login].  For an
    email that no user had, the script stores the bcrypt hash of the
    password, while [login] verifies with argon2 and, failing that, with
    pbkdf2_sha256.  So a login with the script's own password returns a
    token exactly when one of these two verifiers accepts the bcrypt
    hash; when neither does, the first such login is answered 401 and
    counts as a failed attempt. *)
Theorem login_after_create_provider_script :
  ∀ db email password name salt t_user t_provider captcha ip clock,
    user_by_email db email = None →
    let db' := (create_provider_py.create_provider
                  email password name salt t_user t_provider db).1 in
    let accepted :=
      argon2_verify (bcrypt_hash salt password) password = true ∨
      pbkdf2_verify password (bcrypt_hash salt password) = Some true in
    (accepted →
     ∃ db'' token,
       login email password captcha ip clock db' = (db'', Return token)) ∧
    (¬ accepted →
     ∃ db'' u,
       login email password captcha ip clock db'
         = (db'', Raise (HTTPException 401 "Incorrect email or password")) ∧
       users db'' !! next_id (users db) = Some u ∧
       User.failed_login_attempts u = 1).
Proof.
  intros db email password name salt t_user t_provider captcha ip clock Hnone
    db' accepted.
  unfold db'. rewrite create_provider_script_steps. cbn [fst].
  set (new_user := {| User.email := email;
                      User.password_hash := bcrypt_hash salt password;
                      User.role := "provider"; User.created_at := t_user;
                      User.failed_login_attempts := 0;
                      User.lockout_until := None; User.last_active := None |}).
  set (db1 := script_user_step email password salt t_user db).
  assert (user_by_email db1 email = Some (Entity (next_id (users db)) new_user))
    as Hu1.
  { unfold db1, script_user_step. rewrite Hnone. by apply user_by_email_new. }
  remember (script_provider_step name t_provider db1) as db2 eqn:Hdb2.
  assert (users db2 = users db1) as Husers.
  { rewrite Hdb2. unfold script_provider_step.
    by destruct (provider_by_name db1 name). }
  assert (user_by_email db2 email = Some (Entity (next_id (users db)) new_user))
    as Hu2 by (unfold user_by_email in *; by rewrite Husers).
  assert (¬ locked_at (at_lock_test clock) new_user) as Hn
    by (by intros (until & [=] & _)).
  assert (verify_password password (bcrypt_hash salt password) = true ↔ accepted)
    as Hv.
  { unfold verify_password, accepted.
    destruct (argon2_verify _ _); [by split; auto|].
    destruct (pbkdf2_verify _ _) as [[|]|]; split; auto;
      by intros [|]. }
  split.
  - intros Hacc%Hv. eexists _, _.
    by apply (login_success _ _ _ captcha ip clock _ Hu2).
  - intros Hrej. eexists _, _. split.
    + apply (login_wrong_password _ _ _ captcha ip clock _ Hu2); [done| |done].
      simpl. destruct (verify_password _ _) eqn:Hvp; [|done].
      by destruct Hrej; apply Hv.
    + simpl. split; [apply lookup_insert_eq|done].
Qed.

(** X27. The provider the script makes and the dashboard of its user.
    For a new email and a new name the script gives the user the next
    free key of the user table and the provider row the next free key of
    the provider table.  A booking with that provider then shows on the
    dashboard of that user exactly when the two keys are the same
    number. *)
Theorem script_provider_dashboard_needs_equal_keys :
  ∀ db email password name salt t_user t_provider booking patient now db2 appt,
    user_by_email db email = None →
    provider_by_name db name = None →
    let db1 := (create_provider_py.create_provider
                  email password name salt t_user t_provider db).1 in
    AppointmentBook.provider_id booking = next_id (providers db) →
    book_appointment booking patient now db1 = (db2, Return appt) →
    ∃ user provider,
      user_by_email db1 email = Some user ∧ id user = next_id (users db) ∧
      provider_by_name db1 name = Some provider ∧
      id provider = next_id (providers db) ∧
      ((∃ r, r ∈ returned (get_provider_dashboard user db2) ∧
             ProviderAppointment.id r = id appt)
       ↔ next_id (users db) = next_id (providers db)).
Proof.
  intros db email password name salt t_user t_provider booking patient now db2
    appt Hnone Hpnone db1 Hpid Hbook.
  unfold db1 in *. rewrite create_provider_script_steps in *. cbn [fst] in *.
  clear db1.
  set (new_user := {| User.email := email;
                      User.password_hash := bcrypt_hash salt password;
                      User.role := "provider"; User.created_at := t_user;
                      User.failed_login_attempts := 0;
                      User.lockout_until := None; User.last_active := None |}).
  set (new_provider := {| Provider.name := name;
                          Provider.specialty := Some "General Practice";
                          Provider.location := None;
                          Provider.created_at := t_provider |}).
  set (dbu := script_user_step email password salt t_user db) in *.
  assert (user_by_email dbu email = Some (Entity (next_id (users db)) new_user))
    as Hu1.
  { unfold dbu, script_user_step. rewrite Hnone. by apply user_by_email_new. }
  assert (providers dbu = providers db) as Hprov
    by (unfold dbu, script_user_step; by rewrite Hnone).
  assert (provider_by_name dbu name = None) as Hpn
    by (unfold provider_by_name; by rewrite Hprov).
  assert (script_provider_step name t_provider dbu
          = set_providers (insert (next_id (providers db)) new_provider) dbu)
    as Hstep.
  { unfold script_provider_step. by rewrite Hpn, Hprov. }
  rewrite Hstep in *.
  remember (set_providers (insert (next_id (providers db)) new_provider) dbu)
    as dbp eqn:Hdbp.
  assert (users dbp = users dbu) as Husers by (by rewrite Hdbp).
  assert (user_by_email dbp email = Some (Entity (next_id (users db)) new_user))
    as Hu2 by (unfold user_by_email in *; by rewrite Husers).
  assert (provider_by_name dbp name
          = Some (Entity (next_id (providers db)) new_provider)) as Hp2.
  { unfold provider_by_name. rewrite Hdbp; simpl.
    destruct (first_select_where_found
                (λ _ p, String.eqb (Provider.name p) name)
                (<[next_id (providers dbu):=new_provider]> (providers dbu))
                (next_id (providers dbu)) new_provider) as [x Hx].
    { apply lookup_insert_eq. }
    { by apply String.eqb_eq. }
    rewrite <- Hprov. rewrite Hx. f_equal.
    apply first_select_where_Some in Hx as [Hxk Hxe].
    rewrite lookup_insert in Hxk. case_decide as Heq.
    - destruct x as [xi xr]; simpl in *. congruence.
    - unfold provider_by_name in Hpn. rewrite first_select_where_None in Hpn.
      specialize (Hpn _ _ Hxk). simpl in Hpn. congruence. }
  eexists _, _. split; [exact Hu2|]. split; [done|].
  split; [exact Hp2|]. split; [done|].
  pose proof (book_appointment_cases booking patient now dbp) as Hc.
  rewrite Hbook in Hc. destruct Hc as (Happt & Hdb2 & _).
  assert (appointments db2 !! id appt = Some (row appt)) as Hrow
    by (rewrite Hdb2; simpl; apply lookup_insert_eq).
  assert (Appointment.provider_id (row appt) = next_id (providers db)) as Hapid
    by (rewrite Happt; simpl; done).
  assert (booked (row appt)) as Hbooked by (by rewrite Happt).
  split.
  - intros (r & Hr & Hid).
    apply (elem_of_dashboard db2 (Entity (next_id (users db)) new_user) r)
      in Hr as (k & a & nm & Hk & Hp & _ & _ & ->); [|done].
    simpl in *. subst k. rewrite Hrow in Hk. injection Hk as <-. congruence.
  - intros Heq.
    destruct (joined_name_exists (patient_profiles db2) (row appt)) as [nm Hnm].
    exists (dashboard_row (Entity (id appt) (row appt)) nm). split; [|done].
    apply (elem_of_dashboard db2 (Entity (next_id (users db)) new_user)); [done|].
    exists (id appt), (row appt), nm. simpl. split; [done|].
    split; [congruence|]. by split.
Qed.
End scripts.

(** ** The password pattern *)

Section password_pattern.
Context `{External, NotificationService}.

Lemma re_dot_true c : re_dot c = true ↔ c ≠ 10%N.
Proof. unfold re_dot. rewrite negb_true_iff. apply N.eqb_neq. Qed.

Lemma re_dots_eol_split n s :
  re_dots_eol n s = true ↔
  ∃ line rest, s = line ++ rest ∧ Forall (λ c, c ≠ 10%N) line ∧
               (rest = [] ∨ rest = [10%N]) ∧ (n ≤ length line)%nat.
Proof.
  revert n. induction s as [|c s IH]; intros n; simpl.
  - rewrite bool_decide_eq_true. split.
    + intros ->. exists [], []. repeat split; auto.
    + intros (line & rest & Heq & _ & _ & Hn).
      symmetry in Heq. apply app_eq_nil in Heq as [-> _]. simpl in Hn. lia.
  - destruct (re_dot c) eqn:Hc.
    + apply re_dot_true in Hc. rewrite IH. split.
      * intros (line & rest & -> & Hline & Hrest & Hn).
        exists (c :: line), rest. repeat split; auto. simpl. lia.
      * intros (line & rest & Heq & Hline & Hrest & Hn).
        destruct line as [|c' line]; simpl in *.
        { subst rest. destruct Hrest as [?|[= ? _]]; [done|]. congruence. }
        injection Heq as <- ->. apply Forall_cons in Hline as [_ Hline].
        exists line, rest. repeat split; auto. lia.
    + apply not_true_iff_false in Hc. rewrite re_dot_true in Hc.
      apply dec_stable in Hc. subst c.
      rewrite andb_true_iff, !bool_decide_eq_true. split.
      * intros [-> ->]. exists [], [10%N]. repeat split; auto.
      * intros (line & rest & Heq & Hline & Hrest & Hn).
        destruct line as [|c' line]; simpl in *.
        { subst rest. destruct Hrest as [?|[= ->]]; [done|]. split; [lia|done]. }
        injection Heq as <- _. by apply Forall_cons in Hline as [? _].
Qed.

Lemma re_lookahead_app C line rest :
  Forall (λ c, c ≠ 10%N) line →
  re_lookahead C (line ++ rest) = existsb C line || re_lookahead C rest.
Proof.
  induction 1 as [|c line Hc _ IH]; simpl; [done|].
  apply re_dot_true in Hc. rewrite Hc, IH; simpl. by rewrite orb_assoc.
Qed.

Lemma re_lookahead_end C line rest :
  Forall (λ c, c ≠ 10%N) line → rest = [] ∨ rest = [10%N] →
  re_lookahead C (line ++ rest) = true ↔
  existsb C line = true ∨ (rest = [10%N] ∧ C 10%N = true).
Proof.
  intros Hline Hrest. rewrite re_lookahead_app, orb_true_iff by done.
  destruct Hrest as [->| ->]; simpl.
  - split; intros [?|?]; auto; [done|]. by destruct H1.
  - rewrite orb_false_r. split; intros [?|?]; auto. tauto.
Qed.

(** X28. What the password pattern accepts.  The line feed being no
    digit for the [re] module, [meets_password_policy] accepts exactly
    the passwords made of one line of at least 12 characters, followed by
    nothing or by one final line feed, whose line has a lowercase letter,
    an uppercase letter and a digit, and that have a special character in
    the line or end in the line feed: a final line feed is not counted in
    the length, and counts as the special character. *)
Theorem password_pattern_accepts :
  unicode_Nd 10 = false →
  ∀ password, meets_password_policy password = true ↔ accepted_password password.
Proof.
  intros Hnd password.
  assert (re_lower 10 = false ∧ re_upper 10 = false ∧ re_digit 10 = false ∧
          re_special 10 = true) as (Hl10 & Hu10 & Hd10 & Hs10).
  { unfold re_digit. rewrite Hnd. by repeat split. }
  unfold meets_password_policy, PASSWORD_POLICY_match, accepted_password.
  rewrite !andb_true_iff, re_dots_eol_split. split.
  - intros [[[[Hl Hu] Hd] Hs] (line & rest & -> & Hline & Hrest & Hn)].
    apply re_lookahead_end in Hl, Hu, Hd, Hs; try done.
    exists line, rest. repeat split; try done.
    + destruct Hl as [?|[_ ?]]; [done|congruence].
    + destruct Hu as [?|[_ ?]]; [done|congruence].
    + destruct Hd as [?|[_ ?]]; [done|congruence].
    + destruct Hs as [?|[? _]]; auto.
  - intros (line & rest & -> & Hline & Hrest & Hn & Hl & Hu & Hd & Hs).
    rewrite !re_lookahead_end by done. repeat split; auto.
    + destruct Hs as [?|?]; auto.
    + by exists line, rest.
Qed.
End password_pattern.

(** ** The errors of the scheduling routes *)

Section scheduling_error_facts.
Context `{External, NotificationService}.

Lemma datetime_ge_TypeError a b e :
  datetime_ge a b = Raise e ↔ e = PyException "TypeError" ∧ mixed_awareness a b.
Proof.
  unfold datetime_ge, mixed_awareness.
  destruct (utcoffset a) as [oa|], (utcoffset b) as [ob|]; split;
    try (intros [= <-]; split; [done|]; eauto);
    try done; try (intros [-> _]; done).
  - intros [_ [[[=] _]|[_ [=]]]].
  - intros [_ [[_ [? [=]]]|[[? [=]] _]]].
Qed.

(** X29. The errors of the scheduling routes.  Whenever one of the three
    routes raises, the database is as before.  [book_appointment] raises
    one of its three HTTP errors (404, 400, 400), or a [TypeError] that
    no handler catches; the latter exactly when the provider is stored
    and one of the two times carries a time zone and the other does not.
    [reschedule_appointment], which normalises the times first, raises
    one of its four HTTP errors (404, 403, 400, 400), or an
    [OverflowError] that no handler catches; the latter exactly when the
    appointment is the requester's and one of the two times is aware with
    a wall clock in UTC outside the range of [datetime].
    [cancel_appointment] raises only its two HTTP errors (404, 403). *)
Theorem scheduling_errors :
  ∀ db u,
    (∀ booking now db' e,
       book_appointment booking u now db = (db', Raise e) →
       db' = db ∧
       (e = HTTPException 404 "Provider not found." ∨
        e = HTTPException 400 "start_time must be before end_time." ∨
        e = HTTPException 400 "This time slot is already booked for this provider." ∨
        e = PyException "TypeError")) ∧
    (∀ booking now,
       book_appointment booking u now db = (db, Raise (PyException "TypeError")) ↔
       is_Some (providers db !! AppointmentBook.provider_id booking) ∧
       mixed_awareness (AppointmentBook.start_time booking)
                       (AppointmentBook.end_time booking)) ∧
    (∀ k body db' e,
       reschedule_appointment k body u db = (db', Raise e) →
       db' = db ∧
       (e = HTTPException 404 "Appointment not found." ∨
        e = HTTPException 403 "You can only reschedule your own appointments." ∨
        e = HTTPException 400 "start_time must be before end_time" ∨
        e = HTTPException 400 "This time slot is already booked for this provider." ∨
        e = PyException "OverflowError")) ∧
    (∀ k body,
       reschedule_appointment k body u db = (db, Raise (PyException "OverflowError")) ↔
       ∃ a, appointments db !! k = Some a ∧ Appointment.patient_id a = id u ∧
            ¬ (utc_representable (AppointmentReschedule.start_time body) ∧
               utc_representable (AppointmentReschedule.end_time body))) ∧
    (∀ k db' e,
       cancel_appointment k u db = (db', Raise e) →
       db' = db ∧
       (e = HTTPException 404 "Appointment not found." ∨
        e = HTTPException 403 "You can only cancel your own appointments.")).
Proof.
  intros db u. split; [|split; [|split; [|split]]].
  - intros booking now db' e. unfold book_appointment. run. unfold session_get.
    destruct (providers db !! _) as [p|]; simpl; [|intros [= <- <-]; auto].
    destruct (datetime_ge _ _) as [[|]|e'] eqn:Hge; simpl.
    + intros [= <- <-]; auto.
    + destruct (first (select_where _ (appointments db))); simpl.
      * intros [= <- <-]; auto 6.
      * by destruct (notification_service _).
    + apply datetime_ge_TypeError in Hge as [-> _]. intros [= <- <-]; auto 6.
  - intros booking now. unfold book_appointment. run. unfold session_get.
    destruct (providers db !! _) as [p|]; simpl;
      [|split; [done|by intros [[? [=]] _]]].
    destruct (datetime_ge _ _) as [[|]|e'] eqn:Hge; simpl.
    + split; [done|]. intros [_ Hmixed].
      assert (datetime_ge (AppointmentBook.start_time booking)
                (AppointmentBook.end_time booking)
              = Raise (PyException "TypeError")) as Hraise
        by (by apply datetime_ge_TypeError).
      congruence.
    + split.
      * destruct (first (select_where _ (appointments db))); simpl; [done|].
        by destruct (notification_service _).
      * intros [_ Hmixed].
        assert (datetime_ge (AppointmentBook.start_time booking)
                  (AppointmentBook.end_time booking)
                = Raise (PyException "TypeError")) as Hraise
          by (by apply datetime_ge_TypeError).
        congruence.
    + apply datetime_ge_TypeError in Hge as [-> Hmixed]. split; [|done].
      intros _. split; [by eexists|done].
  - intros k body db' e.
    destruct (appointments db !! k) as [a|] eqn:Hk;
      [|rewrite reschedule_appointment_not_found by done; intros [= <- <-]; auto].
    destruct (decide (Appointment.patient_id a = id u)) as [Hown|Hown];
      [|rewrite (reschedule_appointment_forbidden k body u db a) by done;
        intros [= <- <-]; auto].
    destruct (astimezone_utc (AppointmentReschedule.start_time body))
      as [s|ex] eqn:Hs.
    2:{ rewrite (reschedule_appointment_overflow k body u db a ex) by auto.
        apply astimezone_utc_Raise in Hs as [-> _]. intros [= <- <-]; auto 8. }
    destruct (astimezone_utc (AppointmentReschedule.end_time body))
      as [e0|ex] eqn:He.
    2:{ rewrite (reschedule_appointment_overflow k body u db a ex);
          [|done..|right; rewrite Hs; by split].
        apply astimezone_utc_Raise in He as [-> _]. intros [= <- <-]; auto 8. }
    destruct (decide (s < e0)) as [Hlt|Hge];
      [|rewrite (reschedule_appointment_invalid k body u db a s e0);
        [intros [= <- <-]; auto 6|done..|lia]].
    destruct (first (select_where
                (overlap_stmt_excluding k (Appointment.provider_id a) s e0)
                (appointments db))) as [c|] eqn:Hq.
    + apply first_select_where_Some in Hq as [Hc Hov].
      apply overlap_stmt_excluding_true in Hov as (? & ? & ? & ? & ?).
      rewrite (reschedule_appointment_conflict k body u db a (id c) (row c) s e0)
        by done.
      intros [= <- <-]; auto 8.
    + apply overlap_query_excluding_None in Hq.
      by rewrite (reschedule_appointment_success k body u db a s e0).
  - intros k body. split.
    + intros Hcall.
      destruct (appointments db !! k) as [a|] eqn:Hk;
        [|by rewrite reschedule_appointment_not_found in Hcall].
      destruct (decide (Appointment.patient_id a = id u)) as [Hown|Hown];
        [|by rewrite (reschedule_appointment_forbidden k body u db a) in Hcall].
      exists a. split; [done|]. split; [done|].
      intros [Hs%astimezone_utc_representable He%astimezone_utc_representable].
      pose proof (reschedule_appointment_cases k body u db) as Hc.
      set (s := utc_wall (AppointmentReschedule.start_time body)) in *.
      set (e0 := utc_wall (AppointmentReschedule.end_time body)) in *.
      destruct (decide (s < e0)) as [Hlt|Hge];
        [|rewrite (reschedule_appointment_invalid k body u db a s e0) in Hcall;
          [done..|lia]].
      destruct (first (select_where
                  (overlap_stmt_excluding k (Appointment.provider_id a) s e0)
                  (appointments db))) as [c|] eqn:Hq.
      * apply first_select_where_Some in Hq as [Hcq Hov].
        apply overlap_stmt_excluding_true in Hov as (? & ? & ? & ? & ?).
        by rewrite (reschedule_appointment_conflict k body u db a (id c) (row c)
                      s e0) in Hcall.
      * apply overlap_query_excluding_None in Hq.
        by rewrite (reschedule_appointment_success k body u db a s e0) in Hcall.
    + intros (a & Hk & Hown & Hnot).
      apply (reschedule_appointment_overflow k body u db a); [done..|].
      destruct (astimezone_utc (AppointmentReschedule.start_time body))
        as [s|ex] eqn:Hs.
      * right. split; [by eexists|].
        apply astimezone_utc_overflow. intros He. apply Hnot. split; [|done].
        by apply astimezone_utc_Return in Hs as [? _].
      * left. by apply astimezone_utc_Raise in Hs as [-> _].
  - intros k db' e.
    destruct (appointments db !! k) as [a|] eqn:Hk;
      [|rewrite cancel_appointment_not_found by done; intros [= <- <-]; auto].
    destruct (decide (Appointment.patient_id a = id u)) as [Hown|Hown];
      [|rewrite (cancel_appointment_forbidden k u db a) by done;
        intros [= <- <-]; auto].
    by rewrite (cancel_appointment_success k u db a).
Qed.
End scheduling_error_facts.

(** * Further examples

    The further properties at the inputs of [Fixture]. *)

Section more_examples.
#[local] Existing Instance Fixture.session_libraries.
#[local] Existing Instance Fixture.failing_dispatcher.
#[local] Existing Instance Fixture.passlib.
Import Fixture.

(** Dr. Smith's user tries to cancel and to move Alice's appointment and
    books one of their own: Alice's row is as it was. *)
Lemma only_the_owner_changes_an_appointment_witness :
  appointments
    (serve_all [Cancel 1 dr_smith_user; Reschedule 1 (move 600 630) dr_smith_user;
                Book (slot 7 570 600) dr_smith_user 0] db1) !! 1
  = Some (new_appointment (slot 7 540 570) alice 0).
Proof.
  apply (only_the_owner_changes_an_appointment _ db1 1
           (new_appointment (slot 7 540 570) alice 0)).
  - by vm_compute.
  - repeat constructor; by vm_compute.
Defined.

(** Alice moves her appointment and cancels it: the row is still there,
    cancelled. *)
Lemma appointments_are_never_removed_witness :
  ∃ a', appointments
          (serve_all [Reschedule 1 (move 600 630) alice; Cancel 1 alice] db1) !! 1
        = Some a' ∧
        same_booking (new_appointment (slot 7 540 570) alice 0) a' ∧
        (Appointment.status a'
           = Appointment.status (new_appointment (slot 7 540 570) alice 0)
         ∨ cancelled a').
Proof.
  apply (appointments_are_never_removed
           [Reschedule 1 (move 600 630) alice; Cancel 1 alice] db1 1
           (new_appointment (slot 7 540 570) alice 0)).
  by vm_compute.
Defined.

(** Appointment 9 does not exist; appointment 1 is Alice's, not
    Dr. Smith's, whatever the times; Alice cannot move it to times that
    leave the range of [datetime] in UTC, nor to a range that ends where
    it starts in UTC (11:00 at UTC+01:00 to 10:00 at UTC). *)
Lemma reschedule_and_cancel_refusals_witness :
  cancel_appointment 9 alice db1 =
    (db1, Raise (HTTPException 404 "Appointment not found.")) ∧
  cancel_appointment 1 dr_smith_user db1 =
    (db1, Raise (HTTPException 403 "You can only cancel your own appointments.")) ∧
  reschedule_appointment 1 (move 600 630) dr_smith_user db1 =
    (db1, Raise (HTTPException 403
                   "You can only reschedule your own appointments.")) ∧
  reschedule_appointment 1 move_past_max dr_smith_user db1 =
    (db1, Raise (HTTPException 403
                   "You can only reschedule your own appointments.")) ∧
  reschedule_appointment 1 move_past_max alice db1 =
    (db1, Raise (PyException "OverflowError")) ∧
  reschedule_appointment 1
    {| AppointmentReschedule.start_time :=
         {| wall := minutes 660; utcoffset := Some (minutes 60) |};
       AppointmentReschedule.end_time :=
         {| wall := minutes 600; utcoffset := Some 0 |} |} alice db1 =
    (db1, Raise (HTTPException 400 "start_time must be before end_time")).
Proof.
  destruct (reschedule_and_cancel_refusals db1 9 (move 600 630) alice)
    as (Hnone & _ & _).
  destruct (reschedule_and_cancel_refusals db1 1 (move 600 630) dr_smith_user)
    as (_ & Hother & _).
  destruct (reschedule_and_cancel_refusals db1 1 move_past_max dr_smith_user)
    as (_ & Hother' & _).
  destruct (reschedule_and_cancel_refusals db1 1 move_past_max alice)
    as (_ & _ & Hpast & _).
  split; [|split; [|split; [|split; [|split]]]].
  - apply Hnone. by vm_compute.
  - apply (Hother (new_appointment (slot 7 540 570) alice 0)); by vm_compute.
  - apply (Hother (new_appointment (slot 7 540 570) alice 0)); by vm_compute.
  - apply (Hother' (new_appointment (slot 7 540 570) alice 0)); by vm_compute.
  - apply (Hpast (new_appointment (slot 7 540 570) alice 0)); [by vm_compute..|].
    intros [Hs _]. destruct Hs as [_ Hs]; [by eexists|].
    vm_compute in Hs. by destruct Hs.
  - match goal with
    | |- reschedule_appointment 1 ?body alice db1 = _ =>
        destruct (reschedule_and_cancel_refusals db1 1 body alice)
          as (_ & _ & _ & Hrange)
    end.
    apply (Hrange (new_appointment (slot 7 540 570) alice 0));
      try (by vm_compute); intros _; by vm_compute.
Defined.

(** 09:15 to 09:45 runs into Alice's 09:00 to 09:30; once she has
    cancelled, Dr. Smith's user gets it. *)
Lemma cancel_frees_the_slot_witness :
  book_appointment (slot 7 555 585) dr_smith_user 0 db1 =
    (db1, Raise (HTTPException 400
                   "This time slot is already booked for this provider.")) ∧
  ∃ db' appt,
    book_appointment (slot 7 555 585) dr_smith_user 0 (cancel_appointment 1 alice db1).1
      = (db', Return appt) ∧
    row appt = new_appointment (slot 7 555 585) dr_smith_user 0 ∧
    appointments db' !! id appt = Some (row appt) ∧
    (∃ a', appointments db' !! 1 = Some a' ∧ cancelled a').
Proof.
  destruct (cancel_frees_the_slot db1 1 (new_appointment (slot 7 540 570) alice 0)
              alice (slot 7 555 585) dr_smith_user 0) as [Hconflict Hfree].
  - by vm_compute.
  - reflexivity.
  - reflexivity.
  - reflexivity.
  - eexists. by vm_compute.
  - by vm_compute.
  - apply overlap_query_excluding_None. by vm_compute.
  - split; [|exact Hfree]. apply Hconflict; by vm_compute.
Defined.

(** Bookings and moves, some refused, from the empty table; and the first
    booking made a second time. *)
Lemma stored_ranges_stay_valid_witness :
  valid_ranges (appointments
    (serve_all [Book (slot 7 540 570) alice 0; Book (slot 7 600 570) alice 0;
                Reschedule 1 (move 560 590) alice; Reschedule 1 (move 590 560) alice;
                Cancel 1 alice] db0)) ∧
  book_appointment (slot 7 540 570) dr_smith_user 5 db1 =
    (db1, Raise (HTTPException 400
                   "This time slot is already booked for this provider.")).
Proof.
  destruct stored_ranges_stay_valid as [Hvalid Htwice].
  - intros w off w' off' Hlt. exact Hlt.
  - split.
    + apply Hvalid. intros k a Hk. vm_compute in Hk. discriminate.
    + apply (Htwice db0 (slot 7 540 570) alice 0 db1
               (Entity 1 (new_appointment (slot 7 540 570) alice 0))).
      by vm_compute.
Defined.

(** Alice's second booking is on her list; so is her first appointment
    after she cancelled it. *)
Lemma my_appointments_listing_witness :
  Entity 2 (new_appointment (slot 7 570 600) alice 0)
    ∈ returned (list_my_appointments alice db2) ∧
  ∃ a', Entity 1 a' ∈ returned (list_my_appointments alice db_cancelled) ∧
        cancelled a'.
Proof.
  destruct (my_appointments_listing db1 alice) as (_ & Hbook & Hcancel).
  split.
  - destruct (Hbook (slot 7 570 600) 0 db2
                (Entity 2 (new_appointment (slot 7 570 600) alice 0)))
      as [Hin _]; [by vm_compute|exact Hin].
  - apply (Hcancel 1 db_cancelled cancelled_message). by vm_compute.
Defined.

(** The slot list of provider 7 still shows Alice's appointment after she
    cancelled it. *)
Lemma provider_appointments_listing_witness :
  Entity 1 (Appointment.with_status "cancelled"
              (new_appointment (slot 7 540 570) alice 0))
    ∈ returned (list_provider_appointments 7 dr_smith_user 0 db_cancelled).
Proof.
  destruct (provider_appointments_listing db1 7 dr_smith_user 0) as [_ Hcancel].
  apply (Hcancel 1 (new_appointment (slot 7 540 570) alice 0) alice db_cancelled
           cancelled_message).
  - vm_compute. constructor.
  - by vm_compute.
Defined.

(** A token the library cannot read, a token whose expiry has passed, a
    subject that is no integer, and the subject 3, which is no user of
    the database. *)
Lemma authentication_refusals_witness :
  get_current_user ".patient.0" 0 0 0 db0 = (db0, Raise credentials_exception) ∧
  get_current_user "1.patient.0" 1 1 1 db0 = (db0, Raise credentials_exception) ∧
  get_current_user "alice.patient.0" 0 0 0 db0
    = (db0, Raise credentials_exception) ∧
  get_current_user "3.patient.0" 0 0 0 db0 = (db0, Raise credentials_exception).
Proof.
  split; [|split; [|split]].
  - apply (authentication_refusals db0 ".patient.0" 0 0 0). left. by vm_compute.
  - apply (authentication_refusals db0 "1.patient.0" 1 1 1). left. by vm_compute.
  - apply (authentication_refusals db0 "alice.patient.0" 0 0 0). right; right.
    exists "alice". split; [by vm_compute|]. left. by vm_compute.
  - apply (authentication_refusals db0 "3.patient.0" 0 0 0). right; right.
    exists "3". split; [by vm_compute|]. right. exists 3. split; by vm_compute.
Defined.

(** Alice's token, which expires at 01:00: the decoder of
    [session_libraries] at the clock reading [now]. *)
Lemma alice_token_decode now :
  jwt_decode "1.patient.3600000000" now
  = if bool_decide (now ≤ 3600000000) then Some (Some "1") else None.
Proof. reflexivity. Qed.


(** Alice logs in at 0 and gets a token that expires at 01:00: it is
    good at 30 s, refused as expired at 31 s, and refused with the
    credentials error at 01:01. *)
Lemma login_token_opens_a_session_witness :
  access_token alice_token = "1.patient.3600000000" ∧
  (∃ db'' user',
     get_current_user (access_token alice_token) (seconds 30) (seconds 30)
       (seconds 30) db_logged_in = (db'', Return user') ∧
     id user' = 1 ∧ same_account (row alice) (row user')) ∧
  get_current_user (access_token alice_token) (seconds 31) (seconds 31)
    (seconds 31) db_logged_in = (db_logged_in, Raise session_expired) ∧
  get_current_user (access_token alice_token) (minutes 61) (minutes 61)
    (minutes 61) db_logged_in = (db_logged_in, Raise credentials_exception).
Proof.
  assert (user_by_email db0 "alice@example.com" = Some alice) as Hu
    by (by vm_compute).
  assert (at_token (at_time 0) + minutes ACCESS_TOKEN_EXPIRE_MINUTES = 3600000000)
    as Hexp by (by vm_compute).
  assert (jwt_encode (pretty (id alice)) (User.role (row alice))
            (at_token (at_time 0) + minutes ACCESS_TOKEN_EXPIRE_MINUTES)
          = "1.patient.3600000000") as Hissued by (by vm_compute).
  assert (pretty (id alice) = "1") as Hsub by (by vm_compute).
  assert (∀ now, now ≤ at_token (at_time 0) + minutes ACCESS_TOKEN_EXPIRE_MINUTES →
                 jwt_decode
                   (jwt_encode (pretty (id alice)) (User.role (row alice))
                      (at_token (at_time 0) + minutes ACCESS_TOKEN_EXPIRE_MINUTES))
                   now
                 = Some (Some (pretty (id alice)))) as Hvalid.
  { intros now Hle. rewrite Hissued, Hsub, alice_token_decode.
    rewrite Hexp in Hle. by rewrite bool_decide_true. }
  assert (∀ now, at_token (at_time 0) + minutes ACCESS_TOKEN_EXPIRE_MINUTES
                 + seconds 1 ≤ now →
                 jwt_decode
                   (jwt_encode (pretty (id alice)) (User.role (row alice))
                      (at_token (at_time 0) + minutes ACCESS_TOKEN_EXPIRE_MINUTES))
                   now
                 = None) as Hover.
  { intros now Hle. rewrite Hissued, alice_token_decode.
    rewrite Hexp in Hle. unfold seconds in Hle.
    rewrite bool_decide_false; [done|lia]. }
  assert (int_of_str (pretty (id alice)) = Some (id alice)) as Hint
    by (by vm_compute).
  assert (login "alice@example.com" good_password None "10.0.0.1" (at_time 0) db0
          = (db_logged_in, Return alice_token)) as Hlogin by (by vm_compute).
  destruct (login_token_opens_a_session db0 "alice@example.com" good_password
              None "10.0.0.1" (at_time 0) db_logged_in alice_token alice
              Hu Hvalid Hover Hint Hlogin) as [Htext Hcalls].
  split; [reflexivity|]. split; [|split].
  - destruct (Hcalls (seconds 30) (seconds 30) (seconds 30)) as (Hok & _ & _).
    apply Hok; by vm_compute.
  - destruct (Hcalls (seconds 31) (seconds 31) (seconds 31)) as (_ & Hlate & _).
    apply Hlate; by vm_compute.
  - destruct (Hcalls (minutes 61) (minutes 61) (minutes 61)) as (_ & _ & Hgone).
    apply Hgone. by vm_compute.
Defined.

(** Bob registers: the lookup finds him, a second registration is
    refused, and he can log in. *)
Lemma registered_user_can_log_in_witness :
  user_by_email db_bob "bob@example.com" = Some bob ∧
  register {| UserCreate.email := "bob@example.com";
              UserCreate.password := wrong_password;
              UserCreate.role := Some "admin" |} 5 db_bob =
    (db_bob, Raise (HTTPException 400 "A user with this email already exists.")) ∧
  ∃ db'' token,
    login "bob@example.com" good_password None "10.0.0.1" (at_time 9) db_bob
      = (db'', Return token).
Proof.
  destruct (registered_user_can_log_in db0 bob_in 0 db_bob bob)
    as (Hfound & Hdup & Hlogin); [by vm_compute|].
  split; [exact Hfound|]. split.
  - apply (Hdup wrong_password (Some "admin") 5).
  - apply Hlogin. by vm_compute.
Defined.

(** Two registrations of one email, a failed login and a request. *)
Lemma emails_stay_unique_witness :
  unique_emails (users
    (serve_auth_all [Register bob_in 0; Register bob_in 1;
                     Login "alice@example.com" wrong_password None "10.0.0.1"
                           (at_time 2);
                     Authenticate "1.patient.3600000000" 3 3 3] db0)).
Proof.
  apply emails_stay_unique. apply unique_emails_decide. by vm_compute.
Defined.

(** Dr. Jones registers with the role of a provider and gets a dashboard. *)
Lemma register_stores_the_requested_role_witness :
  User.role (row dr_jones) = or_patient (UserCreate.role dr_jones_in) ∧
  ∃ rows, get_provider_dashboard dr_jones db_dr_jones = (db_dr_jones, Return rows).
Proof.
  destruct (register_stores_the_requested_role db0 dr_jones_in 0 db_dr_jones dr_jones)
    as (Hrole & _ & _ & Hdash); [by vm_compute|].
  split; [exact Hrole|]. apply Hdash. reflexivity.
Defined.

(** A failed login, a login and a request of Alice. *)
Lemma sessions_never_change_accounts_witness :
  let rs := [Login "alice@example.com" wrong_password None "10.0.0.1" (at_time 0);
             Login "alice@example.com" good_password None "10.0.0.1" (at_time 1);
             Authenticate "1.patient.3600000000" 2 2 2] in
  patient_profiles (serve_auth_all rs db0) = patient_profiles db0 ∧
  providers (serve_auth_all rs db0) = providers db0 ∧
  appointments (serve_auth_all rs db0) = appointments db0 ∧
  ∀ k, match users db0 !! k, users (serve_auth_all rs db0) !! k with
       | Some u, Some u' => same_account u u'
       | None, None => True
       | _, _ => False
       end.
Proof.
  intros rs. apply sessions_never_change_accounts.
  unfold rs. repeat constructor; done.
Defined.

(** The right password is not locked out when the clock is past the
    lockout, and agrees with [authenticate_user]. *)
Lemma login_agrees_with_authenticate_user_witness :
  ∃ db' token,
    login "alice@example.com" good_password None "10.0.0.1" (at_time 0) db0
      = (db', Return token).
Proof.
  destruct (login_agrees_with_authenticate_user db0 "alice@example.com"
              good_password) as (_ & _ & Hlogin).
  apply Hlogin. exists alice. split; [by vm_compute|].
  by intros (until & [=] & _).
Defined.

(** Five failures on the counter and no lockout in force: one more wrong
    password is answered 403 and the counter stays at five or more. *)
Lemma exhausted_account_stays_exhausted_witness :
  ∃ detail,
    (login "alice@example.com" wrong_password None "10.0.0.1" (at_time 0)
           (db_attempts 5 None)).2 = Raise (HTTPException 403 detail) ∧
    exhausted (login "alice@example.com" wrong_password None "10.0.0.1" (at_time 0)
                     (db_attempts 5 None)).1 "alice@example.com".
Proof.
  pose proof (exhausted_account_stays_exhausted (db_attempts 5 None)
                "alice@example.com" wrong_password None "10.0.0.1" (at_time 0))
    as Hx.
  destruct (login _ _ _ _ _ _) as [db' [token|e]] eqn:Hcall.
  - vm_compute in Hcall. discriminate.
  - destruct Hx as ((detail & ->) & Hex & _).
    + apply unique_emails_decide. by vm_compute.
    + exists (Entity 1 (with_login_state 5 None None (row alice))).
      split; [by vm_compute|simpl; lia].
    + exists detail. by split.
Defined.

(** Alice saves her first profile and reads it back. *)
Lemma profile_round_trip_witness :
  ∃ db' e,
    upsert_my_profile (profile_of "Alice Liddell") alice 0 db0 = (db', Return e) ∧
    PatientProfile.user_id (row e) = 1 ∧
    saved_as (profile_of "Alice Liddell") (row e) ∧
    get_my_profile alice db' = (db', Return (Some e)).
Proof.
  destruct (profile_round_trip db0 (profile_of "Alice Liddell") alice 0)
    as (db' & e & Hcall & Huser & Hsaved & Hget & _).
  - intros i j p q Hi. vm_compute in Hi. discriminate.
  - by exists db', e.
Defined.

(** Alice saves twice and Dr. Smith's user once. *)
Lemma profiles_stay_one_per_user_witness :
  one_profile_per_user (patient_profiles
    (save_profiles [(profile_of "Alice Liddell", alice, 0);
                    (profile_of "Alice Hargreaves", alice, 1);
                    (profile_of "Sarah Smith", dr_smith_user, 2)] db0)).
Proof.
  apply profiles_stay_one_per_user.
  intros i j p q Hi. vm_compute in Hi. discriminate.
Defined.

(** Alice saves a second name: the row keeps its key and its
    [created_at]. *)
Lemma profile_is_updated_in_place_witness :
  ∃ e e',
    (upsert_my_profile (profile_of "Alice Liddell") alice 0 db0).2 = Return e ∧
    (upsert_my_profile (profile_of "Alice Hargreaves") alice 5
       (upsert_my_profile (profile_of "Alice Liddell") alice 0 db0).1).2
      = Return e' ∧
    id e' = id e ∧
    PatientProfile.created_at (row e') = PatientProfile.created_at (row e) ∧
    saved_as (profile_of "Alice Hargreaves") (row e').
Proof.
  destruct (profile_is_updated_in_place db0 (profile_of "Alice Liddell")
              (profile_of "Alice Hargreaves") alice 0 5)
    as (e & e' & Hfirst & Hsecond & Hid & Hcreated & Hsaved & _).
  - intros i j p q Hi. vm_compute in Hi. discriminate.
  - by exists e, e'.
Defined.

(** Alice has an appointment with provider 2 and saves her profile: the
    dashboard of the user 2 shows her name. *)
Lemma dashboard_shows_the_saved_name_witness :
  ∃ r, r ∈ returned (get_provider_dashboard dr_smith_user db_named) ∧
       ProviderAppointment.patient_name r = Some "Alice Liddell".
Proof.
  exists (dashboard_row (Entity 2 (new_appointment (slot 2 600 630) alice 0))
            (Some "Alice Liddell")).
  assert (dashboard_row (Entity 2 (new_appointment (slot 2 600 630) alice 0))
            (Some "Alice Liddell")
          ∈ returned (get_provider_dashboard dr_smith_user db_named)) as Hin
    by (vm_compute; constructor).
  split; [exact Hin|].
  apply (dashboard_shows_the_saved_name db_two_providers
           (profile_of "Alice Liddell") alice 0 db_named
           (Entity 1 {| PatientProfile.user_id := 1;
                        PatientProfile.full_name := "Alice Liddell";
                        PatientProfile.date_of_birth := 0;
                        PatientProfile.phone := "555-0100";
                        PatientProfile.insurance := None;
                        PatientProfile.created_at := 0 |})
           dr_smith_user) with (a := new_appointment (slot 2 600 630) alice 0).
  - intros i j p q Hi. vm_compute in Hi. discriminate.
  - by vm_compute.
  - reflexivity.
  - exact Hin.
  - by vm_compute.
  - reflexivity.
Defined.

(** A booking sent with Alice's token is Alice's. *)
Lemma booking_route_uses_the_session_user_witness :
  ∃ db2 appt,
    Depends_get_current_user "1.patient.3600000000" 0 0 0
      (λ current_user, book_appointment (slot 7 540 570) current_user 0) db0
      = (db2, Return appt) ∧
    Appointment.patient_id (row appt) = 1 ∧
    appointments db2 !! id appt = Some (row appt).
Proof.
  destruct (booking_route_uses_the_session_user db0 "1.patient.3600000000" 0 0 0
              (slot 7 540 570) 0) as [_ Hroute].
  destruct (Hroute (db_seen 0) (Entity 1 (touch 0 (row alice))))
    as (Hbooked & _); [by vm_compute|].
  eexists _, _. split; [by vm_compute|].
  apply Hbooked. by vm_compute.
Defined.

(** The script run twice for Dr. Jones, the second time with another
    password. *)
Lemma create_provider_script_is_idempotent_witness :
  create_provider_py.create_provider "dr.jones@example.com" wrong_password
    "Dr. Jones" "pepper" 7 8 db_script
  = (db_script, Return tt).
Proof.
  apply (create_provider_script_is_idempotent db0 "dr.jones@example.com"
           "Dr. Jones" good_password "salt" 0 0 wrong_password "pepper" 7 8).
  apply unique_emails_decide. by vm_compute.
Defined.

(** The script run for Alice, who has an account, with a new provider
    name: she keeps key and password and has the provider role; the
    provider row gets the key 8. *)
Lemma create_provider_script_promotes_existing_user_witness :
  let db' := (create_provider_py.create_provider "alice@example.com"
                wrong_password "Dr. Alice" "salt" 5 6 db0).1 in
  user_by_email db' "alice@example.com"
    = Some (Entity 1 (with_role "provider" (row alice))) ∧
  providers db' !! 8
    = Some {| Provider.name := "Dr. Alice";
              Provider.specialty := Some "General Practice";
              Provider.location := None; Provider.created_at := 6 |}.
Proof.
  intros db'.
  destruct (create_provider_script_promotes_existing_user db0 "alice@example.com"
              "Dr. Alice" wrong_password "salt" 5 6)
    as (Hfound & _ & Hprovider & _).
  - apply unique_emails_decide. by vm_compute.
  - split.
    + apply (Hfound alice). by vm_compute.
    + apply Hprovider. by vm_compute.
Defined.

(** Alice is locked out until 00:15 when the script sets her a new
    password: the login with it is refused at 00:00 and accepted at
    00:15. *)
Lemma fix_provider_password_then_login_witness :
  let db' := (fix_provider_password_py.fix_provider_password "alice@example.com"
                wrong_password "salt" (db_attempts 5 (Some (minutes 15)))).1 in
  (∃ detail,
     login "alice@example.com" wrong_password None "10.0.0.1" (at_time 0) db'
       = (db', Raise (HTTPException 403 detail))) ∧
  (∃ db'' token,
     login "alice@example.com" wrong_password None "10.0.0.1"
           (at_time (minutes 15)) db' = (db'', Return token) ∧
     ∃ u, users db'' !! 1 = Some u ∧
          User.failed_login_attempts u = 0 ∧ User.lockout_until u = None) ∧
  (fix_provider_password_py.fix_provider_password "nobody@example.com"
     wrong_password "salt" db0).1 = db0.
Proof.
  intros db'.
  destruct (fix_provider_password_then_login (db_attempts 5 (Some (minutes 15)))
              "alice@example.com" wrong_password "salt") as [_ Hknown].
  { apply unique_emails_decide. by vm_compute. }
  destruct (Hknown (Entity 1 (with_login_state 5 (Some (minutes 15)) None
                                (row alice))))
    as (_ & Hlocked & Hopen); [by vm_compute|].
  destruct (fix_provider_password_then_login db0 "nobody@example.com"
              wrong_password "salt") as [Hunknown _].
  { apply unique_emails_decide. by vm_compute. }
  split; [|split].
  - apply Hlocked. exists (minutes 15). by vm_compute.
  - apply Hopen; [|by vm_compute].
    intros (until & [= <-] & Hlt). vm_compute in Hlt. discriminate.
  - apply Hunknown. by vm_compute.
Defined.

(** The account the script made for Dr. Jones: neither verifier of
    [session_libraries] accepts the bcrypt hash, and the login with the
    script's password is answered 401. *)
Lemma login_after_create_provider_script_witness :
  ∃ db'' u,
    login "dr.jones@example.com" good_password None "10.0.0.1" (at_time 0)
          db_script
      = (db'', Raise (HTTPException 401 "Incorrect email or password")) ∧
    users db'' !! 3 = Some u ∧ User.failed_login_attempts u = 1.
Proof.
  destruct (login_after_create_provider_script db0 "dr.jones@example.com"
              good_password "Dr. Jones" "salt" 0 0 None "10.0.0.1" (at_time 0))
    as [_ Hrefused]; [by vm_compute|].
  apply Hrefused. intros [Hargon|Hpbkdf2].
  - vm_compute in Hargon. discriminate.
  - vm_compute in Hpbkdf2. discriminate.
Defined.

(** In [db0] the next user key is 3 and the next provider key is 8:
    Alice's booking with the provider row of the script is not on the
    dashboard of the script's user. *)
Lemma script_provider_dashboard_needs_equal_keys_witness :
  ∃ user,
    user_by_email db_script "dr.jones@example.com" = Some user ∧ id user = 3 ∧
    ¬ ∃ r, r ∈ returned (get_provider_dashboard user db_script_booked) ∧
           ProviderAppointment.id r = 1.
Proof.
  destruct (script_provider_dashboard_needs_equal_keys db0 "dr.jones@example.com"
              good_password "Dr. Jones" "salt" 0 0 (slot 8 540 570) alice 0
              db_script_booked
              (Entity 1 (new_appointment (slot 8 540 570) alice 0)))
    as (user & provider & Hu & Hid & _ & _ & Hiff).
  - by vm_compute.
  - by vm_compute.
  - by vm_compute.
  - by vm_compute.
  - exists user. split; [exact Hu|]. split; [exact Hid|].
    intros Hr. apply Hiff in Hr. vm_compute in Hr. discriminate.
Defined.

(** Twelve letters and digits and a final line feed are accepted; and
    the password of the fixture, which is accepted, is one line. *)
Lemma password_pattern_accepts_witness :
  meets_password_policy password_ending_in_line_feed = true ∧
  accepted_password good_password.
Proof.
  assert (unicode_Nd 10 = false) as Hnd by reflexivity.
  split.
  - apply (password_pattern_accepts Hnd).
    exists [65; 97; 49; 97; 97; 97; 97; 97; 97; 97; 97; 97]%N, [10%N].
    split; [reflexivity|]. split; [by repeat constructor|].
    split; [by right|]. split; [simpl; lia|].
    split; [reflexivity|]. split; [reflexivity|]. split; [reflexivity|].
    by right.
  - apply (password_pattern_accepts Hnd). reflexivity.
Defined.

(** The booking with a naive start (10:00) and an aware end (10:30 at
    UTC+01:00), with the stored provider 7, is answered with a
    [TypeError]; a reschedule to the same times is answered 400, the end
    being 09:30 in UTC; and a reschedule to times in the year 10000 of
    UTC raises [OverflowError]. *)
Lemma scheduling_errors_witness :
  book_appointment mixed_slot alice 0 db1 = (db1, Raise (PyException "TypeError")) ∧
  reschedule_appointment 1
    {| AppointmentReschedule.start_time := AppointmentBook.start_time mixed_slot;
       AppointmentReschedule.end_time := AppointmentBook.end_time mixed_slot |}
    alice db1
  = (db1, Raise (HTTPException 400 "start_time must be before end_time")) ∧
  reschedule_appointment 1 move_past_max alice db1
  = (db1, Raise (PyException "OverflowError")).
Proof.
  destruct (scheduling_errors db1 alice) as (_ & Hmixed & Hmove & Hpast & _).
  split; [|split].
  - apply Hmixed. split; [eexists; by vm_compute|].
    left. split; [reflexivity|by eexists].
  - destruct (reschedule_appointment 1 _ alice db1) as [db' [appt|e]] eqn:Hcall.
    + vm_compute in Hcall. discriminate.
    + destruct (Hmove _ _ _ _ Hcall)
        as [ -> [ -> | [ -> | [ -> | [ -> | -> ] ] ] ] ];
        vm_compute in Hcall; try discriminate.
      reflexivity.
  - apply Hpast. exists (new_appointment (slot 7 540 570) alice 0).
    split; [by vm_compute|]. split; [reflexivity|].
    intros [Hs _]. destruct Hs as [_ Hs]; [by eexists|].
    vm_compute in Hs. by destruct Hs.
Defined.
End more_examples.
